(** * Monday-range breakout statistics

    A shallow embedding of the code of the repository
    (analyze_monday_ranges.py, monday_partial_breaks.py,
    simple_monday_analysis.py, the loader they share, and
    process_candles.py) together with the properties its specification
    states about it and further properties of the code.

    Modelling choices.
    - A pandas DataFrame is a [list Row]; a boolean-mask selection
      [df[mask]] is an order-preserving [filter].
    - Prices are float64 in the source.  The only operations the
      analysis performs on them are the comparisons [>] and [<], which on
      finite floats coincide with the order of the rationals they denote:
      prices are [Qc].  Ratios computed with Python's [/] are stated over
      exact rationals as well.
    - A date is the number of days since 1970-01-01 (the CSV carries
      day resolution).  [dt.dayofweek] and [dt.isocalendar()] are library
      functions; they are modelled by the ISO 8601 rules.
    - Python exceptions are the [Raise] results of a small error monad. *)

From Stdlib Require Import ZArith QArith Qcanon Lia Ascii.
From stdpp Require Import base list sorting numbers gmap strings pretty.

Local Open Scope Z_scope.
Local Set Warnings "-clear-no-such-hyp".

(** ** Exceptions *)

Inductive exn : Set :=
  IndexError | KeyError | ZeroDivisionError | AttributeError.

Inductive result (A : Type) : Type :=
  | Ok (a : A)
  | Raise (e : exn).
Arguments Ok {A} a.
Arguments Raise {A} e.

Global Instance result_ret : MRet result := λ A a, Ok a.
Global Instance result_bind : MBind result := λ A B f m,
  match m with Ok a => f a | Raise e => Raise e end.
Global Instance result_fmap : FMap result := λ A B f m,
  match m with Ok a => Ok (f a) | Raise e => Raise e end.

(** [for x in xs: st = body(st, x)], stopping at the first exception. *)
Fixpoint for_each {S X : Type} (body : S → X → result S) (st : S) (xs : list X)
  : result S :=
  match xs with
  | [] => Ok st
  | x :: xs' => st' ← body st x; for_each body st' xs'
  end.

(** [series.iloc[0]]: the first element, IndexError on an empty series. *)
Definition iloc0 {A : Type} (s : list A) : result A :=
  match s with
  | [] => Raise IndexError
  | x :: _ => Ok x
  end.

(** [frame.empty] *)
Definition empty_frame {A : Type} (s : list A) : bool :=
  match s with [] => true | _ :: _ => false end.

(** [len(xs)] *)
Definition len {A : Type} (l : list A) : Z := Z.of_nat (length l).

(** Python's true division of two integers. *)
Definition true_div (a b : Z) : result Qc :=
  if decide (b = 0) then Raise ZeroDivisionError
  else Ok (Qc_of_Z a / Qc_of_Z b)%Qc.

(** ** Calendar (pandas [dt] accessors) *)

Module Calendar.

(** Days since 1970-01-01 of the civil date y-m-d (proleptic Gregorian). *)
Definition days_from_civil (y m d : Z) : Z :=
  let y' := if decide (m ≤ 2) then y - 1 else y in
  let era := y' `div` 400 in
  let yoe := y' - era * 400 in
  let mp := if decide (2 < m) then m - 3 else m + 9 in
  let doy := (153 * mp + 2) `div` 5 + d - 1 in
  let doe := yoe * 365 + yoe `div` 4 - yoe `div` 100 + doy in
  era * 146097 + doe - 719468.

(** The civil year of a day number. *)
Definition year_of (z : Z) : Z :=
  let z' := z + 719468 in
  let era := z' `div` 146097 in
  let doe := z' - era * 146097 in
  let yoe :=
    (doe - doe `div` 1460 + doe `div` 36524 - doe `div` 146096) `div` 365 in
  let doy := doe - (365 * yoe + yoe `div` 4 - yoe `div` 100) in
  let mp := (5 * doy + 2) `div` 153 in
  let m := if decide (mp < 10) then mp + 3 else mp - 9 in
  yoe + era * 400 + (if decide (m ≤ 2) then 1 else 0).

(** [dt.dayofweek]: Monday = 0 ... Sunday = 6; 1970-01-01 was a Thursday. *)
Definition dayofweek (d : Z) : Z := (d + 3) `mod` 7.

(** The Thursday of the ISO week of [d]. *)
Definition thursday (d : Z) : Z := d - dayofweek d + 3.

(** [dt.isocalendar().year]: the year that contains the week's Thursday. *)
Definition iso_year (d : Z) : Z := year_of (thursday d).

(** [dt.isocalendar().week] *)
Definition iso_week (d : Z) : Z :=
  (thursday d - days_from_civil (iso_year d) 1 1) `div` 7 + 1.

End Calendar.

(** ** Data frames *)

(** A row of the CSV file: Date;Open;High;Low;Close. *)
Record Candle : Type := mkCandle {
  candle_date : Z;
  candle_open : Qc;
  candle_high : Qc;
  candle_low : Qc;
  candle_close : Qc
}.

(** A row of the frame the analysis functions receive. *)
Record Row : Type := mkRow {
  Date : Z;
  Open : Qc;
  High : Qc;
  Low : Qc;
  Close : Qc;
  DayOfWeek : Z;
  Week : Z;
  Year : Z
}.

(** [load_data], after the CSV has been read: every row gets the three
    derived columns DayOfWeek, Week and Year. *)
Definition add_columns (c : Candle) : Row :=
  {| Date := candle_date c;
     Open := candle_open c; High := candle_high c;
     Low := candle_low c; Close := candle_close c;
     DayOfWeek := Calendar.dayofweek (candle_date c);
     Week := Calendar.iso_week (candle_date c);
     Year := Calendar.iso_year (candle_date c) |}.

Definition load_data (csv : list Candle) : list Row := add_columns <$> csv.

Global Instance Row_eq_dec : EqDecision Row.
Proof. solve_decision. Defined.

(** The group key of [df.groupby(['Week', 'Year'])]. *)
Definition WeekKey : Type := Z * Z.

Definition week_year (r : Row) : WeekKey := (Week r, Year r).

(** Group keys are compared as tuples: Week first, then Year. *)
Definition key_le (a b : WeekKey) : Prop :=
  a.1 < b.1 ∨ (a.1 = b.1 ∧ a.2 ≤ b.2).

Global Instance key_le_dec : RelDecision key_le.
Proof. intros a b. unfold key_le. apply _. Defined.

(** [df.groupby(['Week', 'Year'])]: one group per distinct key, groups in
    ascending key order (sort=True is the default), rows of a group in
    their order in [df]. *)
Definition group_keys (df : list Row) : list WeekKey :=
  merge_sort key_le (remove_dups (week_year <$> df)).

Definition groupby_Week_Year (df : list Row) : list (WeekKey * list Row) :=
  (λ k, (k, filter (λ r, week_year r = k) df)) <$> group_keys df.

(** The selections made on every group, named after the variables that
    hold them:
    [week_data[week_data['DayOfWeek'] == 0]],
    [week_data[week_data['DayOfWeek'].isin([1,2,3,4])]],
    [rest_of_week[rest_of_week['High'] > monday_high]] and
    [rest_of_week[rest_of_week['Low'] < monday_low]]. *)
Definition monday_data (week_data : list Row) : list Row :=
  filter (λ r, DayOfWeek r = 0) week_data.

Definition rest_of_week (week_data : list Row) : list Row :=
  filter (λ r, DayOfWeek r ∈ [1; 2; 3; 4]) week_data.

Definition high_break_days (monday_high : Qc) (rows : list Row) : list Row :=
  filter (λ r, (monday_high < High r)%Qc) rows.

Definition low_break_days (monday_low : Qc) (rows : list Row) : list Row :=
  filter (λ r, (Low r < monday_low)%Qc) rows.

(** [counter[key] += 1] on a collections.Counter (a missing key reads 0). *)
Definition counter_incr (key : Z) (c : gmap Z Z) : gmap Z Z :=
  <[key := default 0 (c !! key) + 1]> c.

(** ** analyze_monday_ranges.py *)

Module MondayRanges.

(** The local variables of [analyze_monday_ranges] that live across
    iterations. *)
Record state : Type := mkState {
  monday_highs_taken : Z;
  monday_lows_taken : Z;
  both_broken : Z;
  total_mondays : Z;
  day_high_break : gmap Z Z;
  day_low_break : gmap Z Z
}.

Definition init : state := mkState 0 0 0 0 ∅ ∅.

(** One iteration of [for (week, year), week_data in df.groupby(...)]. *)
Definition loop_body (st : state) (grp : WeekKey * list Row) : result state :=
  let week_data := grp.2 in
  let monday_data := monday_data week_data in
  if decide (length monday_data = 0%nat) then Ok st (* continue *) else
  let total := total_mondays st + 1 in
  monday_high ← iloc0 (High <$> monday_data);
  monday_low ← iloc0 (Low <$> monday_data);
  let rest_of_week := rest_of_week week_data in
  (* Check high break *)
  let high_break_days := high_break_days monday_high rest_of_week in
  let high_broken := negb (empty_frame high_break_days) in
  '(highs, dhb) ←
    (if high_broken then
       first_break_day ← iloc0 (DayOfWeek <$> high_break_days);
       Ok (monday_highs_taken st + 1,
           counter_incr first_break_day (day_high_break st))
     else Ok (monday_highs_taken st, day_high_break st));
  (* Check low break *)
  let low_break_days := low_break_days monday_low rest_of_week in
  let low_broken := negb (empty_frame low_break_days) in
  '(lows, dlb) ←
    (if low_broken then
       first_break_day ← iloc0 (DayOfWeek <$> low_break_days);
       Ok (monday_lows_taken st + 1,
           counter_incr first_break_day (day_low_break st))
     else Ok (monday_lows_taken st, day_low_break st));
  (* Track weeks where both were broken *)
  let both :=
    if high_broken && low_broken then both_broken st + 1 else both_broken st in
  Ok (mkState highs lows both total dhb dlb).

(** Returns total_mondays, monday_highs_taken, monday_lows_taken,
    both_broken, day_high_break, day_low_break. *)
Definition analyze_monday_ranges (df : list Row)
  : result (Z * Z * Z * Z * gmap Z Z * gmap Z Z) :=
  st ← for_each loop_body init (groupby_Week_Year df);
  Ok (total_mondays st, monday_highs_taken st, monday_lows_taken st,
      both_broken st, day_high_break st, day_low_break st).

Definition day_names : gmap Z string :=
  {[ 1 := "Tuesday"; 2 := "Wednesday"; 3 := "Thursday"; 4 := "Friday" ]}%string.

(** [d[k]] on a dict: KeyError when the key is missing. *)
Definition subscript (d : gmap Z string) (k : Z) : result string :=
  match d !! k with
  | Some v => Ok v
  | None => Raise KeyError
  end.

(** [{day_names[day]: count/taken if taken > 0 else 0
      for day, count in tally.items()}].
    The items are visited in the order [map_to_list] lists them; the
    resulting dict does not depend on it. *)
Definition day_probs (taken : Z) (tally : gmap Z Z) : result (gmap string Qc) :=
  for_each
    (λ (acc : gmap string Qc) (item : Z * Z),
       name ← subscript day_names item.1;
       p ← (if decide (0 < taken) then true_div item.2 taken else Ok 0%Qc);
       Ok (<[name := p]> acc))
    ∅ (map_to_list tally).

(** Returns high_break_prob, low_break_prob, day_high_probs,
    day_low_probs. *)
Definition calculate_probabilities
    (total_mondays monday_highs_taken monday_lows_taken both_broken : Z)
    (day_high_break day_low_break : gmap Z Z)
  : result (Qc * Qc * gmap string Qc * gmap string Qc) :=
  high_break_prob ←
    (if decide (0 < total_mondays)
     then true_div monday_highs_taken total_mondays else Ok 0%Qc);
  low_break_prob ←
    (if decide (0 < total_mondays)
     then true_div monday_lows_taken total_mondays else Ok 0%Qc);
  day_high_probs ← day_probs monday_highs_taken day_high_break;
  day_low_probs ← day_probs monday_lows_taken day_low_break;
  Ok (high_break_prob, low_break_prob, day_high_probs, day_low_probs).

(** The combined probability [print_results] computes and prints:
    P(A or B) = P(A) + P(B) - P(A and B). *)
Definition either_break_prob
    (total_mondays monday_highs_taken monday_lows_taken both_broken : Z)
  : result Qc :=
  if decide (0 < total_mondays)
  then true_div (monday_highs_taken + monday_lows_taken - both_broken)
                total_mondays
  else Ok 0%Qc.

(** What a run reports. *)
Record report : Type := mkReport {
  high_break_prob : Qc;
  low_break_prob : Qc;
  day_high_probs : gmap string Qc;
  day_low_probs : gmap string Qc;
  either_prob : Qc
}.

(** [main], from the loaded frame on. *)
Definition main (df : list Row) : result report :=
  '(total, highs, lows, both, dhb, dlb) ← analyze_monday_ranges df;
  '(hp, lp, dhp, dlp) ← calculate_probabilities total highs lows both dhb dlb;
  e ← either_break_prob total highs lows both;
  Ok (mkReport hp lp dhp dlp e).

End MondayRanges.

(** ** monday_partial_breaks.py *)

Module PartialBreaks.

(** The dict [week_info] stored for every analysed week. *)
Record week_info : Type := mkWeekInfo {
  wi_Date : Z;
  wi_Week : Z;
  wi_Year : Z;
  wi_Monday_High : Qc;
  wi_Monday_Low : Qc;
  wi_High_Break_Day : option Z;
  wi_Low_Break_Day : option Z
}.

Record state : Type := mkState {
  only_high_broken : list week_info;
  only_low_broken : list week_info;
  neither_broken : list week_info;
  both_broken : list week_info;
  total_mondays : Z
}.

Definition init : state := mkState [] [] [] [] 0.

(** One iteration of [for (week, year), week_data in df.groupby(...)]. *)
Definition loop_body (st : state) (grp : WeekKey * list Row) : result state :=
  let '((week, year), week_data) := grp in
  let monday_data := monday_data week_data in
  if decide (length monday_data = 0%nat) then Ok st (* continue *) else
  let total := total_mondays st + 1 in
  monday_high ← iloc0 (High <$> monday_data);
  monday_low ← iloc0 (Low <$> monday_data);
  monday_date ← iloc0 (Date <$> monday_data);
  let rest_of_week := rest_of_week week_data in
  (* Check high break *)
  let high_break_days := high_break_days monday_high rest_of_week in
  let high_broken := negb (empty_frame high_break_days) in
  (* Check low break *)
  let low_break_days := low_break_days monday_low rest_of_week in
  let low_broken := negb (empty_frame low_break_days) in
  (* Store week data *)
  high_break_day ←
    (if high_broken then Some <$> iloc0 (DayOfWeek <$> high_break_days)
     else Ok None);
  low_break_day ←
    (if low_broken then Some <$> iloc0 (DayOfWeek <$> low_break_days)
     else Ok None);
  let info :=
    mkWeekInfo monday_date week year monday_high monday_low
               high_break_day low_break_day in
  Ok (if high_broken && negb low_broken then
        mkState (only_high_broken st ++ [info]) (only_low_broken st)
                (neither_broken st) (both_broken st) total
      else if low_broken && negb high_broken then
        mkState (only_high_broken st) (only_low_broken st ++ [info])
                (neither_broken st) (both_broken st) total
      else if negb high_broken && negb low_broken then
        mkState (only_high_broken st) (only_low_broken st)
                (neither_broken st ++ [info]) (both_broken st) total
      else
        mkState (only_high_broken st) (only_low_broken st)
                (neither_broken st) (both_broken st ++ [info]) total).

(** Returns only_high_broken, only_low_broken, neither_broken,
    both_broken, total_mondays. *)
Definition analyze_partial_breaks (df : list Row)
  : result (list week_info * list week_info * list week_info
            * list week_info * Z) :=
  st ← for_each loop_body init (groupby_Week_Year df);
  Ok (only_high_broken st, only_low_broken st, neither_broken st,
      both_broken st, total_mondays st).

(** The two ratios [create_excel_report] writes to cells A8 and A9. *)
Record summary : Type := mkSummary {
  incomplete_breaks : Qc;
  complete_breaks : Qc
}.

Definition create_excel_report
    (only_high_broken only_low_broken neither_broken both_broken
       : list week_info)
    (total_mondays : Z) : result summary :=
  a8 ← true_div (len only_high_broken + len only_low_broken
                 + len neither_broken) total_mondays;
  a9 ← true_div (len both_broken) total_mondays;
  Ok (mkSummary a8 a9).

(** [main], from the loaded frame on. *)
Definition main (df : list Row) : result summary :=
  '(oh, ol, ne, bo, total) ← analyze_partial_breaks df;
  create_excel_report oh ol ne bo total.

End PartialBreaks.

(** ** simple_monday_analysis.py *)

Module SimpleAnalysis.

(** The dict stored for a week in which neither level was broken. *)
Record unbroken_week : Type := mkUnbroken {
  uw_Date : Z;
  uw_Week : Z;
  uw_Year : Z;
  uw_Monday_High : Qc;
  uw_Monday_Low : Qc
}.

Record state : Type := mkState {
  monday_highs_taken : Z;
  monday_lows_taken : Z;
  total_mondays : Z;
  day_high_break : gmap Z Z;
  day_low_break : gmap Z Z;
  unbroken_weeks : list unbroken_week
}.

Definition init : state := mkState 0 0 0 ∅ ∅ [].

(** One iteration of [for (week, year), week_data in df.groupby(...)]. *)
Definition loop_body (st : state) (grp : WeekKey * list Row) : result state :=
  let '((week, year), week_data) := grp in
  let monday_data := monday_data week_data in
  if decide (length monday_data = 0%nat) then Ok st (* continue *) else
  let total := total_mondays st + 1 in
  monday_high ← iloc0 (High <$> monday_data);
  monday_low ← iloc0 (Low <$> monday_data);
  monday_date ← iloc0 (Date <$> monday_data);
  let rest_of_week := rest_of_week week_data in
  (* Check high break *)
  let high_break_days := high_break_days monday_high rest_of_week in
  let high_broken := negb (empty_frame high_break_days) in
  '(highs, dhb) ←
    (if high_broken then
       first_break_day ← iloc0 (DayOfWeek <$> high_break_days);
       Ok (monday_highs_taken st + 1,
           counter_incr first_break_day (day_high_break st))
     else Ok (monday_highs_taken st, day_high_break st));
  (* Check low break *)
  let low_break_days := low_break_days monday_low rest_of_week in
  let low_broken := negb (empty_frame low_break_days) in
  '(lows, dlb) ←
    (if low_broken then
       first_break_day ← iloc0 (DayOfWeek <$> low_break_days);
       Ok (monday_lows_taken st + 1,
           counter_incr first_break_day (day_low_break st))
     else Ok (monday_lows_taken st, day_low_break st));
  (* If neither high nor low was broken, store this week's info *)
  let unbroken :=
    if negb high_broken && negb low_broken
    then unbroken_weeks st
         ++ [mkUnbroken monday_date week year monday_high monday_low]
    else unbroken_weeks st in
  Ok (mkState highs lows total dhb dlb unbroken).

(** Returns total_mondays, monday_highs_taken, monday_lows_taken,
    day_high_break, day_low_break, unbroken_weeks. *)
Definition analyze_monday_ranges (df : list Row)
  : result (Z * Z * Z * gmap Z Z * gmap Z Z * list unbroken_week) :=
  st ← for_each loop_body init (groupby_Week_Year df);
  Ok (total_mondays st, monday_highs_taken st, monday_lows_taken st,
      day_high_break st, day_low_break st, unbroken_weeks st).

(** The same function as in analyze_monday_ranges.py, without the
    parameter both_broken; its [day_names] and its two dict
    comprehensions are those of [MondayRanges.day_probs]. *)
Definition calculate_probabilities
    (total_mondays monday_highs_taken monday_lows_taken : Z)
    (day_high_break day_low_break : gmap Z Z)
  : result (Qc * Qc * gmap string Qc * gmap string Qc) :=
  high_break_prob ←
    (if decide (0 < total_mondays)
     then true_div monday_highs_taken total_mondays else Ok 0%Qc);
  low_break_prob ←
    (if decide (0 < total_mondays)
     then true_div monday_lows_taken total_mondays else Ok 0%Qc);
  day_high_probs ← MondayRanges.day_probs monday_highs_taken day_high_break;
  day_low_probs ← MondayRanges.day_probs monday_lows_taken day_low_break;
  Ok (high_break_prob, low_break_prob, day_high_probs, day_low_probs).

(** [sum(day * count for day, count in counter.items())] *)
Definition day_count_sum (counter : gmap Z Z) : Z :=
  foldr Z.add 0 ((λ item : Z * Z, item.1 * item.2) <$> map_to_list counter).

(** The numbers [create_excel_report] computes itself: the two average
    break days of the summary statistics and the number of unbroken
    weeks.  (The probabilities it is given are only formatted.) *)
Record report : Type := mkReport {
  average_high_break_day : Qc;
  average_low_break_day : Qc;
  unbroken_count : Z
}.

Definition create_excel_report
    (total_mondays monday_highs_taken monday_lows_taken : Z)
    (high_break_prob low_break_prob : Qc)
    (day_high_probs day_low_probs : gmap string Qc)
    (day_high_break day_low_break : gmap Z Z)
    (unbroken_weeks : list unbroken_week) : result report :=
  average_high ← true_div (day_count_sum day_high_break) monday_highs_taken;
  average_low ← true_div (day_count_sum day_low_break) monday_lows_taken;
  Ok (mkReport average_high average_low (len unbroken_weeks)).

(** [main], from the loaded frame on. *)
Definition main (df : list Row) : result report :=
  '(total, highs, lows, dhb, dlb, unbroken) ← analyze_monday_ranges df;
  '(hp, lp, dhp, dlp) ← calculate_probabilities total highs lows dhb dlb;
  create_excel_report total highs lows hp lp dhp dlp dhb dlb unbroken.

End SimpleAnalysis.

(** ** process_candles.py *)

Module ProcessCandles.

(** A row of the raw frame after the columns have been renamed to Date,
    Close, Open, High, Low and [parse_german_date] has been applied to
    Date: [None] where the date string could not be parsed. *)
Record RawRow : Type := mkRaw {
  raw_Date : option Z;
  raw_Close : Qc;
  raw_Open : Qc;
  raw_High : Qc;
  raw_Low : Qc
}.

(** [df.dropna(subset=['Date'])] *)
Definition dropna_Date (df : list RawRow) : list Candle :=
  omap (λ r, (λ d, mkCandle d (raw_Open r) (raw_High r) (raw_Low r)
                            (raw_Close r)) <$> raw_Date r) df.

(** [frame.drop_duplicates()]: the first occurrence of every row is kept. *)
Definition drop_duplicates {A : Type} `{!EqDecision A} (l : list A) : list A :=
  foldl (λ acc x, if decide (x ∈ acc) then acc else acc ++ [x]) [] l.

(** [pd.merge(left, right, on=['Week', 'Year'])]: the inner join, one row
    for every pair of a left row and a right row with the same key, in the
    order of the left rows.  The right frame has only the key columns. *)
Definition merge_on_Week_Year (left : list Row) (right : list WeekKey)
  : list Row :=
  left ≫= λ r, (λ _, r) <$> filter (λ k, k = week_year r) right.

(** [filtered_df.drop(['Week', 'Year', 'DayOfWeek'], axis=1)] *)
Definition drop_helper_columns (r : Row) : Candle :=
  mkCandle (Date r) (Open r) (High r) (Low r) (Close r).

(** [df['Date'].dt], the datetime accessor of the Date column, after
    [apply(parse_german_date)] and [dropna].  The column holds datetimes
    when at least one date was parsed; with no row, or with no parsed date,
    it is an object column, on which the accessor raises AttributeError. *)
Definition dt (df : list Candle) : result (list Candle) :=
  match df with
  | [] => Raise AttributeError
  | _ :: _ => Ok df
  end.

(** [process_candles] from the parsed frame to the rows it writes; an
    exception is logged and raised again, and no file is written.
    [sort_values_Date] stands for [filtered_df.sort_values('Date')], which
    sorts with an algorithm that need not keep the order of rows with equal
    dates. *)
Definition process_candles (sort_values_Date : list Row → list Row)
    (raw : list RawRow) : result (list Candle) :=
  (* Remove any rows where date parsing failed *)
  let df := dropna_Date raw in
  (* Add a week number column; add a day of week column *)
  dates ← dt df;
  let df := add_columns <$> dates in
  (* Find weeks that have a Monday *)
  let weeks_with_monday :=
    drop_duplicates (week_year <$> filter (λ r, DayOfWeek r = 0) df) in
  (* Filter the dataframe to only keep weeks that have a Monday *)
  let filtered_df := merge_on_Week_Year df weeks_with_monday in
  (* Sort by date *)
  let filtered_df := sort_values_Date filtered_df in
  (* Drop the helper columns *)
  Ok (drop_helper_columns <$> filtered_df).

(** A sorting function to run [process_candles] with. *)
Definition date_le (a b : Row) : Prop := Date a ≤ Date b.

Global Instance date_le_dec : RelDecision date_le.
Proof. intros a b. unfold date_le. apply _. Defined.

Definition sort_by_Date (df : list Row) : list Row := merge_sort date_le df.

End ProcessCandles.

(** ** monday_partial_breaks.py: the worksheet *)

Module Report.

(** The civil date (year, month, day) of a day number. *)
Definition civil_from_days (z : Z) : Z * Z * Z :=
  let z' := z + 719468 in
  let era := z' `div` 146097 in
  let doe := z' - era * 146097 in
  let yoe :=
    (doe - doe `div` 1460 + doe `div` 36524 - doe `div` 146096) `div` 365 in
  let doy := doe - (365 * yoe + yoe `div` 4 - yoe `div` 100) in
  let mp := (5 * doy + 2) `div` 153 in
  let d := doy - (153 * mp + 2) `div` 5 + 1 in
  let m := if decide (mp < 10) then mp + 3 else mp - 9 in
  (yoe + era * 400 + (if decide (m ≤ 2) then 1 else 0), m, d).

(** A number in two digits. *)
Definition pad2 (n : Z) : string :=
  if decide (n < 10) then "0" +:+ pretty n else pretty n.

(** [timestamp.strftime('%Y-%m-%d')].  The year of a pandas timestamp has
    four digits (timestamps lie between the years 1677 and 2262). *)
Definition strftime_Ymd (date : Z) : string :=
  let '(y, m, d) := civil_from_days date in
  pretty y +:+ "-" +:+ pad2 m +:+ "-" +:+ pad2 d.

(** [day_to_name]: the name of a break day, "Not Broken" for None and the
    number itself, as a string, for a day without a name. *)
Definition day_to_name (day : option Z) : string :=
  match day with
  | None => "Not Broken"
  | Some d => default (pretty d) (MondayRanges.day_names !! d)
  end.

(** What the report stores in a cell: a string, an integer (Week, Year) or
    a float (Monday High, Monday Low). *)
Inductive cell_value : Type :=
  | Text (s : string)
  | Integer (n : Z)
  | Float (q : Qc).

Record Font : Type := mkFont { font_bold : bool; font_size : Z }.

Record PatternFill : Type := mkPatternFill {
  start_color : string;
  end_color : string;
  fill_type : string
}.

(** A cell: its value and the styles assigned to it, if any. *)
Record cell : Type := mkCell {
  value : option cell_value;
  font : option Font;
  fill : option PatternFill
}.

(** A worksheet maps (row, column) to the cells that exist; column 1 is
    column A. *)
Abbreviation worksheet := (gmap (Z * Z) cell).

Definition blank : cell := mkCell None None None.

(** [ws.cell(row, column)]: the cell, created blank when it is missing. *)
Definition get (ws : worksheet) (rc : Z * Z) : cell := default blank (ws !! rc).

(** [ws.cell(row, column, value=v)], [ws.cell(...).font = f] and
    [ws.cell(...).fill = f]. *)
Definition set_value (ws : worksheet) (rc : Z * Z) (v : cell_value)
  : worksheet :=
  <[rc := mkCell (Some v) (font (get ws rc)) (fill (get ws rc))]> ws.

Definition set_font (ws : worksheet) (rc : Z * Z) (f : Font) : worksheet :=
  <[rc := mkCell (value (get ws rc)) (Some f) (fill (get ws rc))]> ws.

Definition set_fill (ws : worksheet) (rc : Z * Z) (f : PatternFill)
  : worksheet :=
  <[rc := mkCell (value (get ws rc)) (font (get ws rc)) (Some f)]> ws.

(** The style definitions of [write_section]. *)
Definition header_font : Font := mkFont true 12.
Definition header_fill : PatternFill := mkPatternFill "CCCCCC" "CCCCCC" "solid".
Definition subheader_fill : PatternFill :=
  mkPatternFill "EEEEEE" "EEEEEE" "solid".

Definition headers : list string :=
  ["Date"; "Week"; "Year"; "Monday High"; "Monday Low"; "High Break Day";
   "Low Break Day"]%string.

(** [enumerate(xs, start)] *)
Definition enumerate {A : Type} (xs : list A) (start : Z) : list (Z * A) :=
  zip (seqZ start (len xs)) xs.

(** The body of [for col, header in enumerate(headers, 1)]. *)
Definition write_header (start_row : Z) (ws : worksheet) (item : Z * string)
  : worksheet :=
  let ws := set_value ws (start_row + 1, item.1) (Text item.2) in
  let ws := set_font ws (start_row + 1, item.1) header_font in
  set_fill ws (start_row + 1, item.1) subheader_fill.

(** The body of [for row_idx, week_data in enumerate(data, start_row + 2)];
    the loop variable row_idx is part of the state because it is read after
    the loop. *)
Definition write_week (st : worksheet * Z)
    (item : Z * PartialBreaks.week_info) : worksheet * Z :=
  let ws := st.1 in
  let row_idx := item.1 in
  let week_data := item.2 in
  let ws := set_value ws (row_idx, 1)
              (Text (strftime_Ymd (PartialBreaks.wi_Date week_data))) in
  let ws := set_value ws (row_idx, 2)
              (Integer (PartialBreaks.wi_Week week_data)) in
  let ws := set_value ws (row_idx, 3)
              (Integer (PartialBreaks.wi_Year week_data)) in
  let ws := set_value ws (row_idx, 4)
              (Float (PartialBreaks.wi_Monday_High week_data)) in
  let ws := set_value ws (row_idx, 5)
              (Float (PartialBreaks.wi_Monday_Low week_data)) in
  let ws := set_value ws (row_idx, 6)
              (Text (day_to_name (PartialBreaks.wi_High_Break_Day week_data))) in
  let ws := set_value ws (row_idx, 7)
              (Text (day_to_name (PartialBreaks.wi_Low_Break_Day week_data))) in
  (ws, row_idx).

(** [write_section]: returns the worksheet and the next available row.
    In the second branch [data] is not empty, so row_idx has been assigned
    by the loop when it is read; the initial value of the fold is never
    returned. *)
Definition write_section (ws : worksheet) (title : string)
    (data : list PartialBreaks.week_info) (start_row : Z) : worksheet * Z :=
  (* Write title *)
  let ws := set_value ws (start_row, 1) (Text title) in
  let ws := set_font ws (start_row, 1) header_font in
  let ws := set_fill ws (start_row, 1) header_fill in
  match data with
  | [] =>
      (set_value ws (start_row + 1, 1) (Text "No instances found"),
       start_row + 2)
  | _ :: _ =>
      (* Write headers *)
      let ws := foldl (write_header start_row) ws (enumerate headers 1) in
      (* Write data *)
      let st := foldl write_week (ws, start_row)
                      (enumerate data (start_row + 2)) in
      (st.1, st.2 + 2)
  end.

(** The four sections [create_excel_report] writes from row 11 on. *)
Definition write_sections (ws : worksheet)
    (only_high_broken only_low_broken neither_broken both_broken
       : list PartialBreaks.week_info) : worksheet * Z :=
  let row := 11 in
  let sec := write_section ws "Weeks with Only High Broken:"
                           only_high_broken row in
  let sec := write_section sec.1 "Weeks with Only Low Broken:"
                           only_low_broken (sec.2 + 2) in
  let sec := write_section sec.1 "Weeks with Neither Level Broken:"
                           neither_broken (sec.2 + 2) in
  write_section sec.1 "Weeks with Both Levels Broken:"
                both_broken (sec.2 + 2).

End Report.

(** ** process_candles.py: a written file read again

    The raw frame a run of [process_candles] gets from a file that
    [process_candles] has written: [to_csv] writes the Date column with
    [date_format='%Y-%m-%d'] and the other columns as they are, and the
    next run applies [parse_german_date] to the date strings it reads.
    The parser itself, [pd.to_datetime] with the format '%A, %d. %B %Y'
    in the German locale, is a parameter. *)
Definition read_written (parse_german_date : string → option Z)
    (written : list Candle) : list ProcessCandles.RawRow :=
  (λ c, ProcessCandles.mkRaw
          (parse_german_date (Report.strftime_Ymd (candle_date c)))
          (candle_close c) (candle_open c) (candle_high c) (candle_low c))
    <$> written.

(** ** The per-week outcome and the two aggregations

    Both loops classify a week in the same way and differ in what they
    accumulate.  [classify_week] names the common classification, with the
    fields of the WeekOutcome of the specification's data model;
    [ranges_count] and [partial_store] name what one eligible week adds to
    the state of either loop.  The lemmas [ranges_loop_body] and
    [partial_loop_body] below show that the loop bodies above compute
    exactly these. *)

Record WeekOutcome : Type := mkOutcome {
  weekKey : WeekKey;
  mondayDate : Z;
  mondayHigh : Qc;
  mondayLow : Qc;
  highBroken : bool;
  lowBroken : bool;
  firstHighBreakDay : option Z;
  firstLowBreakDay : option Z
}.

(** [break_days['DayOfWeek'].iloc[0]], where there is one. *)
Definition first_day (break_days : list Row) : option Z :=
  DayOfWeek <$> head break_days.

(** The outcome of a group; [None] for a group without a Monday record. *)
Definition classify_week (grp : WeekKey * list Row) : option WeekOutcome :=
  match monday_data grp.2 with
  | [] => None
  | monday :: _ =>
      let hb := high_break_days (High monday) (rest_of_week grp.2) in
      let lb := low_break_days (Low monday) (rest_of_week grp.2) in
      Some (mkOutcome grp.1 (Date monday) (High monday) (Low monday)
                      (negb (empty_frame hb)) (negb (empty_frame lb))
                      (first_day hb) (first_day lb))
  end.

(** The outcomes of the eligible weeks, in the order the loops visit them. *)
Definition outcomes (df : list Row) : list WeekOutcome :=
  omap classify_week (groupby_Week_Year df).

(** The four categories. *)
Definition onlyHigh (o : WeekOutcome) : Prop := highBroken o ∧ ¬ lowBroken o.
Definition onlyLow (o : WeekOutcome) : Prop := lowBroken o ∧ ¬ highBroken o.
Definition neither (o : WeekOutcome) : Prop := ¬ highBroken o ∧ ¬ lowBroken o.
Definition both (o : WeekOutcome) : Prop := highBroken o ∧ lowBroken o.

Global Instance onlyHigh_dec o : Decision (onlyHigh o).
Proof. unfold onlyHigh. apply _. Defined.
Global Instance onlyLow_dec o : Decision (onlyLow o).
Proof. unfold onlyLow. apply _. Defined.
Global Instance neither_dec o : Decision (neither o).
Proof. unfold neither. apply _. Defined.
Global Instance both_dec o : Decision (both o).
Proof. unfold both. apply _. Defined.

(** A Counter fed with a sequence of keys. *)
Definition tally (days : list Z) (c : gmap Z Z) : gmap Z Z :=
  foldl (λ c d, counter_incr d c) c days.

(** [if b: n += 1] *)
Definition bump (b : bool) (n : Z) : Z := if b then n + 1 else n.

(** [counter[d] += 1] when there is a first-break day. *)
Definition incr_opt (d : option Z) (c : gmap Z Z) : gmap Z Z :=
  match d with Some d => counter_incr d c | None => c end.

(** What an eligible week with outcome [o] adds to the counters of
    [analyze_monday_ranges]. *)
Definition ranges_count (st : MondayRanges.state) (o : WeekOutcome)
  : MondayRanges.state :=
  MondayRanges.mkState
    (bump (highBroken o) (MondayRanges.monday_highs_taken st))
    (bump (lowBroken o) (MondayRanges.monday_lows_taken st))
    (bump (highBroken o && lowBroken o) (MondayRanges.both_broken st))
    (MondayRanges.total_mondays st + 1)
    (incr_opt (firstHighBreakDay o) (MondayRanges.day_high_break st))
    (incr_opt (firstLowBreakDay o) (MondayRanges.day_low_break st)).

(** The dict [week_info] of a week with outcome [o]. *)
Definition info_of (o : WeekOutcome) : PartialBreaks.week_info :=
  PartialBreaks.mkWeekInfo (mondayDate o) (weekKey o).1 (weekKey o).2
    (mondayHigh o) (mondayLow o) (firstHighBreakDay o) (firstLowBreakDay o).

(** [if b: l.append(x)] *)
Definition snoc_if {A : Type} (b : bool) (l : list A) (x : A) : list A :=
  if b then l ++ [x] else l.

(** What an eligible week with outcome [o] adds to the lists of
    [analyze_partial_breaks]. *)
Definition partial_store (st : PartialBreaks.state) (o : WeekOutcome)
  : PartialBreaks.state :=
  PartialBreaks.mkState
    (snoc_if (bool_decide (onlyHigh o)) (PartialBreaks.only_high_broken st) (info_of o))
    (snoc_if (bool_decide (onlyLow o)) (PartialBreaks.only_low_broken st) (info_of o))
    (snoc_if (bool_decide (neither o)) (PartialBreaks.neither_broken st) (info_of o))
    (snoc_if (bool_decide (both o)) (PartialBreaks.both_broken st) (info_of o))
    (PartialBreaks.total_mondays st + 1).

(** ** Vocabulary of the statements *)

(** The strict order of the group keys: Week first, then Year. *)
Definition key_lt (a b : WeekKey) : Prop :=
  a.1 < b.1 ∨ (a.1 = b.1 ∧ a.2 < b.2).

Global Instance key_lt_dec : RelDecision key_lt.
Proof. intros a b. unfold key_lt. apply _. Defined.

(** A candle that breaks Monday's high, resp. low: a Tuesday-to-Friday
    candle strictly beyond the Monday value. *)
Definition high_break (monday c : Row) : Prop :=
  DayOfWeek c ∈ [1; 2; 3; 4] ∧ (High monday < High c)%Qc.

Definition low_break (monday c : Row) : Prop :=
  DayOfWeek c ∈ [1; 2; 3; 4] ∧ (Low c < Low monday)%Qc.

Global Instance high_break_dec m c : Decision (high_break m c).
Proof. unfold high_break. apply _. Defined.

Global Instance low_break_dec m c : Decision (low_break m c).
Proof. unfold low_break. apply _. Defined.

(** The week a stored [week_info] belongs to. *)
Definition info_key (w : PartialBreaks.week_info) : WeekKey :=
  (PartialBreaks.wi_Week w, PartialBreaks.wi_Year w).

(** The week [k] has an entry in the list [l]. *)
Definition listed (k : WeekKey) (l : list PartialBreaks.week_info) : Prop :=
  ∃ w, w ∈ l ∧ info_key w = k.

(** The number of entries the week [k] has in the list [l]. *)
Definition occurrences (k : WeekKey) (l : list PartialBreaks.week_info) : nat :=
  length (filter (λ w, info_key w = k) l).

(** The frame is in ascending date order, as [process_candles] writes it. *)
Definition sorted_by_date (df : list Row) : Prop :=
  StronglySorted (λ a b, Date a ≤ Date b) df.

(** The DayOfWeek column is the weekday of the Date column, as [load_data]
    fills it. *)
Definition weekday_from_date (df : list Row) : Prop :=
  Forall (λ r, DayOfWeek r = Calendar.dayofweek (Date r)) df.

Global Instance sorted_by_date_dec df : Decision (sorted_by_date df).
Proof. unfold sorted_by_date. apply _. Defined.

Global Instance weekday_from_date_dec df : Decision (weekday_from_date df).
Proof. unfold weekday_from_date. apply _. Defined.

(** [c] is a row of [week_data] with property [P], and no row of
    [week_data] with property [P] has an earlier date. *)
Definition earliest (P : Row → Prop) (week_data : list Row) (c : Row) : Prop :=
  c ∈ week_data ∧ P c ∧ Forall (λ c', P c' → Date c ≤ Date c') week_data.

Global Instance earliest_dec P `{!∀ x, Decision (P x)} week_data c :
  Decision (earliest P week_data c).
Proof. unfold earliest. apply _. Defined.

(** No week has two different Monday records. *)
Definition one_monday_per_week (df : list Row) : Prop :=
  ∀ r1 r2, r1 ∈ df → r2 ∈ df →
    DayOfWeek r1 = 0 → DayOfWeek r2 = 0 → week_year r1 = week_year r2 →
    r1 = r2.

(** An outcome, resp. a stored week, without the two first-break days. *)
Definition forget_days (o : WeekOutcome) : WeekOutcome :=
  mkOutcome (weekKey o) (mondayDate o) (mondayHigh o) (mondayLow o)
            (highBroken o) (lowBroken o) None None.

Definition without_break_days (w : PartialBreaks.week_info)
  : PartialBreaks.week_info :=
  PartialBreaks.mkWeekInfo
    (PartialBreaks.wi_Date w) (PartialBreaks.wi_Week w)
    (PartialBreaks.wi_Year w) (PartialBreaks.wi_Monday_High w)
    (PartialBreaks.wi_Monday_Low w) None None.

(** The Week and Year columns are the ISO week and year of the Date
    column, as [load_data] fills them. *)
Definition weeks_from_date (df : list Row) : Prop :=
  Forall (λ r, Week r = Calendar.iso_week (Date r)
               ∧ Year r = Calendar.iso_year (Date r)) df.

Global Instance weeks_from_date_dec df : Decision (weeks_from_date df).
Proof. unfold weeks_from_date. apply _. Defined.

(** Chronological order of week keys: ISO year first, then ISO week. *)
Definition year_week_lt (a b : WeekKey) : Prop :=
  a.2 < b.2 ∨ (a.2 = b.2 ∧ a.1 < b.1).

Global Instance year_week_lt_dec : RelDecision year_week_lt.
Proof. intros a b. unfold year_week_lt. apply _. Defined.

(** [sum(counter.values())] and the sum of the values of a dict of
    probabilities. *)
Definition Zsum (l : list Z) : Z := foldr Z.add 0 l.

Definition Qcsum (l : list Qc) : Qc := foldr Qcplus 0%Qc l.

Definition counter_total (c : gmap Z Z) : Z := Zsum (map_to_list c).*2.

Definition probs_total (d : gmap string Qc) : Qc := Qcsum (map_to_list d).*2.

(** The value [calculate_probabilities] stores for a tally entry. *)
Definition prob_of (taken count : Z) : Qc :=
  if decide (0 < taken) then (Qc_of_Z count / Qc_of_Z taken)%Qc else 0%Qc.

(** The name of a day number, where [day_names] has one. *)
Definition day_name (day : Z) : string :=
  default ""%string (MondayRanges.day_names !! day).

(** What one step of the dict comprehension of [calculate_probabilities]
    adds. *)
Definition store_prob (taken : Z) (acc : gmap string Qc) (item : Z * Z)
  : gmap string Qc :=
  <[day_name item.1 := prob_of taken item.2]> acc.

(** The entry of [unbroken_weeks] for a week with outcome [o], and what an
    eligible week adds to the state of the loop of
    simple_monday_analysis.py. *)
Definition unbroken_of (o : WeekOutcome) : SimpleAnalysis.unbroken_week :=
  SimpleAnalysis.mkUnbroken (mondayDate o) (weekKey o).1 (weekKey o).2
                            (mondayHigh o) (mondayLow o).

Definition simple_count (st : SimpleAnalysis.state) (o : WeekOutcome)
  : SimpleAnalysis.state :=
  SimpleAnalysis.mkState
    (bump (highBroken o) (SimpleAnalysis.monday_highs_taken st))
    (bump (lowBroken o) (SimpleAnalysis.monday_lows_taken st))
    (SimpleAnalysis.total_mondays st + 1)
    (incr_opt (firstHighBreakDay o) (SimpleAnalysis.day_high_break st))
    (incr_opt (firstLowBreakDay o) (SimpleAnalysis.day_low_break st))
    (snoc_if (bool_decide (neither o)) (SimpleAnalysis.unbroken_weeks st)
             (unbroken_of o)).

(** The five fields a [week_info] shares with an unbroken week. *)
Definition week_of_info (w : PartialBreaks.week_info)
  : SimpleAnalysis.unbroken_week :=
  SimpleAnalysis.mkUnbroken
    (PartialBreaks.wi_Date w) (PartialBreaks.wi_Week w)
    (PartialBreaks.wi_Year w) (PartialBreaks.wi_Monday_High w)
    (PartialBreaks.wi_Monday_Low w).

(** The candle [c] lies in an ISO week for which [cs] has a Monday
    candle. *)
Definition in_monday_week (cs : list Candle) (c : Candle) : Prop :=
  Exists (λ m, Calendar.dayofweek (candle_date m) = 0
               ∧ Calendar.iso_week (candle_date m)
                 = Calendar.iso_week (candle_date c)
               ∧ Calendar.iso_year (candle_date m)
                 = Calendar.iso_year (candle_date c)) cs.

Global Instance in_monday_week_dec cs c : Decision (in_monday_week cs c).
Proof. unfold in_monday_week. apply _. Defined.

(** The ISO week (week, year) of the date of a candle. *)
Definition iso_week_of (c : Candle) : WeekKey :=
  (Calendar.iso_week (candle_date c), Calendar.iso_year (candle_date c)).

(** The parsed candles are in strictly ascending date order: sorted, and
    no date occurs twice. *)
Definition strictly_by_date (cs : list Candle) : Prop :=
  StronglySorted (λ a b, candle_date a < candle_date b) cs.

Global Instance strictly_by_date_dec cs : Decision (strictly_by_date cs).
Proof. unfold strictly_by_date. apply _. Defined.

(** The frame has a Monday row for the week [k]. *)
Definition has_monday (df : list Row) (k : WeekKey) : Prop :=
  Exists (λ m, DayOfWeek m = 0 ∧ week_year m = k) df.

Global Instance has_monday_dec df k : Decision (has_monday df k).
Proof. unfold has_monday. apply _. Defined.

(** The value stored at a position of a worksheet, the values of the
    columns A to G of a row, and the seven values [write_section] writes
    for a week. *)
Definition value_at (ws : Report.worksheet) (rc : Z * Z)
  : option Report.cell_value :=
  Report.value (Report.get ws rc).

Definition row_values (ws : Report.worksheet) (row : Z)
  : list (option Report.cell_value) :=
  (λ col, value_at ws (row, col)) <$> [1; 2; 3; 4; 5; 6; 7].

Definition render (w : PartialBreaks.week_info) : list Report.cell_value :=
  [Report.Text (Report.strftime_Ymd (PartialBreaks.wi_Date w));
   Report.Integer (PartialBreaks.wi_Week w);
   Report.Integer (PartialBreaks.wi_Year w);
   Report.Float (PartialBreaks.wi_Monday_High w);
   Report.Float (PartialBreaks.wi_Monday_Low w);
   Report.Text (Report.day_to_name (PartialBreaks.wi_High_Break_Day w));
   Report.Text (Report.day_to_name (PartialBreaks.wi_Low_Break_Day w))].

(** The row after a section that starts at [start_row]: title and notice
    for an empty list; title, headers, one row per week and a blank row
    otherwise. *)
Definition next_row (start_row : Z) (data : list PartialBreaks.week_info)
  : Z :=
  match data with
  | [] => start_row + 2
  | _ :: _ => start_row + len data + 3
  end.

(** The names [day_to_name] has for the break days. *)
Definition weekday_names : list string :=
  ["Tuesday"; "Wednesday"; "Thursday"; "Friday"]%string.

(** The worksheet shows a section for [data] at [start_row]: the title,
    then the notice for an empty list, or the header row and one row per
    week in the order of the list. *)
Definition section_at (ws : Report.worksheet) (start_row : Z)
    (title : string) (data : list PartialBreaks.week_info) : Prop :=
  value_at ws (start_row, 1) = Some (Report.Text title)
  ∧ match data with
    | [] =>
        value_at ws (start_row + 1, 1)
        = Some (Report.Text "No instances found")
    | _ :: _ =>
        row_values ws (start_row + 1)
        = (λ h, Some (Report.Text h)) <$> Report.headers
        ∧ ∀ (i : nat) w, data !! i = Some w →
            row_values ws (start_row + 2 + Z.of_nat i) = Some <$> render w
    end.

(** The rows at which [create_excel_report] starts its second, third and
    fourth section; the first one starts at row 11. *)
Definition second_start (only_high : list PartialBreaks.week_info) : Z :=
  next_row 11 only_high + 2.

Definition third_start (only_high only_low : list PartialBreaks.week_info)
  : Z :=
  next_row (second_start only_high) only_low + 2.

Definition fourth_start
    (only_high only_low neither_l : list PartialBreaks.week_info) : Z :=
  next_row (third_start only_high only_low) neither_l + 2.

(** The weeks in terms of the rows of the frame, in row order: the first
    Monday row of the week [k], and the first row of the week [k] that
    breaks the high, resp. the low, of the row [m]. *)
Definition first_monday (df : list Row) (k : WeekKey) : option Row :=
  head (filter (λ r, week_year r = k ∧ DayOfWeek r = 0) df).

Definition first_high_break (df : list Row) (k : WeekKey) (m : Row)
  : option Row :=
  head (filter (λ c, week_year c = k ∧ high_break m c) df).

Definition first_low_break (df : list Row) (k : WeekKey) (m : Row)
  : option Row :=
  head (filter (λ c, week_year c = k ∧ low_break m c) df).

(** The break days stored in [w] are the weekdays of the first rows, in
    the row order of [df], that break the high and the low of the first
    Monday row of the week of [w]; a day is None where there is no such
    row. *)
Definition break_days_in_row_order (df : list Row)
    (w : PartialBreaks.week_info) : Prop :=
  ∃ m,
    first_monday df (info_key w) = Some m
    ∧ PartialBreaks.wi_High_Break_Day w
      = DayOfWeek <$> first_high_break df (info_key w) m
    ∧ PartialBreaks.wi_Low_Break_Day w
      = DayOfWeek <$> first_low_break df (info_key w) m.

(** [counter[d]] (a missing key reads 0), and the number of stored weeks
    whose high, resp. low, break day is [d]. *)
Definition counter_get (c : gmap Z Z) (d : Z) : Z := default 0 (c !! d).

Definition high_day_count (d : Z) (l : list PartialBreaks.week_info) : Z :=
  len (filter (λ w, PartialBreaks.wi_High_Break_Day w = Some d) l).

Definition low_day_count (d : Z) (l : list PartialBreaks.week_info) : Z :=
  len (filter (λ w, PartialBreaks.wi_Low_Break_Day w = Some d) l).

(** The string contains a comma, as every string does that matches the
    format '%A, %d. %B %Y'. *)
Fixpoint has_comma (s : string) : bool :=
  match s with
  | EmptyString => false
  | String a s' => bool_decide (a = ","%char) || has_comma s'
  end.

(** ** Sample frames *)

(** A candle with the given high and low (it opens at the low and closes
    at the high). *)
Definition candle (y m d : Z) (high low : Z) : Candle :=
  mkCandle (Calendar.days_from_civil y m d)
           (Qc_of_Z low) (Qc_of_Z high) (Qc_of_Z low) (Qc_of_Z high).

(** One week, Monday 2024-01-01 with high 10 and low 5; Tuesday's high 12
    breaks the high, Wednesday's low 3 breaks the low. *)
Definition monday_1 : Candle := candle 2024 1 1 10 5.
Definition tuesday_2 : Candle := candle 2024 1 2 12 6.
Definition wednesday_3 : Candle := candle 2024 1 3 9 3.

Definition frame_both : list Row :=
  load_data [monday_1; tuesday_2; wednesday_3].

(** A week whose high is broken on Tuesday and again on Wednesday, in
    date order and with the two records exchanged. *)
Definition wednesday_high : Candle := candle 2024 1 3 13 6.

Definition frame_two_breaks : list Row :=
  load_data [monday_1; tuesday_2; wednesday_high].

Definition frame_two_breaks_swapped : list Row :=
  load_data [monday_1; wednesday_high; tuesday_2].

(** The records of [frame_both] and a Tuesday of the following week, which
    has no Monday record. *)
Definition frame_gap : list Row :=
  load_data [monday_1; tuesday_2; wednesday_3; candle 2024 1 9 20 1].

(** Two Mondays a year apart, in date order: 2020-01-06 opens ISO week 2
    of 2020 and 2021-01-04 opens ISO week 1 of 2021. *)
Definition frame_two_years : list Row :=
  load_data [candle 2020 1 6 10 5; candle 2021 1 4 10 5].

(** Two Mondays of the same ISO year. *)
Definition frame_two_weeks : list Row :=
  load_data [monday_1; tuesday_2; candle 2024 1 8 11 4].

(** A frame without any Monday: a single Tuesday. *)
Definition frame_no_monday : list Row := load_data [candle 2024 1 9 20 1].

(** One week in which Tuesday to Friday stay within Monday's range and
    Thursday touches both ends of it. *)
Definition frame_inside : list Row :=
  load_data [monday_1; candle 2024 1 2 9 6; candle 2024 1 3 8 7;
             candle 2024 1 4 10 5; candle 2024 1 5 9 6].

(** A week with two different records for its Monday, in both orders. *)
Definition monday_again : Candle := candle 2024 1 1 20 5.

Definition frame_two_mondays : list Row :=
  load_data [monday_1; monday_again; tuesday_2].

Definition frame_two_mondays_swapped : list Row :=
  load_data [monday_again; monday_1; tuesday_2].

(** A row of the raw frame whose date string was parsed to the date of
    [c], and a row whose date string was not parsed. *)
Definition parsed (c : Candle) : ProcessCandles.RawRow :=
  ProcessCandles.mkRaw (Some (candle_date c)) (candle_close c)
                       (candle_open c) (candle_high c) (candle_low c).

Definition unparsed : ProcessCandles.RawRow :=
  ProcessCandles.mkRaw None (Qc_of_Z 1) (Qc_of_Z 1) (Qc_of_Z 1) (Qc_of_Z 1).

(** A raw frame out of date order: the Tuesday of a week without a
    Monday, a row whose date did not parse, and the three candles of
    [frame_both]. *)
Definition raw_sample : list ProcessCandles.RawRow :=
  [parsed (candle 2024 1 9 20 1); parsed wednesday_3; unparsed;
   parsed monday_1; parsed tuesday_2].

(** The same candles in date order, all dates parsed. *)
Definition raw_sorted : list ProcessCandles.RawRow :=
  [parsed monday_1; parsed tuesday_2; parsed wednesday_3;
   parsed (candle 2024 1 9 20 1)].

(** * Properties *)

(** Decide a closed decidable proposition by evaluation. *)
Ltac by_compute :=
  match goal with
  | |- ?P => apply (bool_decide_unpack P); vm_compute; exact I
  end.

(** ** The loops compute the outcomes *)

Lemma for_each_total {S X : Type} (body : S → X → result S) (f : S → X → S) :
  (∀ st x, body st x = Ok (f st x)) →
  ∀ xs st, for_each body st xs = Ok (foldl f st xs).
Proof.
  intros Hbody xs. induction xs as [|x xs IH]; intros st; simpl; [done|].
  rewrite Hbody. simpl. apply IH.
Qed.

Lemma foldl_classified {S : Type} (f : S → WeekOutcome → S) groups : ∀ st,
  foldl (λ st grp, from_option (f st) st (classify_week grp)) st groups
  = foldl f st (omap classify_week groups).
Proof.
  induction groups as [|g groups IH]; intros st; simpl; [done|].
  rewrite IH. by destruct (classify_week g).
Qed.

Lemma classify_week_days grp o :
  classify_week grp = Some o →
  (highBroken o ↔ is_Some (firstHighBreakDay o))
  ∧ (lowBroken o ↔ is_Some (firstLowBreakDay o)).
Proof.
  unfold classify_week. destruct (monday_data grp.2) as [|m ?]; [done|].
  intros [= <-]; simpl. unfold first_day.
  split.
  - destruct (high_break_days _ _); simpl; split; (done || by inversion 1 || eauto).
  - destruct (low_break_days _ _); simpl; split; (done || by inversion 1 || eauto).
Qed.

Lemma ranges_loop_body st grp :
  MondayRanges.loop_body st grp
  = Ok (from_option (ranges_count st) st (classify_week grp)).
Proof.
  unfold MondayRanges.loop_body, classify_week, ranges_count.
  destruct (monday_data grp.2) as [|m ms]; simpl; [done|].
  unfold first_day.
  destruct (high_break_days _ _) as [|h hs], (low_break_days _ _) as [|l ls]; done.
Qed.

Lemma partial_loop_body st grp :
  PartialBreaks.loop_body st grp
  = Ok (from_option (partial_store st) st (classify_week grp)).
Proof.
  destruct grp as [[week year] week_data].
  unfold PartialBreaks.loop_body, classify_week, partial_store, info_of.
  simpl. destruct (monday_data week_data) as [|m ms]; simpl; [done|].
  unfold first_day, onlyHigh, onlyLow, neither, both.
  destruct (high_break_days _ _) as [|h hs], (low_break_days _ _) as [|l ls]; done.
Qed.

Lemma ranges_run df :
  for_each MondayRanges.loop_body MondayRanges.init (groupby_Week_Year df)
  = Ok (foldl ranges_count MondayRanges.init (outcomes df)).
Proof.
  rewrite (for_each_total _ _ ranges_loop_body). by rewrite foldl_classified.
Qed.

Lemma partial_run df :
  for_each PartialBreaks.loop_body PartialBreaks.init (groupby_Week_Year df)
  = Ok (foldl partial_store PartialBreaks.init (outcomes df)).
Proof.
  rewrite (for_each_total _ _ partial_loop_body). by rewrite foldl_classified.
Qed.

Lemma len_nil {A : Type} : len (@nil A) = 0.
Proof. done. Qed.

Lemma len_cons {A : Type} (x : A) l : len (x :: l) = 1 + len l.
Proof. unfold len. simpl length. lia. Qed.

Lemma len_app {A : Type} (l k : list A) : len (l ++ k) = len l + len k.
Proof. unfold len. rewrite length_app. lia. Qed.

Lemma len_fmap {A B : Type} (f : A → B) l : len (f <$> l) = len l.
Proof. unfold len. by rewrite length_fmap. Qed.

Lemma len_nonneg {A : Type} (l : list A) : 0 ≤ len l.
Proof. unfold len. lia. Qed.

Lemma len_filter_cons {A : Type} (P : A → Prop) `{!∀ x, Decision (P x)} x l :
  len (filter P (x :: l)) = (if decide (P x) then 1 else 0) + len (filter P l).
Proof. rewrite filter_cons. case_decide; [apply len_cons|done]. Qed.

Lemma partial_fold os : ∀ st,
  foldl partial_store st os
  = PartialBreaks.mkState
      (PartialBreaks.only_high_broken st ++ (info_of <$> filter onlyHigh os))
      (PartialBreaks.only_low_broken st ++ (info_of <$> filter onlyLow os))
      (PartialBreaks.neither_broken st ++ (info_of <$> filter neither os))
      (PartialBreaks.both_broken st ++ (info_of <$> filter both os))
      (PartialBreaks.total_mondays st + len os).
Proof.
  induction os as [|o os IH]; intros [oh ol ne bo t]; simpl.
  - rewrite !app_nil_r. unfold len; simpl. f_equal. lia.
  - rewrite IH. unfold partial_store; simpl. rewrite !filter_cons, len_cons.
    f_equal; try lia;
      case_bool_decide; rewrite ?decide_True, ?decide_False by done; simpl;
      by rewrite <-?app_assoc.
Qed.

Lemma ranges_fold os : ∀ st,
  foldl ranges_count st os
  = MondayRanges.mkState
      (MondayRanges.monday_highs_taken st + len (filter (λ o, Is_true (highBroken o)) os))
      (MondayRanges.monday_lows_taken st + len (filter (λ o, Is_true (lowBroken o)) os))
      (MondayRanges.both_broken st + len (filter both os))
      (MondayRanges.total_mondays st + len os)
      (tally (omap firstHighBreakDay os) (MondayRanges.day_high_break st))
      (tally (omap firstLowBreakDay os) (MondayRanges.day_low_break st)).
Proof.
  induction os as [|o os IH]; intros [h l b t dh dl]; simpl.
  - unfold len; simpl. f_equal; lia.
  - rewrite IH. unfold ranges_count; simpl.
    rewrite !len_filter_cons, len_cons. unfold bump, incr_opt.
    f_equal.
    + destruct (highBroken o); simpl; lia.
    + destruct (lowBroken o); simpl; lia.
    + case_decide as Hb; unfold both in Hb;
        destruct (highBroken o), (lowBroken o); simpl in *;
        first [lia | exfalso; tauto].
    + lia.
    + by destruct (firstHighBreakDay o).
    + by destruct (firstLowBreakDay o).
Qed.

(** The two analysis functions in closed form. *)
Lemma analyze_partial_breaks_outcomes df :
  PartialBreaks.analyze_partial_breaks df
  = Ok (info_of <$> filter onlyHigh (outcomes df),
        info_of <$> filter onlyLow (outcomes df),
        info_of <$> filter neither (outcomes df),
        info_of <$> filter both (outcomes df),
        len (outcomes df)).
Proof.
  unfold PartialBreaks.analyze_partial_breaks.
  rewrite partial_run, partial_fold. done.
Qed.

Lemma analyze_monday_ranges_outcomes df :
  MondayRanges.analyze_monday_ranges df
  = Ok (len (outcomes df),
        len (filter (λ o, Is_true (highBroken o)) (outcomes df)),
        len (filter (λ o, Is_true (lowBroken o)) (outcomes df)),
        len (filter both (outcomes df)),
        tally (omap firstHighBreakDay (outcomes df)) ∅,
        tally (omap firstLowBreakDay (outcomes df)) ∅).
Proof.
  unfold MondayRanges.analyze_monday_ranges.
  rewrite ranges_run, ranges_fold. done.
Qed.

(** ** The grouping *)

Global Instance key_le_total : Total key_le.
Proof. intros [a1 a2] [b1 b2]. unfold key_le; simpl. lia. Qed.

Global Instance key_le_trans : Transitive key_le.
Proof. intros [a1 a2] [b1 b2] [c1 c2]. unfold key_le; simpl. lia. Qed.

Global Instance key_le_antisym : AntiSymm (=) key_le.
Proof.
  intros [a1 a2] [b1 b2]. unfold key_le; simpl. intros ??.
  f_equal; lia.
Qed.

Lemma key_le_ne_lt a b : key_le a b → a ≠ b → key_lt a b.
Proof.
  destruct a as [a1 a2], b as [b1 b2]. unfold key_le, key_lt; simpl.
  intros Hle Hne.
  destruct (decide (a1 = b1)) as [->|]; [|lia].
  destruct (decide (a2 = b2)) as [->|]; [done|lia].
Qed.

Section sorted_lists.
Context {A : Type} (R : relation A).

Lemma StronglySorted_filter (P : A → Prop) `{!∀ x, Decision (P x)} l :
  StronglySorted R l → StronglySorted R (filter P l).
Proof.
  induction 1 as [|x l Hl IH Hx]; [constructor|].
  rewrite filter_cons. case_decide; [|done].
  constructor; [done|].
  rewrite Forall_forall in Hx. apply Forall_forall.
  intros y [_ Hy]%list_elem_of_filter. auto.
Qed.

Lemma StronglySorted_omap {B : Type} (f : B → option A) (R' : relation B) l :
  (∀ x y a b, R' x y → f x = Some a → f y = Some b → R a b) →
  StronglySorted R' l → StronglySorted R (omap f l).
Proof.
  intros Hf. induction 1 as [|x l Hl IH Hx]; simpl; [constructor|].
  destruct (f x) as [a|] eqn:Hfx; [|done].
  constructor; [done|].
  apply Forall_forall. intros b [y [Hy Hfy]]%list_elem_of_omap.
  rewrite Forall_forall in Hx. eauto.
Qed.

Lemma StronglySorted_head l x y :
  StronglySorted R l → Reflexive R → head l = Some x → y ∈ l → R x y.
Proof.
  intros Hl Hrefl Hx Hy. destruct l as [|x' l]; simplify_eq/=.
  apply StronglySorted_cons in Hl as [Hl _].
  apply elem_of_cons in Hy as [->|Hy]; [done|].
  rewrite Forall_forall in Hl. auto.
Qed.

Lemma StronglySorted_NoDup_strict (R' : relation A) l :
  (∀ a b, R a b → a ≠ b → R' a b) →
  StronglySorted R l → NoDup l → StronglySorted R' l.
Proof.
  intros HR'. induction 1 as [|x l Hl IH Hx]; intros Hnd; [constructor|].
  apply NoDup_cons in Hnd as [Hx' Hnd].
  constructor; [auto|].
  rewrite Forall_forall in Hx. apply Forall_forall.
  intros y Hy. apply HR'; [auto|]. by intros ->.
Qed.
End sorted_lists.

Lemma elem_of_group_keys df k :
  k ∈ group_keys df ↔ ∃ r, r ∈ df ∧ week_year r = k.
Proof.
  unfold group_keys. rewrite merge_sort_Permutation, elem_of_remove_dups.
  rewrite list_elem_of_fmap. split; intros (r & ? & ?); eauto.
Qed.

Lemma NoDup_group_keys df : NoDup (group_keys df).
Proof.
  unfold group_keys. rewrite merge_sort_Permutation. apply NoDup_remove_dups.
Qed.

Lemma group_keys_sorted df : StronglySorted key_le (group_keys df).
Proof. apply StronglySorted_merge_sort; apply _. Qed.

Lemma group_keys_strict df : StronglySorted key_lt (group_keys df).
Proof.
  apply (StronglySorted_NoDup_strict key_le);
    [apply key_le_ne_lt|apply group_keys_sorted|apply NoDup_group_keys].
Qed.

(** A strictly ascending list with the right elements is the key list. *)
Lemma group_keys_unique df ks :
  StronglySorted key_le ks → NoDup ks →
  (∀ k, k ∈ ks ↔ ∃ r, r ∈ df ∧ week_year r = k) →
  ks = group_keys df.
Proof.
  intros Hsorted Hnd Hel.
  apply (StronglySorted_unique key_le); [done|apply group_keys_sorted|].
  apply NoDup_Permutation; [done|apply NoDup_group_keys|].
  intros k. by rewrite Hel, elem_of_group_keys.
Qed.

Lemma elem_of_groupby df k week_data :
  (k, week_data) ∈ groupby_Week_Year df
  ↔ k ∈ group_keys df ∧ week_data = filter (λ r, week_year r = k) df.
Proof.
  unfold groupby_Week_Year. rewrite list_elem_of_fmap. split.
  - intros (k' & [= -> ->] & Hk'). done.
  - intros [Hk ->]. eauto.
Qed.

Lemma groupby_keys df : (groupby_Week_Year df).*1 = group_keys df.
Proof.
  unfold groupby_Week_Year. rewrite <-list_fmap_compose.
  apply list_fmap_id.
Qed.

Lemma groupby_sorted df :
  StronglySorted (λ g1 g2 : WeekKey * list Row, key_lt g1.1 g2.1)
                 (groupby_Week_Year df).
Proof.
  unfold groupby_Week_Year.
  apply (StronglySorted_fmap _ key_lt); [|apply group_keys_strict].
  by intros k1 k2 Hk.
Qed.

(** ** List helpers *)

Section list_helpers.
Context {A B : Type}.

Lemma filter_fmap (f : A → B) (P : B → Prop) `{!∀ y, Decision (P y)}
    (l : list A) :
  filter P (f <$> l) = f <$> filter (λ x, P (f x)) l.
Proof.
  induction l as [|x l IH]; [done|].
  rewrite fmap_cons, !filter_cons, IH. by case_decide.
Qed.

Lemma filter_unique_key `{!EqDecision B} (f : A → B) (l : list A) x :
  NoDup (f <$> l) → x ∈ l → filter (λ y, f y = f x) l = [x].
Proof.
  induction l as [|y l IH]; intros Hnd Hx; [by apply elem_of_nil in Hx|].
  rewrite fmap_cons in Hnd. apply NoDup_cons in Hnd as [Hy Hnd].
  rewrite filter_cons.
  apply elem_of_cons in Hx as [->|Hx].
  - rewrite decide_True by done. f_equal.
    destruct (filter (λ z, f z = f y) l) as [|z ?] eqn:Hf; [done|].
    assert (z ∈ filter (λ z, f z = f y) l) as [Hz ?]%list_elem_of_filter
      by (rewrite Hf; left).
    destruct Hy. rewrite <-Hz. by apply list_elem_of_fmap_2.
  - rewrite decide_False; [by apply IH|].
    intros Heq. destruct Hy. rewrite Heq. by apply list_elem_of_fmap_2.
Qed.

Lemma filter_none (P : A → Prop) `{!∀ x, Decision (P x)} (l : list A) :
  (∀ x, x ∈ l → ¬ P x) → filter P l = [].
Proof.
  intros HP. induction l as [|x l IH]; [done|].
  rewrite filter_cons_False by (apply HP; left).
  apply IH. intros y Hy. apply HP. by right.
Qed.

Lemma StronglySorted_irrefl_NoDup (R : relation A) l :
  Irreflexive R → StronglySorted R l → NoDup l.
Proof.
  intros Hirr. induction 1 as [|x l Hl IH Hx]; constructor; [|done].
  intros Hin. rewrite Forall_forall in Hx. exact (Hirr x (Hx x Hin)).
Qed.

Lemma NoDup_fst_agree (l : list (A * B)) x y1 y2 :
  NoDup l.*1 → (x, y1) ∈ l → (x, y2) ∈ l → y1 = y2.
Proof.
  induction l as [|[a b] l IH]; intros Hnd H1 H2;
    [by apply elem_of_nil in H1|].
  rewrite fmap_cons in Hnd. apply NoDup_cons in Hnd as [Ha Hnd]. simpl in Ha.
  apply elem_of_cons in H1 as [[= -> ->]|H1], H2 as [[= <-]|H2]; auto.
  - destruct Ha. by apply (list_elem_of_fmap_2 fst _ (a, y2)).
  - destruct Ha. by apply (list_elem_of_fmap_2 fst _ (x, y1)).
Qed.
End list_helpers.

Global Instance key_lt_irrefl : Irreflexive key_lt.
Proof. intros [a1 a2]. unfold complement, key_lt; simpl. lia. Qed.

Global Instance key_lt_trans : Transitive key_lt.
Proof. intros [a1 a2] [b1 b2] [c1 c2]. unfold key_lt; simpl. lia. Qed.

(** ** The outcomes of a frame *)

Lemma elem_of_high_break_days h week_data c :
  c ∈ high_break_days h (rest_of_week week_data)
  ↔ c ∈ week_data ∧ DayOfWeek c ∈ [1; 2; 3; 4] ∧ (h < High c)%Qc.
Proof.
  unfold high_break_days, rest_of_week. rewrite !list_elem_of_filter. tauto.
Qed.

Lemma elem_of_low_break_days lo week_data c :
  c ∈ low_break_days lo (rest_of_week week_data)
  ↔ c ∈ week_data ∧ DayOfWeek c ∈ [1; 2; 3; 4] ∧ (Low c < lo)%Qc.
Proof.
  unfold low_break_days, rest_of_week. rewrite !list_elem_of_filter. tauto.
Qed.

Lemma not_empty_frame {A : Type} (l : list A) :
  negb (empty_frame l) ↔ ∃ x, x ∈ l.
Proof.
  destruct l as [|x l]; simpl; split; try done.
  - intros [x Hx]. by apply elem_of_nil in Hx.
  - intros _. exists x. left.
Qed.

Lemma classify_week_Some k week_data m :
  head (monday_data week_data) = Some m →
  classify_week (k, week_data)
  = Some (mkOutcome k (Date m) (High m) (Low m)
            (negb (empty_frame (high_break_days (High m) (rest_of_week week_data))))
            (negb (empty_frame (low_break_days (Low m) (rest_of_week week_data))))
            (first_day (high_break_days (High m) (rest_of_week week_data)))
            (first_day (low_break_days (Low m) (rest_of_week week_data)))).
Proof.
  unfold classify_week; simpl. by destruct (monday_data week_data); intros [= ->].
Qed.

Lemma classify_week_None k week_data :
  monday_data week_data = [] → classify_week (k, week_data) = None.
Proof. unfold classify_week; simpl. by intros ->. Qed.

Lemma classify_week_key grp o : classify_week grp = Some o → weekKey o = grp.1.
Proof.
  unfold classify_week. destruct (monday_data grp.2); [done|]. by intros [= <-].
Qed.

Lemma classify_week_broken k week_data m o :
  head (monday_data week_data) = Some m →
  classify_week (k, week_data) = Some o →
  (highBroken o ↔ ∃ c, c ∈ week_data ∧ high_break m c)
  ∧ (lowBroken o ↔ ∃ c, c ∈ week_data ∧ low_break m c).
Proof.
  intros Hm. rewrite (classify_week_Some _ _ _ Hm). intros [= <-]; simpl.
  rewrite !not_empty_frame. unfold high_break, low_break. split.
  - by setoid_rewrite elem_of_high_break_days.
  - by setoid_rewrite elem_of_low_break_days.
Qed.

Lemma elem_of_outcomes df o :
  o ∈ outcomes df
  ↔ ∃ grp, grp ∈ groupby_Week_Year df ∧ classify_week grp = Some o.
Proof. apply list_elem_of_omap. Qed.

Lemma outcomes_sorted df : StronglySorted key_lt (weekKey <$> outcomes df).
Proof.
  unfold outcomes. rewrite list_fmap_omap.
  eapply StronglySorted_omap; [|apply groupby_sorted].
  intros g1 g2 k1 k2 Hlt H1 H2; simpl in *.
  destruct (classify_week g1) as [o1|] eqn:E1; simplify_eq/=.
  destruct (classify_week g2) as [o2|] eqn:E2; simplify_eq/=.
  by rewrite (classify_week_key _ _ E1), (classify_week_key _ _ E2).
Qed.

Lemma outcomes_NoDup df : NoDup (weekKey <$> outcomes df).
Proof. eapply StronglySorted_irrefl_NoDup; [apply _|apply outcomes_sorted]. Qed.

(** The four categories partition the outcomes. *)
Lemma categories_exhaustive os :
  len (filter onlyHigh os) + len (filter onlyLow os)
  + len (filter neither os) + len (filter both os) = len os.
Proof.
  induction os as [|o os IH]; [done|].
  rewrite !len_filter_cons, len_cons, <-IH.
  unfold onlyHigh, onlyLow, neither, both.
  repeat case_decide; destruct (highBroken o), (lowBroken o); simpl in *;
    first [lia | exfalso; tauto].
Qed.

Lemma high_count_split os :
  len (filter (λ o, Is_true (highBroken o)) os)
  = len (filter onlyHigh os) + len (filter both os).
Proof.
  induction os as [|o os IH]; [done|].
  rewrite !len_filter_cons, IH. unfold onlyHigh, both.
  repeat case_decide; destruct (highBroken o), (lowBroken o); simpl in *;
    first [lia | exfalso; tauto].
Qed.

Lemma low_count_split os :
  len (filter (λ o, Is_true (lowBroken o)) os)
  = len (filter onlyLow os) + len (filter both os).
Proof.
  induction os as [|o os IH]; [done|].
  rewrite !len_filter_cons, IH. unfold onlyLow, both.
  repeat case_decide; destruct (highBroken o), (lowBroken o); simpl in *;
    first [lia | exfalso; tauto].
Qed.

(** ** Categorised weeks *)

Lemma info_key_of o : info_key (info_of o) = weekKey o.
Proof. unfold info_key, info_of; simpl. by destruct (weekKey o). Qed.

Lemma filter_key_category {A B : Type} `{!EqDecision B} (f : A → B)
    (P : A → Prop) `{!∀ x, Decision (P x)} (l : list A) x :
  NoDup (f <$> l) → x ∈ l →
  filter (λ y, f y = f x) (filter P l) = if decide (P x) then [x] else [].
Proof.
  intros Hnd Hx. rewrite list_filter_filter.
  rewrite (list_filter_iff _ (λ y, P y ∧ f y = f x)) by (intros; tauto).
  rewrite <-list_filter_filter, (filter_unique_key f l x) by done.
  rewrite filter_cons, filter_nil. by case_decide.
Qed.

Lemma category_entries df (P : WeekOutcome → Prop) `{!∀ o, Decision (P o)} o :
  o ∈ outcomes df →
  filter (λ w, info_key w = weekKey o) (info_of <$> filter P (outcomes df))
  = if decide (P o) then [info_of o] else [].
Proof.
  intros Ho. rewrite filter_fmap.
  rewrite (list_filter_iff _ (λ o', weekKey o' = weekKey o))
    by (intros; by rewrite info_key_of).
  rewrite (filter_key_category weekKey P _ o (outcomes_NoDup df) Ho).
  by case_decide.
Qed.

Lemma category_listed df (P : WeekOutcome → Prop) `{!∀ o, Decision (P o)} o :
  o ∈ outcomes df →
  listed (weekKey o) (info_of <$> filter P (outcomes df)) ↔ P o.
Proof.
  intros Ho. split.
  - intros (w & Hw & Hk).
    assert (w ∈ filter (λ w, info_key w = weekKey o)
                       (info_of <$> filter P (outcomes df))) as Hin
      by by apply list_elem_of_filter.
    rewrite category_entries in Hin by done.
    case_decide; [done|]. by apply elem_of_nil in Hin.
  - intros HP. exists (info_of o). split; [|apply info_key_of].
    apply list_elem_of_fmap_2, list_elem_of_filter. done.
Qed.

Lemma occurrences_app k l1 l2 :
  occurrences k (l1 ++ l2) = (occurrences k l1 + occurrences k l2)%nat.
Proof. unfold occurrences. by rewrite filter_app, length_app. Qed.

(** ** The weeks in terms of the rows of the frame *)

Lemma group_monday_data df k :
  monday_data (filter (λ r, week_year r = k) df)
  = filter (λ r, week_year r = k ∧ DayOfWeek r = 0) df.
Proof.
  unfold monday_data. rewrite list_filter_filter.
  apply list_filter_iff. tauto.
Qed.

Lemma group_high_break_days df k m :
  high_break_days (High m) (rest_of_week (filter (λ r, week_year r = k) df))
  = filter (λ c, week_year c = k ∧ high_break m c) df.
Proof.
  unfold high_break_days, rest_of_week. rewrite !list_filter_filter.
  apply list_filter_iff. unfold high_break. tauto.
Qed.

Lemma group_low_break_days df k m :
  low_break_days (Low m) (rest_of_week (filter (λ r, week_year r = k) df))
  = filter (λ c, week_year c = k ∧ low_break m c) df.
Proof.
  unfold low_break_days, rest_of_week. rewrite !list_filter_filter.
  apply list_filter_iff. unfold low_break. tauto.
Qed.

Lemma first_monday_elem df k m :
  first_monday df k = Some m → m ∈ df ∧ week_year m = k ∧ DayOfWeek m = 0.
Proof.
  intros Hm%head_Some_elem_of. apply list_elem_of_filter in Hm. tauto.
Qed.

Lemma first_monday_is_Some df m :
  m ∈ df → DayOfWeek m = 0 → is_Some (first_monday df (week_year m)).
Proof.
  intros Hm Hd. unfold first_monday.
  destruct (filter _ df) as [|m0 ms] eqn:Hf; [|by eexists].
  assert (m ∈ filter (λ r, week_year r = week_year m ∧ DayOfWeek r = 0) df)
    as Hin by (by apply list_elem_of_filter).
  rewrite Hf in Hin. by apply elem_of_nil in Hin.
Qed.

Lemma first_monday_group df k m :
  first_monday df k = Some m →
  (k, filter (λ r, week_year r = k) df) ∈ groupby_Week_Year df
  ∧ head (monday_data (filter (λ r, week_year r = k) df)) = Some m.
Proof.
  intros Hm. split; [|by rewrite group_monday_data].
  apply elem_of_groupby. split; [|done].
  apply elem_of_group_keys. exists m.
  apply first_monday_elem in Hm. tauto.
Qed.

Lemma eligible_week_outcome df k m :
  first_monday df k = Some m → ∃ o, o ∈ outcomes df ∧ weekKey o = k.
Proof.
  intros [Hgrp Hm]%first_monday_group.
  eexists. split.
  - apply elem_of_outcomes. eexists. split; [exact Hgrp|].
    by apply classify_week_Some.
  - done.
Qed.

(** Every outcome is that of the first Monday row of its week, with the
    break days of the first break rows in row order. *)
Lemma outcome_in_row_order df o :
  o ∈ outcomes df →
  ∃ m,
    first_monday df (weekKey o) = Some m
    ∧ mondayDate o = Date m ∧ mondayHigh o = High m ∧ mondayLow o = Low m
    ∧ firstHighBreakDay o
      = DayOfWeek <$> first_high_break df (weekKey o) m
    ∧ firstLowBreakDay o
      = DayOfWeek <$> first_low_break df (weekKey o) m.
Proof.
  intros ([k week_data] & [_ ->]%elem_of_groupby & Hc)%elem_of_outcomes.
  destruct (head (monday_data (filter (λ r, week_year r = k) df)))
    as [m|] eqn:Hm.
  - rewrite (classify_week_Some _ _ _ Hm) in Hc. injection Hc as <-.
    exists m. cbn [weekKey mondayDate mondayHigh mondayLow
                   firstHighBreakDay firstLowBreakDay].
    unfold first_monday, first_high_break, first_low_break, first_day.
    by rewrite <-group_monday_data, group_high_break_days,
      group_low_break_days.
  - rewrite classify_week_None in Hc; [done|].
    by destruct (monday_data _).
Qed.

Lemma stored_week_outcome df (P : WeekOutcome → Prop)
    `{!∀ o, Decision (P o)} w :
  w ∈ info_of <$> filter P (outcomes df) →
  ∃ o, w = info_of o ∧ o ∈ outcomes df ∧ P o.
Proof.
  intros (o & -> & [HP Ho]%list_elem_of_filter)%list_elem_of_fmap. eauto.
Qed.

(** The category of the week of a group with a Monday row. *)
Lemma category_of_group df k week_data m :
  (k, week_data) ∈ groupby_Week_Year df →
  head (monday_data week_data) = Some m →
  occurrences k
    ((info_of <$> filter onlyHigh (outcomes df))
     ++ (info_of <$> filter onlyLow (outcomes df))
     ++ (info_of <$> filter neither (outcomes df))
     ++ (info_of <$> filter both (outcomes df))) = 1%nat
  ∧ (listed k (info_of <$> filter onlyHigh (outcomes df))
     ↔ (∃ c, c ∈ week_data ∧ high_break m c)
       ∧ ¬ (∃ c, c ∈ week_data ∧ low_break m c))
  ∧ (listed k (info_of <$> filter onlyLow (outcomes df))
     ↔ (∃ c, c ∈ week_data ∧ low_break m c)
       ∧ ¬ (∃ c, c ∈ week_data ∧ high_break m c))
  ∧ (listed k (info_of <$> filter neither (outcomes df))
     ↔ ¬ (∃ c, c ∈ week_data ∧ high_break m c)
       ∧ ¬ (∃ c, c ∈ week_data ∧ low_break m c))
  ∧ (listed k (info_of <$> filter both (outcomes df))
     ↔ (∃ c, c ∈ week_data ∧ high_break m c)
       ∧ (∃ c, c ∈ week_data ∧ low_break m c)).
Proof.
  intros Hgrp Hm.
  pose proof (classify_week_Some k _ _ Hm) as Hc.
  set (o := mkOutcome _ _ _ _ _ _ _ _) in Hc.
  assert (o ∈ outcomes df) as Ho by (apply elem_of_outcomes; eauto).
  destruct (classify_week_broken _ _ _ _ Hm Hc) as [HH HL].
  change k with (weekKey o).
  rewrite !(category_listed df _ o Ho).
  unfold onlyHigh, onlyLow, neither, both. rewrite HH, HL.
  split; [|tauto].
  rewrite !occurrences_app. unfold occurrences.
  rewrite !(category_entries df _ o Ho).
  unfold onlyHigh, onlyLow, neither, both.
  repeat case_decide; destruct (highBroken o), (lowBroken o); simpl in *;
    first [done | exfalso; tauto].
Qed.

Lemma week_rows_exist (df : list Row) k (P : Row → Prop) :
  (∃ c, c ∈ filter (λ r, week_year r = k) df ∧ P c)
  ↔ ∃ c, c ∈ df ∧ week_year c = k ∧ P c.
Proof.
  setoid_rewrite list_elem_of_filter.
  split; intros (c & Hc); exists c; tauto.
Qed.

(** C2.  [analyze_partial_breaks] returns for every input.  Every week
    of the frame that has a Monday row has exactly one entry in the four
    category lists taken together, and the list that holds it is the one
    its predicate selects, [m0] being the first Monday row of the week:
    only_high_broken iff some Tuesday-to-Friday row of the week has a high
    above that of [m0] and none a low below, only_low_broken iff the
    reverse, neither_broken iff neither, both_broken iff both.  A week
    without a Monday row has no entry.  The four lengths add up to the
    returned total_mondays.  (The same is stated for the week groups the
    loop visits.) *)
Theorem C2_four_categories_partition df :
  ∃ only_high only_low neither_l both_l total,
    PartialBreaks.analyze_partial_breaks df
      = Ok (only_high, only_low, neither_l, both_l, total)
    ∧ len only_high + len only_low + len neither_l + len both_l = total
    ∧ (∀ k week_data m,
        (k, week_data) ∈ groupby_Week_Year df →
        head (monday_data week_data) = Some m →
        let H := ∃ c, c ∈ week_data ∧ high_break m c in
        let L := ∃ c, c ∈ week_data ∧ low_break m c in
        occurrences k (only_high ++ only_low ++ neither_l ++ both_l) = 1%nat
        ∧ (listed k only_high ↔ H ∧ ¬ L)
        ∧ (listed k only_low ↔ L ∧ ¬ H)
        ∧ (listed k neither_l ↔ ¬ H ∧ ¬ L)
        ∧ (listed k both_l ↔ H ∧ L))
    ∧ (∀ m, m ∈ df → DayOfWeek m = 0 →
        ∃ m0,
          first_monday df (week_year m) = Some m0
          ∧ let k := week_year m in
            let H := ∃ c, c ∈ df ∧ week_year c = k ∧ high_break m0 c in
            let L := ∃ c, c ∈ df ∧ week_year c = k ∧ low_break m0 c in
            occurrences k (only_high ++ only_low ++ neither_l ++ both_l)
            = 1%nat
            ∧ (listed k only_high ↔ H ∧ ¬ L)
            ∧ (listed k only_low ↔ L ∧ ¬ H)
            ∧ (listed k neither_l ↔ ¬ H ∧ ¬ L)
            ∧ (listed k both_l ↔ H ∧ L))
    ∧ (∀ k, listed k (only_high ++ only_low ++ neither_l ++ both_l) →
        ∃ m, m ∈ df ∧ week_year m = k ∧ DayOfWeek m = 0).
Proof.
  eexists _, _, _, _, _. split; [apply analyze_partial_breaks_outcomes|].
  split.
  { rewrite !len_fmap. apply categories_exhaustive. }
  split; [|split].
  - intros k week_data m Hgrp Hm H L. subst H L.
    by apply category_of_group.
  - intros m Hm Hd.
    destruct (first_monday_is_Some df m Hm Hd) as [m0 Hm0].
    exists m0. split; [done|]. cbv zeta.
    destruct (first_monday_group _ _ _ Hm0) as [Hgrp Hhead].
    pose proof (category_of_group df _ _ m0 Hgrp Hhead) as Hcat.
    by rewrite !week_rows_exist in Hcat.
  - intros k (w & Hw & Hk). rewrite <-!fmap_app in Hw.
    apply list_elem_of_fmap in Hw as (o & -> & Ho).
    assert (o ∈ outcomes df) as Hin.
    { rewrite !elem_of_app, !list_elem_of_filter in Ho. tauto. }
    destruct (outcome_in_row_order df o Hin) as (m & Hm & _).
    rewrite info_key_of in Hk. rewrite Hk in Hm.
    apply first_monday_elem in Hm. eauto.
Qed.

(** In [frame_both] the Monday row is 2024-01-01, in ISO week 1 of 2024;
    Tuesday breaks its high and Wednesday its low, so the week is listed
    once, in both_broken. *)
Lemma C2_four_categories_partition_witness :
  ∃ only_high only_low neither_l both_l total,
    PartialBreaks.analyze_partial_breaks frame_both
      = Ok (only_high, only_low, neither_l, both_l, total)
    ∧ occurrences (1, 2024) (only_high ++ only_low ++ neither_l ++ both_l)
      = 1%nat
    ∧ listed (1, 2024) both_l
    ∧ ¬ listed (2, 2024) (only_high ++ only_low ++ neither_l ++ both_l).
Proof.
  destruct (C2_four_categories_partition frame_both)
    as (oh & ol & ne & bo & total & Hrun & _ & _ & Hdata & Honly).
  exists oh, ol, ne, bo, total. split; [exact Hrun|].
  destruct (Hdata (add_columns monday_1)) as (m0 & Hm0 & Hcat).
  { unfold frame_both, load_data. rewrite fmap_cons. left. }
  { vm_compute. reflexivity. }
  assert (week_year (add_columns monday_1) = (1, 2024)) as Hk
    by (vm_compute; reflexivity).
  rewrite Hk in Hm0, Hcat. cbv zeta in Hcat.
  assert (first_monday frame_both (1, 2024) = Some (add_columns monday_1))
    as Hfirst by (vm_compute; reflexivity).
  assert (m0 = add_columns monday_1) as -> by congruence.
  destruct Hcat as (Hocc & _ & _ & _ & Hboth).
  split; [exact Hocc|]. split.
  - apply Hboth. split.
    + exists (add_columns tuesday_2). by_compute.
    + exists (add_columns wednesday_3). by_compute.
  - intros (m & Hm & Hkm & Hd)%Honly.
    assert (Forall (λ r, week_year r ≠ (2, 2024)) frame_both) as Hall
      by by_compute.
    rewrite Forall_forall in Hall. exact (Hall m Hm Hkm).
Defined.

(** C3.  On the same input, the counts of [analyze_monday_ranges] are the
    sizes of the lists of [analyze_partial_breaks]: monday_highs_taken is
    len(only_high_broken) + len(both_broken), monday_lows_taken is
    len(only_low_broken) + len(both_broken), and the two total_mondays
    agree.  (The count both_broken is len(both_broken) as well.) *)
Theorem C3_counts_match_categories df :
  ∃ total highs lows both_n day_high day_low
    only_high only_low neither_l both_l total',
    MondayRanges.analyze_monday_ranges df
      = Ok (total, highs, lows, both_n, day_high, day_low)
    ∧ PartialBreaks.analyze_partial_breaks df
      = Ok (only_high, only_low, neither_l, both_l, total')
    ∧ highs = len only_high + len both_l
    ∧ lows = len only_low + len both_l
    ∧ total = total'
    ∧ both_n = len both_l.
Proof.
  eexists _, _, _, _, _, _, _, _, _, _, _.
  split; [apply analyze_monday_ranges_outcomes|].
  split; [apply analyze_partial_breaks_outcomes|].
  rewrite !len_fmap. auto using high_count_split, low_count_split.
Qed.

(** ** Probabilities *)

Lemma Qc_of_Z_nonzero z : z ≠ 0 → Qc_of_Z z ≠ 0%Qc.
Proof. intros Hz Heq. apply Hz. apply Z2Qc_inj. by rewrite Heq, Z2Qc_inj_0. Qed.

Lemma Qc_complement (n t : Z) :
  t ≠ 0 → (Qc_of_Z (t - n) / Qc_of_Z t = 1 - Qc_of_Z n / Qc_of_Z t)%Qc.
Proof.
  intros Ht. rewrite Z2Qc_inj_sub. field. by apply Qc_of_Z_nonzero.
Qed.

(** C4.  When total_mondays > 0, the either-break probability that
    [print_results] computes by inclusion-exclusion,
    (monday_highs_taken + monday_lows_taken - both_broken) / total_mondays,
    is 1 - len(neither_broken) / total_mondays, where neither_broken is the
    list of weeks with neither level broken that [analyze_partial_breaks]
    returns for the same input.  Ratios are exact rationals. *)
Theorem C4_either_break_complement df total highs lows both_n day_high day_low :
  MondayRanges.analyze_monday_ranges df
    = Ok (total, highs, lows, both_n, day_high, day_low) →
  0 < total →
  ∃ only_high only_low neither_l both_l,
    PartialBreaks.analyze_partial_breaks df
      = Ok (only_high, only_low, neither_l, both_l, total)
    ∧ MondayRanges.either_break_prob total highs lows both_n
      = Ok (Qc_of_Z (highs + lows - both_n) / Qc_of_Z total)%Qc
    ∧ (Qc_of_Z (highs + lows - both_n) / Qc_of_Z total
       = 1 - Qc_of_Z (len neither_l) / Qc_of_Z total)%Qc.
Proof.
  rewrite analyze_monday_ranges_outcomes. intros [= <- <- <- <- <- <-] Hpos.
  eexists _, _, _, _. split; [apply analyze_partial_breaks_outcomes|].
  split.
  - unfold MondayRanges.either_break_prob, true_div.
    rewrite decide_True, decide_False by lia. done.
  - rewrite len_fmap, <-Qc_complement by lia. f_equal. f_equal.
    rewrite high_count_split, low_count_split.
    pose proof (categories_exhaustive (outcomes df)). lia.
Qed.

(** The identity on [frame_both], where total_mondays is 1. *)
Lemma C4_either_break_complement_witness :
  ∃ only_high only_low neither_l both_l,
    PartialBreaks.analyze_partial_breaks frame_both
      = Ok (only_high, only_low, neither_l, both_l, 1)
    ∧ MondayRanges.either_break_prob 1 1 1 1
      = Ok (Qc_of_Z (1 + 1 - 1) / Qc_of_Z 1)%Qc
    ∧ (Qc_of_Z (1 + 1 - 1) / Qc_of_Z 1
       = 1 - Qc_of_Z (len neither_l) / Qc_of_Z 1)%Qc.
Proof.
  eapply (C4_either_break_complement frame_both 1 1 1 1);
    [vm_compute; reflexivity | lia].
Defined.

(** ** Tallies *)

Lemma Zsum_Permutation l1 l2 : l1 ≡ₚ l2 → Zsum l1 = Zsum l2.
Proof. unfold Zsum. induction 1; simpl; lia. Qed.

Lemma Qcsum_Permutation l1 l2 : l1 ≡ₚ l2 → Qcsum l1 = Qcsum l2.
Proof.
  unfold Qcsum. induction 1; simpl; try congruence.
  rewrite !Qcplus_assoc. f_equal. apply Qcplus_comm.
Qed.

Lemma Qcsum_cons x l : Qcsum (x :: l) = (x + Qcsum l)%Qc.
Proof. done. Qed.

Lemma counter_total_insert (c : gmap Z Z) d v :
  c !! d = None → counter_total (<[d := v]> c) = v + counter_total c.
Proof.
  intros Hd. unfold counter_total.
  by rewrite (Zsum_Permutation _ _
    (fmap_Permutation snd _ _ (map_to_list_insert c d v Hd))).
Qed.

Lemma probs_total_insert (m : gmap string Qc) k v :
  m !! k = None → probs_total (<[k := v]> m) = (v + probs_total m)%Qc.
Proof.
  intros Hk. unfold probs_total.
  by rewrite (Qcsum_Permutation _ _
    (fmap_Permutation snd _ _ (map_to_list_insert m k v Hk))).
Qed.

Lemma counter_total_incr d (c : gmap Z Z) :
  counter_total (counter_incr d c) = counter_total c + 1.
Proof.
  unfold counter_incr. destruct (c !! d) as [v|] eqn:Hd; simpl.
  - rewrite <-(insert_delete_id c d v Hd) at 2.
    rewrite <-insert_delete_eq.
    rewrite !counter_total_insert by apply lookup_delete_eq. lia.
  - rewrite counter_total_insert by done. lia.
Qed.

Lemma counter_total_tally days : ∀ c,
  counter_total (tally days c) = counter_total c + len days.
Proof.
  unfold tally. induction days as [|d days IH]; intros c; simpl.
  - unfold len; simpl. lia.
  - rewrite IH, counter_total_incr, len_cons. lia.
Qed.

Lemma dom_counter_incr d (c : gmap Z Z) :
  dom (counter_incr d c) = {[d]} ∪ dom c.
Proof. unfold counter_incr. apply dom_insert_L. Qed.

Lemma dom_tally days : ∀ c, dom (tally days c) = list_to_set days ∪ dom c.
Proof.
  unfold tally. induction days as [|d days IH]; intros c; simpl.
  - set_solver.
  - rewrite IH, dom_counter_incr. set_solver.
Qed.

(** The first-break day of an outcome is a Tuesday to Friday. *)
Lemma first_day_high_break_days h week_data d :
  first_day (high_break_days h (rest_of_week week_data)) = Some d → d ∈ [1; 2; 3; 4].
Proof.
  unfold first_day. destruct (head _) as [c|] eqn:Hc; intros [= <-].
  apply head_Some_elem_of, elem_of_high_break_days in Hc. tauto.
Qed.

Lemma first_day_low_break_days lo week_data d :
  first_day (low_break_days lo (rest_of_week week_data)) = Some d → d ∈ [1; 2; 3; 4].
Proof.
  unfold first_day. destruct (head _) as [c|] eqn:Hc; intros [= <-].
  apply head_Some_elem_of, elem_of_low_break_days in Hc. tauto.
Qed.

Lemma classify_week_weekdays grp o :
  classify_week grp = Some o →
  (∀ d, firstHighBreakDay o = Some d → d ∈ [1; 2; 3; 4])
  ∧ (∀ d, firstLowBreakDay o = Some d → d ∈ [1; 2; 3; 4]).
Proof.
  unfold classify_week. destruct (monday_data grp.2) as [|m ?]; [done|].
  intros [= <-]; simpl. split; intros d Hd.
  - by eapply first_day_high_break_days.
  - by eapply first_day_low_break_days.
Qed.

Lemma outcomes_high_days df d :
  d ∈ omap firstHighBreakDay (outcomes df) → d ∈ [1; 2; 3; 4].
Proof.
  intros (o & (grp & _ & Hc)%elem_of_outcomes & Hd)%list_elem_of_omap.
  destruct (classify_week_weekdays _ _ Hc) as [Hh _]. auto.
Qed.

Lemma outcomes_low_days df d :
  d ∈ omap firstLowBreakDay (outcomes df) → d ∈ [1; 2; 3; 4].
Proof.
  intros (o & (grp & _ & Hc)%elem_of_outcomes & Hd)%list_elem_of_omap.
  destruct (classify_week_weekdays _ _ Hc) as [_ Hl]. auto.
Qed.

(** Every broken week contributes one day to the tally. *)
Lemma len_high_days os :
  (∀ o, o ∈ os → highBroken o ↔ is_Some (firstHighBreakDay o)) →
  len (omap firstHighBreakDay os) = len (filter (λ o, Is_true (highBroken o)) os).
Proof.
  induction os as [|o os IH]; intros Hos; [done|].
  rewrite len_filter_cons, <-IH by (intros; apply Hos; by right). simpl.
  pose proof (Hos o ltac:(left)) as Ho.
  destruct (firstHighBreakDay o) as [d|].
  - rewrite len_cons, decide_True; [done|]. apply Ho. eauto.
  - rewrite decide_False; [done|]. rewrite Ho. by inversion 1.
Qed.

Lemma len_low_days os :
  (∀ o, o ∈ os → lowBroken o ↔ is_Some (firstLowBreakDay o)) →
  len (omap firstLowBreakDay os) = len (filter (λ o, Is_true (lowBroken o)) os).
Proof.
  induction os as [|o os IH]; intros Hos; [done|].
  rewrite len_filter_cons, <-IH by (intros; apply Hos; by right). simpl.
  pose proof (Hos o ltac:(left)) as Ho.
  destruct (firstLowBreakDay o) as [d|].
  - rewrite len_cons, decide_True; [done|]. apply Ho. eauto.
  - rewrite decide_False; [done|]. rewrite Ho. by inversion 1.
Qed.

Lemma outcomes_days df o :
  o ∈ outcomes df →
  (highBroken o ↔ is_Some (firstHighBreakDay o))
  ∧ (lowBroken o ↔ is_Some (firstLowBreakDay o)).
Proof.
  intros (grp & _ & Hc)%elem_of_outcomes. by apply (classify_week_days grp).
Qed.

(** ** The day-conditional probabilities *)

Lemma weekday_cases d : d ∈ [1; 2; 3; 4] → d = 1 ∨ d = 2 ∨ d = 3 ∨ d = 4.
Proof. rewrite !elem_of_cons, elem_of_nil. tauto. Qed.

Lemma subscript_day_names d :
  d ∈ [1; 2; 3; 4] →
  MondayRanges.subscript MondayRanges.day_names d = Ok (day_name d).
Proof. intros [->|[->|[->| ->]]]%weekday_cases; reflexivity. Qed.

Lemma day_name_inj d1 d2 :
  d1 ∈ [1; 2; 3; 4] → d2 ∈ [1; 2; 3; 4] → day_name d1 = day_name d2 → d1 = d2.
Proof.
  intros [->|[->|[->| ->]]]%weekday_cases [->|[->|[->| ->]]]%weekday_cases;
    vm_compute; congruence.
Qed.

Lemma guarded_div taken count :
  (if decide (0 < taken) then true_div count taken else Ok 0%Qc)
  = Ok (prob_of taken count).
Proof.
  unfold prob_of, true_div. case_decide; [|done]. by rewrite decide_False by lia.
Qed.

Lemma day_probs_loop (taken : Z) (items : list (Z * Z)) : ∀ acc,
  Forall (λ it : Z * Z, it.1 ∈ [1; 2; 3; 4]) items →
  for_each
    (λ (acc : gmap string Qc) (item : Z * Z),
       name ← MondayRanges.subscript MondayRanges.day_names item.1;
       p ← (if decide (0 < taken) then true_div item.2 taken else Ok 0%Qc);
       Ok (<[name := p]> acc))
    acc items
  = Ok (foldl (store_prob taken) acc items).
Proof.
  induction items as [|it items IH]; intros acc Hkeys; simpl; [done|].
  apply Forall_cons in Hkeys as [Hit Hkeys].
  rewrite subscript_day_names, guarded_div by done. simpl.
  by apply IH.
Qed.

Lemma store_prob_other (taken : Z) (items : list (Z * Z)) k : ∀ acc,
  (∀ it, it ∈ items → day_name it.1 ≠ k) →
  foldl (store_prob taken) acc items !! k = acc !! k.
Proof.
  induction items as [|it items IH]; intros acc Hk; simpl; [done|].
  rewrite IH by (intros; apply Hk; by right).
  unfold store_prob. apply lookup_insert_ne, Hk. left.
Qed.

Lemma store_prob_names (taken : Z) (items : list (Z * Z)) :
  NoDup items.*1 → Forall (λ it : Z * Z, it.1 ∈ [1; 2; 3; 4]) items →
  ∀ it1 it2, it1 ∈ items → it2 ∈ items →
    day_name it1.1 = day_name it2.1 → it1 = it2.
Proof.
  intros Hnd Hkeys it1 it2 H1 H2 Hname.
  rewrite Forall_forall in Hkeys.
  apply day_name_inj in Hname; [|by apply Hkeys..].
  destruct it1 as [d1 c1], it2 as [d2 c2]; simpl in *; subst.
  f_equal. by eapply (NoDup_fst_agree items).
Qed.

Lemma store_prob_lookup (taken : Z) (items : list (Z * Z)) : ∀ acc it,
  NoDup items.*1 → Forall (λ it : Z * Z, it.1 ∈ [1; 2; 3; 4]) items →
  it ∈ items →
  foldl (store_prob taken) acc items !! day_name it.1
  = Some (prob_of taken it.2).
Proof.
  induction items as [|it0 items IH]; intros acc it Hnd Hkeys Hit;
    [by apply elem_of_nil in Hit|].
  pose proof (store_prob_names taken _ Hnd Hkeys) as Hinj.
  rewrite fmap_cons in Hnd. apply NoDup_cons in Hnd as [Hit0 Hnd].
  apply Forall_cons in Hkeys as [Hk0 Hkeys]. simpl.
  apply elem_of_cons in Hit as [->|Hit]; [|by apply IH].
  rewrite store_prob_other.
  - unfold store_prob. apply lookup_insert_eq.
  - intros it Hit Hname. destruct Hit0.
    rewrite (Hinj it0 it); [by apply list_elem_of_fmap_2|left|by right|done].
Qed.

Lemma probs_total_foldl (taken : Z) (items : list (Z * Z)) : ∀ acc,
  NoDup items.*1 → Forall (λ it : Z * Z, it.1 ∈ [1; 2; 3; 4]) items →
  (∀ it, it ∈ items → acc !! day_name it.1 = None) →
  probs_total (foldl (store_prob taken) acc items)
  = (probs_total acc + Qcsum (prob_of taken <$> items.*2))%Qc.
Proof.
  induction items as [|it0 items IH]; intros acc Hnd Hkeys Hacc.
  { unfold Qcsum; simpl. ring. }
  rewrite !fmap_cons, Qcsum_cons. cbn [foldl].
  pose proof (store_prob_names taken _ Hnd Hkeys) as Hinj.
  rewrite fmap_cons in Hnd. apply NoDup_cons in Hnd as [Hit0 Hnd].
  apply Forall_cons in Hkeys as [Hk0 Hkeys].
  rewrite IH; [|done..|].
  - unfold store_prob at 1. rewrite probs_total_insert by (apply Hacc; left).
    ring.
  - intros it Hit. unfold store_prob. rewrite lookup_insert_ne.
    + apply Hacc. by right.
    + intros Hname. destruct Hit0.
      rewrite (Hinj it0 it); [by apply list_elem_of_fmap_2|left|by right|done].
Qed.

Lemma Qcsum_prob taken counts :
  0 < taken →
  Qcsum (prob_of taken <$> counts) = (Qc_of_Z (Zsum counts) / Qc_of_Z taken)%Qc.
Proof.
  intros Hpos. pose proof (Qc_of_Z_nonzero taken ltac:(lia)) as Hnz.
  induction counts as [|c counts IH].
  - unfold Qcsum, Zsum; simpl. rewrite Z2Qc_inj_0. by field.
  - rewrite fmap_cons, Qcsum_cons, IH. unfold Zsum; cbn [foldr].
    rewrite Z2Qc_inj_add. unfold prob_of. rewrite decide_True by done.
    by field.
Qed.

(** The dict comprehension on a tally whose keys are day numbers with a
    name. *)
Lemma day_probs_ok taken (counter : gmap Z Z) :
  (∀ d, d ∈ dom counter → d ∈ [1; 2; 3; 4]) →
  ∃ probs,
    MondayRanges.day_probs taken counter = Ok probs
    ∧ (∀ d count, counter !! d = Some count →
         probs !! day_name d = Some (prob_of taken count))
    ∧ (0 < taken → counter_total counter = taken → probs_total probs = 1%Qc).
Proof.
  intros Hdom.
  assert (Forall (λ it : Z * Z, it.1 ∈ [1; 2; 3; 4]) (map_to_list counter))
    as Hkeys.
  { apply Forall_forall. intros [d c] Hdc%elem_of_map_to_list.
    apply Hdom, elem_of_dom. eauto. }
  pose proof (NoDup_fst_map_to_list counter) as Hnd.
  eexists. split; [apply day_probs_loop, Hkeys|]. split.
  - intros d count Hd%elem_of_map_to_list.
    by apply (store_prob_lookup taken _ ∅ (d, count)).
  - intros Hpos Htotal.
    rewrite probs_total_foldl by (done || intros; apply lookup_empty).
    unfold probs_total at 1. rewrite map_to_list_empty.
    rewrite Qcsum_prob by done. fold (counter_total counter).
    rewrite Htotal. unfold Qcsum; simpl.
    pose proof (Qc_of_Z_nonzero taken ltac:(lia)). by field.
Qed.

Lemma counter_total_empty : counter_total ∅ = 0.
Proof. unfold counter_total. by rewrite map_to_list_empty. Qed.

Lemma high_tally_total df :
  counter_total (tally (omap firstHighBreakDay (outcomes df)) ∅)
  = len (filter (λ o, Is_true (highBroken o)) (outcomes df)).
Proof.
  rewrite counter_total_tally, counter_total_empty, len_high_days; [lia|].
  intros o Ho. by apply (outcomes_days df).
Qed.

Lemma low_tally_total df :
  counter_total (tally (omap firstLowBreakDay (outcomes df)) ∅)
  = len (filter (λ o, Is_true (lowBroken o)) (outcomes df)).
Proof.
  rewrite counter_total_tally, counter_total_empty, len_low_days; [lia|].
  intros o Ho. by apply (outcomes_days df).
Qed.

Lemma high_tally_keys df d :
  d ∈ dom (tally (omap firstHighBreakDay (outcomes df)) ∅) → d ∈ [1; 2; 3; 4].
Proof.
  rewrite dom_tally, dom_empty_L, elem_of_union, elem_of_list_to_set.
  intros [Hd|Hd]; [by apply (outcomes_high_days df)|set_solver].
Qed.

Lemma low_tally_keys df d :
  d ∈ dom (tally (omap firstLowBreakDay (outcomes df)) ∅) → d ∈ [1; 2; 3; 4].
Proof.
  rewrite dom_tally, dom_empty_L, elem_of_union, elem_of_list_to_set.
  intros [Hd|Hd]; [by apply (outcomes_low_days df)|set_solver].
Qed.

Lemma calculate_probabilities_ok total highs lows both_n
    (day_high day_low : gmap Z Z) :
  (∀ d, d ∈ dom day_high → d ∈ [1; 2; 3; 4]) →
  (∀ d, d ∈ dom day_low → d ∈ [1; 2; 3; 4]) →
  ∃ day_high_probs day_low_probs,
    MondayRanges.calculate_probabilities total highs lows both_n
                                         day_high day_low
    = Ok (prob_of total highs, prob_of total lows,
          day_high_probs, day_low_probs)
    ∧ MondayRanges.day_probs highs day_high = Ok day_high_probs
    ∧ MondayRanges.day_probs lows day_low = Ok day_low_probs.
Proof.
  intros Hh Hl.
  destruct (day_probs_ok highs day_high Hh) as (ph & Hph & _).
  destruct (day_probs_ok lows day_low Hl) as (pl & Hpl & _).
  exists ph, pl. unfold MondayRanges.calculate_probabilities.
  rewrite !guarded_div, Hph, Hpl. done.
Qed.

(** C5.  The tallies of day_high_break add up to monday_highs_taken and
    those of day_low_break to monday_lows_taken: every week with a break
    contributes exactly one first-break day.  [calculate_probabilities]
    returns on these results, the probability it stores for a day is
    count / monday_highs_taken (resp. / monday_lows_taken), and when the
    denominator is positive the stored probabilities add up to exactly 1
    over the rationals. *)
Theorem C5_day_probabilities_sum_to_one
    df total highs lows both_n day_high day_low :
  MondayRanges.analyze_monday_ranges df
    = Ok (total, highs, lows, both_n, day_high, day_low) →
  counter_total day_high = highs
  ∧ counter_total day_low = lows
  ∧ ∃ hp lp day_high_probs day_low_probs,
      MondayRanges.calculate_probabilities total highs lows both_n
                                           day_high day_low
      = Ok (hp, lp, day_high_probs, day_low_probs)
      ∧ (∀ d count, day_high !! d = Some count →
           day_high_probs !! day_name d = Some (prob_of highs count))
      ∧ (∀ d count, day_low !! d = Some count →
           day_low_probs !! day_name d = Some (prob_of lows count))
      ∧ (0 < highs → probs_total day_high_probs = 1%Qc)
      ∧ (0 < lows → probs_total day_low_probs = 1%Qc).
Proof.
  rewrite analyze_monday_ranges_outcomes. intros [= <- <- <- <- <- <-].
  pose proof (high_tally_total df) as Hht.
  pose proof (low_tally_total df) as Hlt.
  split; [done|]. split; [done|].
  destruct (calculate_probabilities_ok
              (len (outcomes df))
              (len (filter (λ o, Is_true (highBroken o)) (outcomes df)))
              (len (filter (λ o, Is_true (lowBroken o)) (outcomes df)))
              (len (filter both (outcomes df)))
              _ _ (high_tally_keys df) (low_tally_keys df))
    as (ph & pl & Hcalc & Hph & Hpl).
  destruct (day_probs_ok
              (len (filter (λ o, Is_true (highBroken o)) (outcomes df)))
              _ (high_tally_keys df)) as (ph' & Hph' & Hhl & Hhs).
  destruct (day_probs_ok
              (len (filter (λ o, Is_true (lowBroken o)) (outcomes df)))
              _ (low_tally_keys df)) as (pl' & Hpl' & Hll & Hls).
  rewrite Hph in Hph'. rewrite Hpl in Hpl'.
  injection Hph' as <-. injection Hpl' as <-.
  eexists _, _, ph, pl. split; [exact Hcalc|].
  repeat split; auto.
Qed.

(** The sums on [frame_both], where both counts are 1. *)
Lemma C5_day_probabilities_sum_to_one_witness :
  ∃ day_high day_low hp lp day_high_probs day_low_probs,
    MondayRanges.analyze_monday_ranges frame_both
      = Ok (1, 1, 1, 1, day_high, day_low)
    ∧ counter_total day_high = 1
    ∧ counter_total day_low = 1
    ∧ MondayRanges.calculate_probabilities 1 1 1 1 day_high day_low
      = Ok (hp, lp, day_high_probs, day_low_probs)
    ∧ probs_total day_high_probs = 1%Qc
    ∧ probs_total day_low_probs = 1%Qc.
Proof.
  assert (MondayRanges.analyze_monday_ranges frame_both
          = Ok (1, 1, 1, 1, {[1 := 1]}, {[2 := 1]})) as Hrun
    by (vm_compute; reflexivity).
  destruct (C5_day_probabilities_sum_to_one frame_both _ _ _ _ _ _ Hrun)
    as (Hh & Hl & hp & lp & ph & pl & Hcalc & _ & _ & Hhs & Hls).
  exists {[1 := 1]}, {[2 := 1]}, hp, lp, ph, pl.
  repeat split; auto; [apply Hhs | apply Hls]; lia.
Defined.

(** C10.  Every key of the tallies day_high_break and day_low_break that
    [analyze_monday_ranges] returns is one of 1, 2, 3, 4 (Tuesday to
    Friday): the break candidates are restricted to these weekdays before
    the first one is tallied.  Hence each lookup day_names[day] of
    [calculate_probabilities] finds its key and the function returns
    without a KeyError. *)
Theorem C10_tally_keys_have_names df :
  ∃ total highs lows both_n day_high day_low,
    MondayRanges.analyze_monday_ranges df
      = Ok (total, highs, lows, both_n, day_high, day_low)
    ∧ dom day_high ⊆ ({[1; 2; 3; 4]} : gset Z)
    ∧ dom day_low ⊆ ({[1; 2; 3; 4]} : gset Z)
    ∧ map_Forall (λ day _, is_Some (MondayRanges.day_names !! day)) day_high
    ∧ map_Forall (λ day _, is_Some (MondayRanges.day_names !! day)) day_low
    ∧ ∃ probs,
        MondayRanges.calculate_probabilities total highs lows both_n
                                             day_high day_low
        = Ok probs.
Proof.
  eexists _, _, _, _, _, _. split; [apply analyze_monday_ranges_outcomes|].
  pose proof (high_tally_keys df) as Hh. pose proof (low_tally_keys df) as Hl.
  assert (∀ d, d ∈ [1; 2; 3; 4] → is_Some (MondayRanges.day_names !! d))
    as Hnames
    by (intros d [->|[->|[->| ->]]]%weekday_cases; vm_compute; eauto).
  split; [|split; [|split; [|split]]].
  - intros d Hd%Hh. set_solver.
  - intros d Hd%Hl. set_solver.
  - intros d c Hd. apply Hnames, Hh, elem_of_dom. eauto.
  - intros d c Hd. apply Hnames, Hl, elem_of_dom. eauto.
  - destruct (calculate_probabilities_ok
                (len (outcomes df))
                (len (filter (λ o, Is_true (highBroken o)) (outcomes df)))
                (len (filter (λ o, Is_true (lowBroken o)) (outcomes df)))
                (len (filter both (outcomes df))) _ _ Hh Hl)
      as (ph & pl & Hcalc & _). eauto.
Qed.

(** ** The first break of a week *)

Lemma first_day_earliest (P : Row → Prop) selection week_data c :
  StronglySorted (λ a b, Date a ≤ Date b) selection →
  (∀ x, x ∈ selection ↔ x ∈ week_data ∧ P x) →
  weekday_from_date week_data →
  earliest P week_data c →
  first_day selection = Some (DayOfWeek c).
Proof.
  intros Hsorted Hsel Hwd (Hc & HPc & Hmin).
  rewrite Forall_forall in Hmin.
  assert (c ∈ selection) as Hcs by by apply Hsel.
  unfold first_day.
  destruct (head selection) as [c1|] eqn:Hhead.
  2:{ destruct selection; [by apply elem_of_nil in Hcs|done]. }
  simpl. f_equal.
  assert (Date c1 ≤ Date c) as Hle1.
  { apply (StronglySorted_head (λ a b, Date a ≤ Date b) selection);
      try done. intros ?; lia. }
  apply head_Some_elem_of, Hsel in Hhead as [Hc1 HPc1].
  pose proof (Hmin c1 Hc1 HPc1) as Hle2.
  unfold weekday_from_date in Hwd. rewrite Forall_forall in Hwd.
  rewrite (Hwd c Hc), (Hwd c1 Hc1). f_equal. lia.
Qed.

Lemma group_sorted_by_date df k week_data :
  sorted_by_date df → (k, week_data) ∈ groupby_Week_Year df →
  sorted_by_date week_data.
Proof.
  intros Hsorted [_ ->]%elem_of_groupby. by apply StronglySorted_filter.
Qed.

Lemma elem_of_group df k week_data r :
  (k, week_data) ∈ groupby_Week_Year df →
  r ∈ week_data ↔ r ∈ df ∧ week_year r = k.
Proof. intros [_ ->]%elem_of_groupby. rewrite list_elem_of_filter. tauto. Qed.

Lemma group_weekday_from_date df k week_data :
  weekday_from_date df → (k, week_data) ∈ groupby_Week_Year df →
  weekday_from_date week_data.
Proof.
  unfold weekday_from_date. rewrite !Forall_forall.
  intros Hdf Hgrp r Hr. apply Hdf. by apply (elem_of_group df k week_data).
Qed.

Lemma high_break_day_earliest week_data m c :
  sorted_by_date week_data → weekday_from_date week_data →
  earliest (high_break m) week_data c →
  first_day (high_break_days (High m) (rest_of_week week_data)) = Some (DayOfWeek c).
Proof.
  intros Hsorted Hwd Hc.
  apply (first_day_earliest (high_break m) _ week_data); try done.
  - unfold high_break_days, rest_of_week. by do 2 apply StronglySorted_filter.
  - intros x. by rewrite elem_of_high_break_days.
Qed.

Lemma low_break_day_earliest week_data m c :
  sorted_by_date week_data → weekday_from_date week_data →
  earliest (low_break m) week_data c →
  first_day (low_break_days (Low m) (rest_of_week week_data)) = Some (DayOfWeek c).
Proof.
  intros Hsorted Hwd Hc.
  apply (first_day_earliest (low_break m) _ week_data); try done.
  - unfold low_break_days, rest_of_week. by do 2 apply StronglySorted_filter.
  - intros x. by rewrite elem_of_low_break_days.
Qed.

(** C1.  Let the frame be in ascending date order with DayOfWeek derived
    from Date, and let a week group contain a Monday record, [m] being the
    one the code reads.  Both loop bodies then process the week with the
    same outcome [o]: highBroken is true iff some Tuesday-to-Friday candle
    of the week has a high strictly greater than Monday's high, and then
    the first-high-break day is the weekday of any earliest-dated such
    candle; lowBroken and the first-low-break day likewise with a low
    strictly less than Monday's low.  If no candidate's high exceeds
    Monday's high (equality included) the high is not broken, and the same
    for the low.  The week_info built from [o] is the entry of the week in
    the lists [analyze_partial_breaks] returns. *)
Theorem C1_first_break_of_the_week df k week_data m st_ranges st_partial :
  sorted_by_date df →
  weekday_from_date df →
  (k, week_data) ∈ groupby_Week_Year df →
  head (monday_data week_data) = Some m →
  ∃ o,
    MondayRanges.loop_body st_ranges (k, week_data)
      = Ok (ranges_count st_ranges o)
    ∧ PartialBreaks.loop_body st_partial (k, week_data)
      = Ok (partial_store st_partial o)
    ∧ weekKey o = k
    ∧ mondayDate o = Date m ∧ mondayHigh o = High m ∧ mondayLow o = Low m
    ∧ (highBroken o = true ↔ ∃ c, c ∈ week_data ∧ high_break m c)
    ∧ (∀ c, earliest (high_break m) week_data c →
         highBroken o = true ∧ firstHighBreakDay o = Some (DayOfWeek c))
    ∧ (highBroken o = false → firstHighBreakDay o = None)
    ∧ (lowBroken o = true ↔ ∃ c, c ∈ week_data ∧ low_break m c)
    ∧ (∀ c, earliest (low_break m) week_data c →
         lowBroken o = true ∧ firstLowBreakDay o = Some (DayOfWeek c))
    ∧ (lowBroken o = false → firstLowBreakDay o = None)
    ∧ ((∀ c, c ∈ week_data → DayOfWeek c ∈ [1; 2; 3; 4] →
          (High c ≤ High m)%Qc) → highBroken o = false)
    ∧ ((∀ c, c ∈ week_data → DayOfWeek c ∈ [1; 2; 3; 4] →
          (Low m ≤ Low c)%Qc) → lowBroken o = false)
    ∧ ∃ only_high only_low neither_l both_l total,
        PartialBreaks.analyze_partial_breaks df
          = Ok (only_high, only_low, neither_l, both_l, total)
        ∧ info_of o ∈ only_high ++ only_low ++ neither_l ++ both_l.
Proof.
  intros Hsorted Hwd Hgrp Hm.
  pose proof (group_sorted_by_date _ _ _ Hsorted Hgrp) as Hs.
  pose proof (group_weekday_from_date _ _ _ Hwd Hgrp) as Hw.
  pose proof (classify_week_Some k _ _ Hm) as Hc.
  set (o := mkOutcome _ _ _ _ _ _ _ _) in Hc.
  destruct (classify_week_broken _ _ _ _ Hm Hc) as [HH HL].
  destruct (classify_week_days _ _ Hc) as [HdH HdL].
  rewrite Is_true_true in HH, HL, HdH, HdL.
  exists o. rewrite ranges_loop_body, partial_loop_body, Hc.
  do 6 (split; [done|]).
  split; [exact HH|]. split.
  { intros c Hc'. split.
    - apply HH. exists c. destruct Hc' as (? & ? & _). done.
    - by apply high_break_day_earliest. }
  split.
  { intros Hnb. destruct (firstHighBreakDay o) eqn:E; [|done].
    rewrite (proj2 HdH) in Hnb by eauto. done. }
  split; [exact HL|]. split.
  { intros c Hc'. split.
    - apply HL. exists c. destruct Hc' as (? & ? & _). done.
    - by apply low_break_day_earliest. }
  split.
  { intros Hnb. destruct (firstLowBreakDay o) eqn:E; [|done].
    rewrite (proj2 HdL) in Hnb by eauto. done. }
  split.
  { intros Hall. destruct (highBroken o) eqn:Hb; [|done].
    destruct (proj1 HH eq_refl) as (c & Hin & Hday & Hlt).
    apply Qclt_not_le in Hlt. destruct Hlt. by apply Hall. }
  split.
  { intros Hall. destruct (lowBroken o) eqn:Hb; [|done].
    destruct (proj1 HL eq_refl) as (c & Hin & Hday & Hlt).
    apply Qclt_not_le in Hlt. destruct Hlt. by apply Hall. }
  eexists _, _, _, _, _. split; [apply analyze_partial_breaks_outcomes|].
  assert (o ∈ outcomes df) as Ho by (apply elem_of_outcomes; eauto).
  rewrite <-!fmap_app. apply list_elem_of_fmap_2.
  rewrite !elem_of_app, !list_elem_of_filter.
  unfold onlyHigh, onlyLow, neither, both.
  destruct (highBroken o), (lowBroken o); simpl; tauto.
Qed.

(** The week of [frame_both]: high first broken on Tuesday, low on
    Wednesday. *)
Lemma C1_first_break_of_the_week_witness :
  ∃ o,
    MondayRanges.loop_body MondayRanges.init ((1, 2024), frame_both)
      = Ok (ranges_count MondayRanges.init o)
    ∧ PartialBreaks.loop_body PartialBreaks.init ((1, 2024), frame_both)
      = Ok (partial_store PartialBreaks.init o)
    ∧ highBroken o = true ∧ firstHighBreakDay o = Some 1
    ∧ lowBroken o = true ∧ firstLowBreakDay o = Some 2.
Proof.
  assert (sorted_by_date frame_both) as Hsorted
    by (by_compute).
  assert (weekday_from_date frame_both) as Hwd
    by (by_compute).
  assert (((1, 2024), frame_both) ∈ groupby_Week_Year frame_both) as Hgrp
    by (by_compute).
  assert (head (monday_data frame_both) = Some (add_columns monday_1)) as Hm
    by (vm_compute; reflexivity).
  destruct (C1_first_break_of_the_week
              frame_both (1, 2024) frame_both (add_columns monday_1)
              MondayRanges.init PartialBreaks.init Hsorted Hwd Hgrp Hm)
    as (o & Hr & Hp & _ & _ & _ & _ & _ & Hhigh & _ & _ & Hlow & _).
  exists o. split; [exact Hr|]. split; [exact Hp|].
  destruct (Hhigh (add_columns tuesday_2)) as [Hhb Hhd]; [by_compute|].
  destruct (Hlow (add_columns wednesday_3)) as [Hlb Hld]; [by_compute|].
  auto.
Defined.

(** ** Weeks without a Monday *)

Lemma monday_data_none week_data :
  (∀ r, r ∈ week_data → DayOfWeek r ≠ 0) → monday_data week_data = [].
Proof. intros Hno. by apply filter_none. Qed.

Lemma omap_fmap_filter {A B C : Type} (f : B → option C) (g g' : A → B)
    (Q : A → Prop) `{!∀ x, Decision (Q x)} (l : list A) :
  (∀ x, x ∈ l → Q x → g x = g' x) →
  (∀ x, x ∈ l → ¬ Q x → f (g x) = None) →
  omap f (g <$> l) = omap f (g' <$> filter Q l).
Proof.
  induction l as [|x l IH]; intros Hg Hf; [done|].
  assert (omap f (g <$> l) = omap f (g' <$> filter Q l)) as IH'.
  { apply IH; intros y Hy; [apply Hg|apply Hf]; by right. }
  rewrite filter_cons, fmap_cons. cbn [omap list_omap]. rewrite IH'.
  case_decide as HQ.
  - rewrite fmap_cons. cbn [omap list_omap]. by rewrite (Hg x) by (left || done).
  - by rewrite (Hf x) by (left || done).
Qed.

Lemma group_keys_without (df : list Row) k :
  group_keys (filter (λ r, week_year r ≠ k) df)
  = filter (λ k', k' ≠ k) (group_keys df).
Proof.
  symmetry. apply group_keys_unique.
  - apply StronglySorted_filter, group_keys_sorted.
  - apply NoDup_filter, NoDup_group_keys.
  - intros k'. rewrite list_elem_of_filter, elem_of_group_keys.
    setoid_rewrite list_elem_of_filter. split.
    + intros (Hne & r & Hr & <-). eauto.
    + intros (r & [Hne Hr] & <-). eauto.
Qed.

Lemma group_rows_without (df : list Row) k k' :
  k' ≠ k →
  filter (λ r, week_year r = k') (filter (λ r, week_year r ≠ k) df)
  = filter (λ r, week_year r = k') df.
Proof.
  intros Hne. rewrite list_filter_filter. apply list_filter_iff.
  intros r. split; [tauto|]. intros <-. done.
Qed.

Lemma outcomes_without (df : list Row) k :
  (∀ r, r ∈ df → week_year r = k → DayOfWeek r ≠ 0) →
  outcomes (filter (λ r, week_year r ≠ k) df) = outcomes df.
Proof.
  intros Hno. unfold outcomes, groupby_Week_Year.
  rewrite group_keys_without. symmetry. apply omap_fmap_filter.
  - intros k' _ Hne. by rewrite group_rows_without.
  - intros k' _ Heq%dec_stable. subst k'.
    apply classify_week_None, monday_data_none.
    intros r [Hk Hr]%list_elem_of_filter. by apply Hno.
Qed.

(** C9.  A week none of whose records is a Monday is skipped: its
    iteration leaves the state of either loop unchanged and raises
    nothing, so it adds nothing to total_mondays, to the break counts, to
    the tallies or to the category lists.  Both analyses return for the
    frame exactly what they return for the frame without the records of
    that week, and no category list has an entry for that week. *)
Theorem C9_week_without_monday_is_skipped (df : list Row) k :
  (∀ r, r ∈ df → week_year r = k → DayOfWeek r ≠ 0) →
  (∀ week_data st_ranges st_partial,
     (k, week_data) ∈ groupby_Week_Year df →
     MondayRanges.loop_body st_ranges (k, week_data) = Ok st_ranges
     ∧ PartialBreaks.loop_body st_partial (k, week_data) = Ok st_partial)
  ∧ (∃ res,
       MondayRanges.analyze_monday_ranges df = Ok res
       ∧ MondayRanges.analyze_monday_ranges
           (filter (λ r, week_year r ≠ k) df) = Ok res)
  ∧ (∃ only_high only_low neither_l both_l total,
       PartialBreaks.analyze_partial_breaks df
         = Ok (only_high, only_low, neither_l, both_l, total)
       ∧ PartialBreaks.analyze_partial_breaks
           (filter (λ r, week_year r ≠ k) df)
         = Ok (only_high, only_low, neither_l, both_l, total)
       ∧ ¬ listed k (only_high ++ only_low ++ neither_l ++ both_l)).
Proof.
  intros Hno. split; [|split].
  - intros week_data st_r st_p Hgrp.
    rewrite ranges_loop_body, partial_loop_body, classify_week_None; [done|].
    apply monday_data_none. intros r Hr.
    apply (elem_of_group df k week_data r Hgrp) in Hr as [Hr Hk]. auto.
  - eexists. rewrite !analyze_monday_ranges_outcomes.
    by rewrite (outcomes_without df k Hno).
  - eexists _, _, _, _, _. rewrite !analyze_partial_breaks_outcomes.
    rewrite (outcomes_without df k Hno). split; [done|]. split; [done|].
    intros (w & Hw & Hk).
    rewrite <-!fmap_app in Hw.
    apply list_elem_of_fmap in Hw as (o & -> & Ho).
    rewrite info_key_of in Hk.
    assert (o ∈ outcomes df) as Hin.
    { rewrite !elem_of_app, !list_elem_of_filter in Ho. tauto. }
    apply elem_of_outcomes in Hin as ([k' week_data] & Hgrp & Hc).
    pose proof (classify_week_key _ _ Hc) as Hkey. simpl in Hkey.
    rewrite Hk in Hkey. subst k'.
    rewrite classify_week_None in Hc; [done|].
    apply monday_data_none. intros r Hr.
    apply (elem_of_group df k week_data r Hgrp) in Hr as [Hr Hk']. auto.
Qed.

(** The second week of [frame_gap] has a Tuesday and no Monday. *)
Lemma C9_week_without_monday_is_skipped_witness :
  (∃ res,
     MondayRanges.analyze_monday_ranges frame_gap = Ok res
     ∧ MondayRanges.analyze_monday_ranges
         (filter (λ r, week_year r ≠ (2, 2024)) frame_gap) = Ok res)
  ∧ (∃ only_high only_low neither_l both_l total,
       PartialBreaks.analyze_partial_breaks frame_gap
         = Ok (only_high, only_low, neither_l, both_l, total)
       ∧ PartialBreaks.analyze_partial_breaks
           (filter (λ r, week_year r ≠ (2, 2024)) frame_gap)
         = Ok (only_high, only_low, neither_l, both_l, total)
       ∧ ¬ listed (2, 2024) (only_high ++ only_low ++ neither_l ++ both_l)).
Proof.
  assert (∀ r, r ∈ frame_gap → week_year r = (2, 2024) → DayOfWeek r ≠ 0)
    as Hno.
  { apply (proj1 (Forall_forall
      (λ r, week_year r = (2, 2024) → DayOfWeek r ≠ 0) frame_gap)).
    by_compute. }
  destruct (C9_week_without_monday_is_skipped frame_gap (2, 2024) Hno)
    as (_ & Hranges & Hpartial).
  split; assumption.
Defined.

(** ** Reordering the records *)

Lemma group_keys_Permutation (df df' : list Row) :
  df ≡ₚ df' → group_keys df' = group_keys df.
Proof.
  intros Hp. symmetry. apply group_keys_unique.
  - apply group_keys_sorted.
  - apply NoDup_group_keys.
  - intros k. rewrite elem_of_group_keys. by setoid_rewrite Hp.
Qed.

Lemma empty_frame_Permutation {A : Type} (l l' : list A) :
  l ≡ₚ l' → empty_frame l = empty_frame l'.
Proof. intros Hp%Permutation_length. by destruct l, l'. Qed.

Lemma classify_week_Permutation df k week_data week_data' :
  one_monday_per_week df →
  week_data ≡ₚ week_data' →
  (∀ r, r ∈ week_data → r ∈ df ∧ week_year r = k) →
  forget_days <$> classify_week (k, week_data)
  = forget_days <$> classify_week (k, week_data').
Proof.
  intros Hone Hp Hin. unfold classify_week; simpl.
  assert (monday_data week_data ≡ₚ monday_data week_data') as Hmp
    by (unfold monday_data; by rewrite Hp).
  destruct (monday_data week_data) as [|m ms] eqn:Hm,
           (monday_data week_data') as [|m' ms'] eqn:Hm';
    try done; try by apply Permutation_length in Hmp.
  assert (m ∈ monday_data week_data) as [Hd Hw]%list_elem_of_filter
    by (rewrite Hm; left).
  assert (m' ∈ monday_data week_data') as [Hd' Hw']%list_elem_of_filter
    by (rewrite Hm'; left).
  rewrite <-Hp in Hw'.
  apply Hin in Hw as [Hw Hk]. apply Hin in Hw' as [Hw' Hk'].
  assert (m = m') as <- by (apply Hone; congruence).
  simpl. unfold forget_days; simpl. do 2 f_equal.
  - f_equal. apply empty_frame_Permutation.
    unfold high_break_days, rest_of_week. by rewrite Hp.
  - f_equal. apply empty_frame_Permutation.
    unfold low_break_days, rest_of_week. by rewrite Hp.
Qed.

Lemma fmap_omap_ext {A B C D : Type} (h : C → D) (f : B → option C)
    (g g' : A → B) (l : list A) :
  (∀ x, x ∈ l → h <$> f (g x) = h <$> f (g' x)) →
  h <$> omap f (g <$> l) = h <$> omap f (g' <$> l).
Proof.
  induction l as [|x l IH]; intros Hext; [done|].
  rewrite !fmap_cons. cbn [omap list_omap].
  pose proof (Hext x ltac:(left)) as Hx.
  assert (h <$> omap f (g <$> l) = h <$> omap f (g' <$> l)) as IH'
    by (apply IH; intros; apply Hext; by right).
  destruct (f (g x)), (f (g' x)); simplify_eq/=; rewrite ?fmap_cons;
    congruence.
Qed.

Lemma outcomes_Permutation df df' :
  one_monday_per_week df → df ≡ₚ df' →
  forget_days <$> outcomes df = forget_days <$> outcomes df'.
Proof.
  intros Hone Hp. unfold outcomes, groupby_Week_Year.
  rewrite (group_keys_Permutation df df' Hp).
  apply fmap_omap_ext. intros k _.
  apply (classify_week_Permutation df).
  - done.
  - by rewrite Hp.
  - intros r [??]%list_elem_of_filter. done.
Qed.

Lemma filter_fmap_eq {A B : Type} (h : A → B) (P : A → Prop) (Q : B → Prop)
    `{!∀ x, Decision (P x), !∀ y, Decision (Q y)} (l l' : list A) :
  (∀ x, P x ↔ Q (h x)) →
  h <$> l = h <$> l' → h <$> filter P l = h <$> filter P l'.
Proof.
  intros HPQ Heq.
  rewrite !(list_filter_iff P (λ x, Q (h x))) by done.
  by rewrite <-!filter_fmap, Heq.
Qed.

Lemma len_fmap_eq {A B : Type} (h : A → B) (l l' : list A) :
  h <$> l = h <$> l' → len l = len l'.
Proof. intros Heq. by rewrite <-(len_fmap h l), Heq, len_fmap. Qed.

Lemma without_break_days_info (os : list WeekOutcome) :
  without_break_days <$> (info_of <$> os) = info_of <$> (forget_days <$> os).
Proof. rewrite <-!list_fmap_compose. by apply list_fmap_ext. Qed.

Lemma category_forget (P : WeekOutcome → Prop) `{!∀ o, Decision (P o)}
    (os os' : list WeekOutcome) :
  (∀ o, P o ↔ P (forget_days o)) →
  forget_days <$> os = forget_days <$> os' →
  len (filter P os) = len (filter P os')
  ∧ without_break_days <$> (info_of <$> filter P os)
    = without_break_days <$> (info_of <$> filter P os').
Proof.
  intros HP Heq.
  pose proof (filter_fmap_eq forget_days P P os os' HP Heq) as Hf.
  split; [by apply (len_fmap_eq forget_days)|].
  by rewrite !without_break_days_info, Hf.
Qed.

(** *** The days tallied and stored *)

Lemma counter_get_incr d d' (c : gmap Z Z) :
  counter_get (counter_incr d c) d'
  = counter_get c d' + (if decide (d = d') then 1 else 0).
Proof.
  unfold counter_get, counter_incr. case_decide as Hd.
  - subst d'. by rewrite lookup_insert_eq.
  - rewrite lookup_insert_ne by done. lia.
Qed.

Lemma counter_get_tally days d : ∀ c,
  counter_get (tally days c) d
  = counter_get c d + len (filter (λ x, x = d) days).
Proof.
  unfold tally. induction days as [|x days IH]; intros c; simpl.
  - unfold len; simpl. lia.
  - rewrite IH, counter_get_incr, len_filter_cons. lia.
Qed.

Lemma len_filter_omap {A : Type} (f : A → option Z) d (l : list A) :
  len (filter (λ x, x = d) (omap f l)) = len (filter (λ a, f a = Some d) l).
Proof.
  induction l as [|a l IH]; [done|].
  rewrite len_filter_cons, <-IH. cbn [omap list_omap].
  destruct (f a) as [x|]; simpl.
  - rewrite len_filter_cons.
    destruct (decide (x = d)), (decide (Some x = Some d)); congruence.
  - lia.
Qed.

Lemma categories_split (Q : WeekOutcome → Prop) `{!∀ o, Decision (Q o)} os :
  len (filter Q (filter onlyHigh os)) + len (filter Q (filter onlyLow os))
  + len (filter Q (filter neither os)) + len (filter Q (filter both os))
  = len (filter Q os).
Proof.
  induction os as [|o os IH]; [done|].
  rewrite (len_filter_cons Q), <-IH. rewrite !(filter_cons _ o).
  unfold onlyHigh, onlyLow, neither, both.
  repeat case_decide; rewrite ?len_filter_cons;
    repeat case_decide; destruct (highBroken o), (lowBroken o);
    simpl in *; first [lia | exfalso; tauto].
Qed.

Lemma stored_day_count (day : PartialBreaks.week_info → option Z)
    (f : WeekOutcome → option Z) d os :
  (∀ o, day (info_of o) = f o) →
  len (filter (λ w, day w = Some d)
         ((info_of <$> filter onlyHigh os) ++ (info_of <$> filter onlyLow os)
          ++ (info_of <$> filter neither os) ++ (info_of <$> filter both os)))
  = len (filter (λ x, x = d) (omap f os)).
Proof.
  intros Hday. rewrite len_filter_omap, !filter_app, !len_app, !filter_fmap.
  rewrite !len_fmap, !Z.add_assoc.
  rewrite <-(categories_split (λ o, f o = Some d) os).
  repeat f_equal; apply list_filter_iff; intros o; by rewrite Hday.
Qed.

Lemma stored_in_row_order df :
  Forall (break_days_in_row_order df)
    ((info_of <$> filter onlyHigh (outcomes df))
     ++ (info_of <$> filter onlyLow (outcomes df))
     ++ (info_of <$> filter neither (outcomes df))
     ++ (info_of <$> filter both (outcomes df))).
Proof.
  rewrite <-!fmap_app. apply Forall_fmap, Forall_forall. intros o Ho.
  assert (o ∈ outcomes df) as Hin.
  { rewrite !elem_of_app, !list_elem_of_filter in Ho. tauto. }
  destruct (outcome_in_row_order df o Hin) as (m & Hm & _ & _ & _ & Hh & Hl).
  exists m. rewrite info_key_of. done.
Qed.

Lemma tallied_is_stored df d :
  counter_get (tally (omap firstHighBreakDay (outcomes df)) ∅) d
  = high_day_count d
      ((info_of <$> filter onlyHigh (outcomes df))
       ++ (info_of <$> filter onlyLow (outcomes df))
       ++ (info_of <$> filter neither (outcomes df))
       ++ (info_of <$> filter both (outcomes df)))
  ∧ counter_get (tally (omap firstLowBreakDay (outcomes df)) ∅) d
    = low_day_count d
        ((info_of <$> filter onlyHigh (outcomes df))
         ++ (info_of <$> filter onlyLow (outcomes df))
         ++ (info_of <$> filter neither (outcomes df))
         ++ (info_of <$> filter both (outcomes df))).
Proof.
  unfold high_day_count, low_day_count.
  rewrite !counter_get_tally.
  rewrite (stored_day_count PartialBreaks.wi_High_Break_Day
             firstHighBreakDay) by done.
  rewrite (stored_day_count PartialBreaks.wi_Low_Break_Day
             firstLowBreakDay) by done.
  unfold counter_get. rewrite lookup_empty. simpl. lia.
Qed.

(** C7 (as amended).  Reordering the records of a frame in which no
    week has two different Monday records -- any permutation, hence also
    one within a week -- changes neither total_mondays, nor the counts
    monday_highs_taken, monday_lows_taken and both_broken, nor the sums of
    the two tallies, nor the category list a week is stored in, its
    position there, or its Date, Week, Year, Monday High and Monday Low.
    The break days are read in row order, in either frame: the days
    stored for a week are the weekdays of the first row of the week, in
    the row order of the frame, that breaks the high, resp. the low, of
    the week's Monday row, and the tallies count the stored days. *)
Theorem C7_reordering_keeps_counts_and_categories df df' :
  df ≡ₚ df' →
  one_monday_per_week df →
  ∃ total highs lows both_n day_high day_low day_high' day_low'
    only_high only_low neither_l both_l only_high' only_low' neither_l' both_l',
    MondayRanges.analyze_monday_ranges df
      = Ok (total, highs, lows, both_n, day_high, day_low)
    ∧ MondayRanges.analyze_monday_ranges df'
      = Ok (total, highs, lows, both_n, day_high', day_low')
    ∧ counter_total day_high' = counter_total day_high
    ∧ counter_total day_low' = counter_total day_low
    ∧ PartialBreaks.analyze_partial_breaks df
      = Ok (only_high, only_low, neither_l, both_l, total)
    ∧ PartialBreaks.analyze_partial_breaks df'
      = Ok (only_high', only_low', neither_l', both_l', total)
    ∧ without_break_days <$> only_high' = without_break_days <$> only_high
    ∧ without_break_days <$> only_low' = without_break_days <$> only_low
    ∧ without_break_days <$> neither_l' = without_break_days <$> neither_l
    ∧ without_break_days <$> both_l' = without_break_days <$> both_l
    ∧ Forall (break_days_in_row_order df)
             (only_high ++ only_low ++ neither_l ++ both_l)
    ∧ Forall (break_days_in_row_order df')
             (only_high' ++ only_low' ++ neither_l' ++ both_l')
    ∧ (∀ d,
         counter_get day_high d
         = high_day_count d (only_high ++ only_low ++ neither_l ++ both_l)
         ∧ counter_get day_low d
           = low_day_count d (only_high ++ only_low ++ neither_l ++ both_l))
    ∧ (∀ d,
         counter_get day_high' d
         = high_day_count d
             (only_high' ++ only_low' ++ neither_l' ++ both_l')
         ∧ counter_get day_low' d
           = low_day_count d
               (only_high' ++ only_low' ++ neither_l' ++ both_l')).
Proof.
  intros Hp Hone.
  pose proof (outcomes_Permutation df df' Hone Hp) as Hos.
  pose proof (len_fmap_eq forget_days _ _ Hos) as Hlen.
  destruct (category_forget (λ o, Is_true (highBroken o)) _ _
              (λ o, reflexivity _) Hos) as [Hh _].
  destruct (category_forget (λ o, Is_true (lowBroken o)) _ _
              (λ o, reflexivity _) Hos) as [Hl _].
  destruct (category_forget onlyHigh _ _ (λ o, reflexivity _) Hos)
    as [_ Hoh].
  destruct (category_forget onlyLow _ _ (λ o, reflexivity _) Hos) as [_ Hol].
  destruct (category_forget neither _ _ (λ o, reflexivity _) Hos) as [_ Hne].
  destruct (category_forget both _ _ (λ o, reflexivity _) Hos) as [Hb Hbo].
  eexists _, _, _, _, _, _, _, _, _, _, _, _, _, _, _, _.
  split; [apply analyze_monday_ranges_outcomes|].
  split; [rewrite analyze_monday_ranges_outcomes, <-Hlen, <-Hh, <-Hl, <-Hb;
          reflexivity|].
  split; [by rewrite !high_tally_total|].
  split; [by rewrite !low_tally_total|].
  split; [apply analyze_partial_breaks_outcomes|].
  split; [rewrite analyze_partial_breaks_outcomes, <-Hlen; reflexivity|].
  do 4 (split; [done|]).
  split; [apply stored_in_row_order|].
  split; [apply stored_in_row_order|].
  split; intros d; apply tallied_is_stored.
Qed.

Lemma one_monday_per_week_Forall df :
  Forall (λ r1, Forall (λ r2,
    DayOfWeek r1 = 0 → DayOfWeek r2 = 0 → week_year r1 = week_year r2 →
    r1 = r2) df) df →
  one_monday_per_week df.
Proof.
  intros Hall r1 r2 H1 H2. rewrite Forall_forall in Hall.
  specialize (Hall r1 H1). rewrite Forall_forall in Hall. by apply Hall.
Qed.

(** The two orders of [frame_two_breaks] give the same counts; the week's
    high break day is stored and tallied as Tuesday in the one and as
    Wednesday in the other, the day of the first break row in either. *)
Lemma C7_reordering_keeps_counts_and_categories_witness :
  ∃ total highs lows both_n day_high day_low day_high' day_low'
    only_high only_high',
    MondayRanges.analyze_monday_ranges frame_two_breaks
      = Ok (total, highs, lows, both_n, day_high, day_low)
    ∧ MondayRanges.analyze_monday_ranges frame_two_breaks_swapped
      = Ok (total, highs, lows, both_n, day_high', day_low')
    ∧ counter_total day_high' = counter_total day_high
    ∧ counter_total day_low' = counter_total day_low
    ∧ PartialBreaks.analyze_partial_breaks frame_two_breaks
      = Ok (only_high, [], [], [], total)
    ∧ PartialBreaks.analyze_partial_breaks frame_two_breaks_swapped
      = Ok (only_high', [], [], [], total)
    ∧ Forall (break_days_in_row_order frame_two_breaks) only_high
    ∧ Forall (break_days_in_row_order frame_two_breaks_swapped) only_high'
    ∧ PartialBreaks.wi_High_Break_Day <$> only_high = [Some 1]
    ∧ PartialBreaks.wi_High_Break_Day <$> only_high' = [Some 2]
    ∧ counter_get day_high 1 = high_day_count 1 only_high
    ∧ counter_get day_high' 2 = high_day_count 2 only_high'.
Proof.
  assert (frame_two_breaks ≡ₚ frame_two_breaks_swapped) as Hp
    by (apply perm_skip, perm_swap).
  assert (one_monday_per_week frame_two_breaks) as Hone
    by (apply one_monday_per_week_Forall; by_compute).
  destruct (C7_reordering_keeps_counts_and_categories
              frame_two_breaks frame_two_breaks_swapped Hp Hone)
    as (total & highs & lows & both_n & dh & dl & dh' & dl'
        & oh & ol & ne & bo & oh' & ol' & ne' & bo'
        & H1 & H2 & H3 & H4 & H5 & H6 & _ & _ & _ & _
        & H7 & H8 & H9 & H10).
  assert (∃ w, PartialBreaks.analyze_partial_breaks frame_two_breaks
               = Ok ([w], [], [], [], 1)
               ∧ PartialBreaks.wi_High_Break_Day w = Some 1)
    as (w & Hc & Hw) by (eexists; split; vm_compute; reflexivity).
  assert (∃ w, PartialBreaks.analyze_partial_breaks frame_two_breaks_swapped
               = Ok ([w], [], [], [], 1)
               ∧ PartialBreaks.wi_High_Break_Day w = Some 2)
    as (w' & Hc' & Hw') by (eexists; split; vm_compute; reflexivity).
  pose proof (eq_trans (eq_sym H5) Hc) as Heq.
  pose proof (eq_trans (eq_sym H6) Hc') as Heq'.
  assert (oh = [w] ∧ ol = [] ∧ ne = [] ∧ bo = []) as (-> & -> & -> & ->).
  { repeat split;
      [exact (f_equal (λ r, match r with
                            | Ok (a, _, _, _, _) => a | Raise _ => oh
                            end) Heq)
      |exact (f_equal (λ r, match r with
                            | Ok (_, a, _, _, _) => a | Raise _ => ol
                            end) Heq)
      |exact (f_equal (λ r, match r with
                            | Ok (_, _, a, _, _) => a | Raise _ => ne
                            end) Heq)
      |exact (f_equal (λ r, match r with
                            | Ok (_, _, _, a, _) => a | Raise _ => bo
                            end) Heq)]. }
  assert (oh' = [w'] ∧ ol' = [] ∧ ne' = [] ∧ bo' = [])
    as (-> & -> & -> & ->).
  { repeat split;
      [exact (f_equal (λ r, match r with
                            | Ok (a, _, _, _, _) => a | Raise _ => oh'
                            end) Heq')
      |exact (f_equal (λ r, match r with
                            | Ok (_, a, _, _, _) => a | Raise _ => ol'
                            end) Heq')
      |exact (f_equal (λ r, match r with
                            | Ok (_, _, a, _, _) => a | Raise _ => ne'
                            end) Heq')
      |exact (f_equal (λ r, match r with
                            | Ok (_, _, _, a, _) => a | Raise _ => bo'
                            end) Heq')]. }
  rewrite !app_nil_r in H7, H8, H9, H10.
  exists total, highs, lows, both_n, dh, dl, dh', dl', [w], [w'].
  do 6 (split; [assumption|]).
  split; [exact H7|]. split; [exact H8|].
  split; [by rewrite <-Hw|]. split; [by rewrite <-Hw'|].
  split; [apply H9|apply H10].
Defined.

(** C7 as stated fails: exchanging the Tuesday and the Wednesday record
    of one week, both of which break Monday's high, changes the tally
    day_high_break and the stored High Break Day from Tuesday to
    Wednesday. *)
Lemma C7_counterexample :
  frame_two_breaks_swapped ≡ₚ frame_two_breaks
  ∧ Forall (λ r, week_year r = (1, 2024)) frame_two_breaks
  ∧ MondayRanges.analyze_monday_ranges frame_two_breaks
    = Ok (1, 1, 0, 0, {[1 := 1]}, ∅)
  ∧ MondayRanges.analyze_monday_ranges frame_two_breaks_swapped
    = Ok (1, 1, 0, 0, {[2 := 1]}, ∅)
  ∧ MondayRanges.analyze_monday_ranges frame_two_breaks_swapped
    ≠ MondayRanges.analyze_monday_ranges frame_two_breaks
  ∧ PartialBreaks.analyze_partial_breaks frame_two_breaks_swapped
    ≠ PartialBreaks.analyze_partial_breaks frame_two_breaks.
Proof.
  split; [apply perm_skip, perm_swap|].
  split; [by_compute|].
  assert (MondayRanges.analyze_monday_ranges frame_two_breaks
          = Ok (1, 1, 0, 0, {[1 := 1]}, ∅)) as Hsorted
    by (vm_compute; reflexivity).
  assert (MondayRanges.analyze_monday_ranges frame_two_breaks_swapped
          = Ok (1, 1, 0, 0, {[2 := 1]}, ∅)) as Hswapped
    by (vm_compute; reflexivity).
  split; [exact Hsorted|]. split; [exact Hswapped|]. split.
  - intros Heq.
    apply (f_equal (λ r : result (Z * Z * Z * Z * gmap Z Z * gmap Z Z),
             match r with
             | Ok (_, _, _, _, day_high, _) => day_high !! 1
             | _ => None
             end)) in Heq.
    vm_compute in Heq. discriminate.
  - intros Heq.
    apply (f_equal (λ r,
             match r with
             | Ok (w :: _, _, _, _, _) => PartialBreaks.wi_High_Break_Day w
             | _ => None
             end)) in Heq.
    vm_compute in Heq. discriminate.
Qed.

(** ** The order of the weeks *)

Lemma thursday_multiple d : Calendar.thursday d = 7 * ((d + 3) `div` 7).
Proof.
  unfold Calendar.thursday, Calendar.dayofweek.
  pose proof (Z.div_mod (d + 3) 7 ltac:(lia)). lia.
Qed.

Lemma thursday_mono d1 d2 :
  d1 ≤ d2 → Calendar.thursday d1 ≤ Calendar.thursday d2.
Proof.
  intros Hle. rewrite !thursday_multiple.
  pose proof (Z.div_le_mono (d1 + 3) (d2 + 3) 7 ltac:(lia) ltac:(lia)). lia.
Qed.

(** Within one ISO year the week number grows with the date. *)
Lemma iso_week_lt_date d1 d2 :
  Calendar.iso_year d1 = Calendar.iso_year d2 →
  Calendar.iso_week d1 < Calendar.iso_week d2 →
  d1 < d2.
Proof.
  unfold Calendar.iso_week. intros -> Hlt.
  destruct (decide (d1 < d2)) as [|Hge]; [done|].
  pose proof (thursday_mono d2 d1 ltac:(lia)) as Hth.
  pose proof (Z.div_le_mono
    (Calendar.thursday d2
     - Calendar.days_from_civil (Calendar.iso_year d2) 1 1)
    (Calendar.thursday d1
     - Calendar.days_from_civil (Calendar.iso_year d2) 1 1)
    7 ltac:(lia) ltac:(lia)).
  lia.
Qed.

Lemma StronglySorted_impl_elem {A : Type} (R R' : relation A) (l : list A) :
  (∀ x y, x ∈ l → y ∈ l → R x y → R' x y) →
  StronglySorted R l → StronglySorted R' l.
Proof.
  intros Himpl Hl. induction Hl as [|x l Hl IH Hx]; constructor.
  - apply IH. intros y z Hy Hz. apply Himpl; by right.
  - rewrite Forall_forall in Hx. apply Forall_forall.
    intros y Hy. apply Himpl; [left|by right|auto].
Qed.

Lemma outcomes_in_key_order df :
  StronglySorted (λ o1 o2, key_lt (weekKey o1) (weekKey o2)) (outcomes df).
Proof.
  unfold outcomes.
  eapply StronglySorted_omap; [|apply groupby_sorted].
  intros g1 g2 o1 o2 Hlt H1 H2; simpl in *.
  by rewrite (classify_week_key _ _ H1), (classify_week_key _ _ H2).
Qed.

(** The Monday an outcome was computed from. *)
Lemma outcomes_monday df o :
  o ∈ outcomes df →
  ∃ m, m ∈ df ∧ DayOfWeek m = 0 ∧ week_year m = weekKey o
       ∧ Date m = mondayDate o.
Proof.
  intros ([k week_data] & Hgrp & Hc)%elem_of_outcomes.
  unfold classify_week in Hc; simpl in Hc.
  destruct (monday_data week_data) as [|m ms] eqn:Hm; [done|].
  injection Hc as <-. simpl.
  assert (m ∈ monday_data week_data) as [Hd Hw]%list_elem_of_filter
    by (rewrite Hm; left).
  apply (elem_of_group df k week_data m Hgrp) in Hw as [Hw Hk].
  eauto.
Qed.

Lemma category_in_key_order df (P : WeekOutcome → Prop)
    `{!∀ o, Decision (P o)} :
  StronglySorted key_lt (info_key <$> (info_of <$> filter P (outcomes df))).
Proof.
  rewrite <-list_fmap_compose.
  apply (StronglySorted_fmap _
           (λ o1 o2, key_lt (weekKey o1) (weekKey o2))).
  - intros o1 o2 Hlt. unfold compose. by rewrite !info_key_of.
  - apply StronglySorted_filter, outcomes_in_key_order.
Qed.

Lemma category_in_date_order df y (P : WeekOutcome → Prop)
    `{!∀ o, Decision (P o)} :
  weeks_from_date df →
  Forall (λ r, Year r = y) df →
  StronglySorted Z.lt
    (PartialBreaks.wi_Date <$> (info_of <$> filter P (outcomes df))).
Proof.
  intros Hweeks Hyear.
  unfold weeks_from_date in Hweeks. rewrite Forall_forall in Hweeks, Hyear.
  rewrite <-list_fmap_compose.
  apply (StronglySorted_fmap _ (λ o1 o2, mondayDate o1 < mondayDate o2));
    [by intros o1 o2 Hlt|].
  apply StronglySorted_filter.
  eapply StronglySorted_impl_elem; [|apply outcomes_in_key_order].
  intros o1 o2 (m1 & Hm1 & _ & Hk1 & <-)%outcomes_monday
               (m2 & Hm2 & _ & Hk2 & <-)%outcomes_monday.
  rewrite <-Hk1, <-Hk2. unfold key_lt, week_year; simpl.
  rewrite (Hyear m1 Hm1), (Hyear m2 Hm2).
  intros [Hlt|[_ Hlt]]; [|lia].
  destruct (Hweeks m1 Hm1) as [Hw1 Hy1], (Hweeks m2 Hm2) as [Hw2 Hy2].
  apply iso_week_lt_date; [|by rewrite <-Hw1, <-Hw2].
  rewrite <-Hy1, <-Hy2. by rewrite (Hyear m1 Hm1), (Hyear m2 Hm2).
Qed.

(** C8 (as amended).  The week groups are visited in ascending order of
    the group key (Week, Year), compared as a tuple: ISO week number
    first, ISO year second.  Each category list keeps that order.  When
    the Week and Year columns are derived from Date and all records lie in
    one ISO year, this is the ascending order of the Monday dates. *)
Theorem C8_weeks_in_week_then_year_order df :
  StronglySorted key_lt (groupby_Week_Year df).*1
  ∧ ∃ only_high only_low neither_l both_l total,
      PartialBreaks.analyze_partial_breaks df
        = Ok (only_high, only_low, neither_l, both_l, total)
      ∧ StronglySorted key_lt (info_key <$> only_high)
      ∧ StronglySorted key_lt (info_key <$> only_low)
      ∧ StronglySorted key_lt (info_key <$> neither_l)
      ∧ StronglySorted key_lt (info_key <$> both_l)
      ∧ (weeks_from_date df →
         ∀ y, Forall (λ r, Year r = y) df →
           StronglySorted Z.lt (PartialBreaks.wi_Date <$> only_high)
           ∧ StronglySorted Z.lt (PartialBreaks.wi_Date <$> only_low)
           ∧ StronglySorted Z.lt (PartialBreaks.wi_Date <$> neither_l)
           ∧ StronglySorted Z.lt (PartialBreaks.wi_Date <$> both_l)).
Proof.
  split; [rewrite groupby_keys; apply group_keys_strict|].
  eexists _, _, _, _, _. split; [apply analyze_partial_breaks_outcomes|].
  do 4 (split; [apply category_in_key_order|]).
  intros Hweeks y Hyear.
  repeat split; by apply (category_in_date_order df y).
Qed.

(** The two weeks of [frame_two_weeks] lie in ISO year 2024. *)
Lemma C8_weeks_in_week_then_year_order_witness :
  ∃ only_high only_low neither_l both_l total,
    PartialBreaks.analyze_partial_breaks frame_two_weeks
      = Ok (only_high, only_low, neither_l, both_l, total)
    ∧ StronglySorted Z.lt (PartialBreaks.wi_Date <$> only_high)
    ∧ StronglySorted Z.lt (PartialBreaks.wi_Date <$> only_low)
    ∧ StronglySorted Z.lt (PartialBreaks.wi_Date <$> neither_l)
    ∧ StronglySorted Z.lt (PartialBreaks.wi_Date <$> both_l).
Proof.
  assert (weeks_from_date frame_two_weeks) as Hweeks by by_compute.
  assert (Forall (λ r, Year r = 2024) frame_two_weeks) as Hyear by by_compute.
  destruct (C8_weeks_in_week_then_year_order frame_two_weeks)
    as (_ & oh & ol & ne & bo & total & Hrun & _ & _ & _ & _ & Hdates).
  exists oh, ol, ne, bo, total. split; [exact Hrun|].
  exact (Hdates Hweeks 2024 Hyear).
Defined.

(** C8 as stated fails: for two Mondays a year apart, given in date
    order, week 1 of 2021 is visited and listed before week 2 of 2020.
    That is neither ascending (isoYear, isoWeek) order nor the
    chronological order of the input. *)
Lemma C8_counterexample :
  sorted_by_date frame_two_years
  ∧ (groupby_Week_Year frame_two_years).*1 = [(1, 2021); (2, 2020)]
  ∧ ¬ StronglySorted year_week_lt (groupby_Week_Year frame_two_years).*1
  ∧ ∃ neither_l,
      PartialBreaks.analyze_partial_breaks frame_two_years
        = Ok ([], [], neither_l, [], 2)
      ∧ info_key <$> neither_l = [(1, 2021); (2, 2020)]
      ∧ ¬ StronglySorted year_week_lt (info_key <$> neither_l)
      ∧ ¬ StronglySorted Z.le (PartialBreaks.wi_Date <$> neither_l).
Proof.
  split; [by_compute|].
  assert ((groupby_Week_Year frame_two_years).*1 = [(1, 2021); (2, 2020)])
    as Hkeys by (vm_compute; reflexivity).
  split; [exact Hkeys|]. split; [rewrite Hkeys; by_compute|].
  eexists. split; [vm_compute; reflexivity|].
  split; [vm_compute; reflexivity|].
  split; by_compute.
Qed.

(** ** Frames without an eligible week *)

Lemma no_monday_outcomes (df : list Row) :
  (∀ r, r ∈ df → DayOfWeek r ≠ 0) → outcomes df = [].
Proof.
  intros Hno. destruct (outcomes df) as [|o os] eqn:Hos; [done|].
  assert (o ∈ outcomes df) as (m & Hm & Hd & _)%outcomes_monday
    by (rewrite Hos; left).
  by destruct (Hno m Hm).
Qed.

(** Without an eligible week the run of analyze_monday_ranges.py reports
    zero for every probability. *)
Lemma ranges_main_no_eligible_week df :
  outcomes df = [] →
  MondayRanges.analyze_monday_ranges df = Ok (0, 0, 0, 0, ∅, ∅)
  ∧ MondayRanges.main df = Ok (MondayRanges.mkReport 0%Qc 0%Qc ∅ ∅ 0%Qc).
Proof.
  intros Hos.
  assert (MondayRanges.analyze_monday_ranges df = Ok (0, 0, 0, 0, ∅, ∅))
    as Hrun by (by rewrite analyze_monday_ranges_outcomes, Hos).
  split; [exact Hrun|].
  unfold MondayRanges.main. rewrite Hrun. reflexivity.
Qed.

(** Without an eligible week the run of monday_partial_breaks.py stops
    with a division by zero. *)
Lemma partial_main_no_eligible_week df :
  outcomes df = [] →
  PartialBreaks.analyze_partial_breaks df = Ok ([], [], [], [], 0)
  ∧ PartialBreaks.main df = Raise ZeroDivisionError.
Proof.
  intros Hos.
  assert (PartialBreaks.analyze_partial_breaks df = Ok ([], [], [], [], 0))
    as Hrun by (by rewrite analyze_partial_breaks_outcomes, Hos).
  split; [exact Hrun|].
  unfold PartialBreaks.main. rewrite Hrun. reflexivity.
Qed.

(** C6.  On a frame without a Monday (and on the empty frame)
    total_mondays is 0.  The run of analyze_monday_ranges.py completes and
    reports 0 for every probability; the run of monday_partial_breaks.py
    does not complete: [create_excel_report] divides by total_mondays
    without the guard and raises ZeroDivisionError. *)
Theorem C6_no_eligible_week_runs :
  MondayRanges.analyze_monday_ranges frame_no_monday = Ok (0, 0, 0, 0, ∅, ∅)
  ∧ MondayRanges.main frame_no_monday
    = Ok (MondayRanges.mkReport 0%Qc 0%Qc ∅ ∅ 0%Qc)
  ∧ PartialBreaks.analyze_partial_breaks frame_no_monday
    = Ok ([], [], [], [], 0)
  ∧ PartialBreaks.main frame_no_monday = Raise ZeroDivisionError
  ∧ PartialBreaks.main [] = Raise ZeroDivisionError.
Proof.
  assert (outcomes frame_no_monday = []) as Hos by (vm_compute; reflexivity).
  destruct (ranges_main_no_eligible_week _ Hos) as [Hr Hrm].
  destruct (partial_main_no_eligible_week _ Hos) as [Hp Hpm].
  do 4 (split; [assumption|]). reflexivity.
Qed.

(** ** The scenarios of the specification *)

(** Scenario A: Monday 10/5, Tuesday's high 12, Wednesday's low 3: both
    levels broken, first on Tuesday and on Wednesday. *)
Example scenario_both_broken :
  PartialBreaks.analyze_partial_breaks frame_both
  = Ok ([], [], [],
        [PartialBreaks.mkWeekInfo (Calendar.days_from_civil 2024 1 1) 1 2024
           (Qc_of_Z 10) (Qc_of_Z 5) (Some 1) (Some 2)],
        1).
Proof. vm_compute. reflexivity. Qed.

(** Scenario B: all of Tuesday to Friday within [5, 10], Thursday equal to
    both ends: neither level broken. *)
Example scenario_neither_broken :
  PartialBreaks.analyze_partial_breaks frame_inside
  = Ok ([], [],
        [PartialBreaks.mkWeekInfo (Calendar.days_from_civil 2024 1 1) 1 2024
           (Qc_of_Z 10) (Qc_of_Z 5) None None],
        [], 1)
  ∧ MondayRanges.analyze_monday_ranges frame_inside = Ok (1, 0, 0, 0, ∅, ∅).
Proof. split; vm_compute; reflexivity. Qed.

(** Scenario C: the Tuesday of a week without a Monday changes nothing. *)
Example scenario_week_without_monday :
  MondayRanges.analyze_monday_ranges frame_gap
  = MondayRanges.analyze_monday_ranges frame_both
  ∧ PartialBreaks.analyze_partial_breaks frame_gap
    = PartialBreaks.analyze_partial_breaks frame_both.
Proof. split; vm_compute; reflexivity. Qed.

(** With two different Monday records in a week the record read first is
    the reference, so even the counts depend on the row order. *)
Example two_mondays_order_matters :
  frame_two_mondays_swapped ≡ₚ frame_two_mondays
  ∧ MondayRanges.analyze_monday_ranges frame_two_mondays
    = Ok (1, 1, 0, 0, {[1 := 1]}, ∅)
  ∧ MondayRanges.analyze_monday_ranges frame_two_mondays_swapped
    = Ok (1, 0, 0, 0, ∅, ∅).
Proof.
  split; [apply perm_swap|]. split; vm_compute; reflexivity.
Qed.

(** ** The calendar on known dates *)

Example calendar_known_dates :
  Calendar.days_from_civil 1970 1 1 = 0
  ∧ Calendar.dayofweek (Calendar.days_from_civil 1970 1 1) = 3
  ∧ Calendar.dayofweek (Calendar.days_from_civil 2024 1 1) = 0
  ∧ (Calendar.iso_week (Calendar.days_from_civil 2024 1 1),
     Calendar.iso_year (Calendar.days_from_civil 2024 1 1)) = (1, 2024)
  ∧ (Calendar.iso_week (Calendar.days_from_civil 2018 12 31),
     Calendar.iso_year (Calendar.days_from_civil 2018 12 31)) = (1, 2019)
  ∧ (Calendar.iso_week (Calendar.days_from_civil 2021 1 3),
     Calendar.iso_year (Calendar.days_from_civil 2021 1 3)) = (53, 2020)
  ∧ (Calendar.iso_week (Calendar.days_from_civil 2021 1 4),
     Calendar.iso_year (Calendar.days_from_civil 2021 1 4)) = (1, 2021)
  ∧ (Calendar.iso_week (Calendar.days_from_civil 2020 1 6),
     Calendar.iso_year (Calendar.days_from_civil 2020 1 6)) = (2, 2020).
Proof. repeat split; vm_compute; reflexivity. Qed.

(** [load_data] yields frames whose derived columns agree with Date. *)
Lemma load_data_columns csv :
  weekday_from_date (load_data csv) ∧ weeks_from_date (load_data csv).
Proof.
  unfold weekday_from_date, weeks_from_date, load_data.
  split; apply Forall_fmap, Forall_forall; by intros c _.
Qed.

(** * Further properties of the code *)

(** ** simple_monday_analysis.py *)

Lemma simple_loop_body st grp :
  SimpleAnalysis.loop_body st grp
  = Ok (from_option (simple_count st) st (classify_week grp)).
Proof.
  destruct grp as [[week year] week_data].
  unfold SimpleAnalysis.loop_body, classify_week, simple_count, unbroken_of.
  simpl. destruct (monday_data week_data) as [|m ms]; simpl; [done|].
  unfold first_day, neither.
  destruct (high_break_days _ _) as [|h hs], (low_break_days _ _) as [|l ls];
    done.
Qed.

Lemma simple_fold os : ∀ st,
  foldl simple_count st os
  = SimpleAnalysis.mkState
      (SimpleAnalysis.monday_highs_taken st
       + len (filter (λ o, Is_true (highBroken o)) os))
      (SimpleAnalysis.monday_lows_taken st
       + len (filter (λ o, Is_true (lowBroken o)) os))
      (SimpleAnalysis.total_mondays st + len os)
      (tally (omap firstHighBreakDay os) (SimpleAnalysis.day_high_break st))
      (tally (omap firstLowBreakDay os) (SimpleAnalysis.day_low_break st))
      (SimpleAnalysis.unbroken_weeks st
       ++ (unbroken_of <$> filter neither os)).
Proof.
  induction os as [|o os IH]; intros [h l t dh dl u]; simpl.
  - unfold len; simpl. rewrite app_nil_r. f_equal; lia.
  - rewrite IH. unfold simple_count; simpl.
    rewrite !len_filter_cons, len_cons, filter_cons.
    unfold bump, incr_opt, snoc_if.
    f_equal.
    + destruct (highBroken o); simpl; lia.
    + destruct (lowBroken o); simpl; lia.
    + lia.
    + by destruct (firstHighBreakDay o).
    + by destruct (firstLowBreakDay o).
    + case_bool_decide; rewrite ?decide_True, ?decide_False by done;
        [by rewrite <-app_assoc|done].
Qed.

Lemma simple_analyze_outcomes df :
  SimpleAnalysis.analyze_monday_ranges df
  = Ok (len (outcomes df),
        len (filter (λ o, Is_true (highBroken o)) (outcomes df)),
        len (filter (λ o, Is_true (lowBroken o)) (outcomes df)),
        tally (omap firstHighBreakDay (outcomes df)) ∅,
        tally (omap firstLowBreakDay (outcomes df)) ∅,
        unbroken_of <$> filter neither (outcomes df)).
Proof.
  unfold SimpleAnalysis.analyze_monday_ranges.
  rewrite (for_each_total _ _ simple_loop_body), foldl_classified.
  fold (outcomes df). rewrite simple_fold. done.
Qed.

(** X1.  On every frame the function [analyze_monday_ranges] of
    simple_monday_analysis.py returns the same total_mondays, break counts
    and per-day tallies as the function of the same name in
    analyze_monday_ranges.py, and the number of unbroken weeks it lists is
    total_mondays - (monday_highs_taken + monday_lows_taken - both_broken). *)
Theorem simple_analysis_agrees_with_monday_ranges df :
  ∃ total highs lows both_n day_high day_low unbroken,
    MondayRanges.analyze_monday_ranges df
      = Ok (total, highs, lows, both_n, day_high, day_low)
    ∧ SimpleAnalysis.analyze_monday_ranges df
      = Ok (total, highs, lows, day_high, day_low, unbroken)
    ∧ len unbroken = total - (highs + lows - both_n).
Proof.
  eexists _, _, _, _, _, _, _.
  split; [apply analyze_monday_ranges_outcomes|].
  split; [apply simple_analyze_outcomes|].
  rewrite len_fmap, high_count_split, low_count_split.
  pose proof (categories_exhaustive (outcomes df)). lia.
Qed.

Lemma week_of_info_of (os : list WeekOutcome) :
  week_of_info <$> (info_of <$> os) = unbroken_of <$> os.
Proof. rewrite <-list_fmap_compose. by apply list_fmap_ext. Qed.

(** X2.  The weeks simple_monday_analysis.py lists as unbroken are the
    weeks monday_partial_breaks.py puts into neither_broken: the same weeks
    in the same order with the same Date, Week, Year, Monday High and
    Monday Low; and both break-day fields of every neither_broken entry
    are None. *)
Theorem unbroken_weeks_are_neither_broken df :
  ∃ total highs lows day_high day_low unbroken
    only_high only_low neither_l both_l,
    SimpleAnalysis.analyze_monday_ranges df
      = Ok (total, highs, lows, day_high, day_low, unbroken)
    ∧ PartialBreaks.analyze_partial_breaks df
      = Ok (only_high, only_low, neither_l, both_l, total)
    ∧ unbroken = week_of_info <$> neither_l
    ∧ Forall (λ w, PartialBreaks.wi_High_Break_Day w = None
                   ∧ PartialBreaks.wi_Low_Break_Day w = None) neither_l.
Proof.
  eexists _, _, _, _, _, _, _, _, _, _.
  split; [apply simple_analyze_outcomes|].
  split; [apply analyze_partial_breaks_outcomes|].
  split; [by rewrite week_of_info_of|].
  apply Forall_fmap, Forall_forall.
  intros o [[Hh Hl] Ho]%list_elem_of_filter.
  destruct (outcomes_days df o Ho) as [HdH HdL]. simpl.
  split.
  - destruct (firstHighBreakDay o) eqn:E; [|done].
    destruct Hh. apply HdH. eauto.
  - destruct (firstLowBreakDay o) eqn:E; [|done].
    destruct Hl. apply HdL. eauto.
Qed.

Lemma day_count_sum_insert (c : gmap Z Z) d v :
  c !! d = None →
  SimpleAnalysis.day_count_sum (<[d := v]> c)
  = d * v + SimpleAnalysis.day_count_sum c.
Proof.
  intros Hd. unfold SimpleAnalysis.day_count_sum.
  change (Zsum ((λ item : Z * Z, item.1 * item.2)
                  <$> map_to_list (<[d := v]> c))
          = d * v + Zsum ((λ item : Z * Z, item.1 * item.2)
                            <$> map_to_list c)).
  by rewrite (Zsum_Permutation _ _
    (fmap_Permutation _ _ _ (map_to_list_insert c d v Hd))).
Qed.

Lemma day_count_sum_incr d (c : gmap Z Z) :
  SimpleAnalysis.day_count_sum (counter_incr d c)
  = SimpleAnalysis.day_count_sum c + d.
Proof.
  unfold counter_incr. destruct (c !! d) as [v|] eqn:Hd; simpl.
  - rewrite <-(insert_delete_id c d v Hd) at 2.
    rewrite <-insert_delete_eq.
    rewrite !day_count_sum_insert by apply lookup_delete_eq. lia.
  - rewrite day_count_sum_insert by done. lia.
Qed.

Lemma day_count_sum_tally days : ∀ c,
  SimpleAnalysis.day_count_sum (tally days c)
  = SimpleAnalysis.day_count_sum c + Zsum days.
Proof.
  unfold tally. induction days as [|d days IH]; intros c; simpl.
  - unfold Zsum; simpl. lia.
  - rewrite IH, day_count_sum_incr. unfold Zsum; simpl. lia.
Qed.

Lemma Zsum_weekdays days :
  (∀ d, d ∈ days → d ∈ [1; 2; 3; 4]) →
  len days ≤ Zsum days ≤ 4 * len days.
Proof.
  induction days as [|d days IH]; intros Hdays.
  - unfold Zsum, len; simpl. lia.
  - rewrite len_cons. unfold Zsum in *; simpl.
    pose proof (weekday_cases d (Hdays d ltac:(left))).
    pose proof (IH (λ d' Hd', Hdays d' ltac:(by right))). lia.
Qed.

Lemma Qc_div_le_mono (a b n : Z) :
  0 < n → a ≤ b → (Qc_of_Z a / Qc_of_Z n ≤ Qc_of_Z b / Qc_of_Z n)%Qc.
Proof.
  intros Hn Hab. pose proof (Qc_of_Z_nonzero n ltac:(lia)) as Hnz.
  apply (Qcmult_le_mono_pos_r _ _ (Qc_of_Z n)).
  - rewrite <-Z2Qc_inj_0. exact (proj1 (Z2Qc_inj_lt 0 n) Hn).
  - replace (Qc_of_Z a / Qc_of_Z n * Qc_of_Z n)%Qc with (Qc_of_Z a)
      by (by field).
    replace (Qc_of_Z b / Qc_of_Z n * Qc_of_Z n)%Qc with (Qc_of_Z b)
      by (by field).
    exact (proj1 (Z2Qc_inj_le a b) Hab).
Qed.

Lemma Qc_div_between (s n lo hi : Z) :
  0 < n → lo * n ≤ s ≤ hi * n →
  (Qc_of_Z lo ≤ Qc_of_Z s / Qc_of_Z n ≤ Qc_of_Z hi)%Qc.
Proof.
  intros Hn [Hlo Hhi]. pose proof (Qc_of_Z_nonzero n ltac:(lia)) as Hnz.
  replace (Qc_of_Z lo) with (Qc_of_Z (lo * n) / Qc_of_Z n)%Qc
    by (rewrite Z2Qc_inj_mul; by field).
  replace (Qc_of_Z hi) with (Qc_of_Z (hi * n) / Qc_of_Z n)%Qc
    by (rewrite Z2Qc_inj_mul; by field).
  split; by apply Qc_div_le_mono.
Qed.

Lemma high_tally_day_count df :
  len (filter (λ o, Is_true (highBroken o)) (outcomes df))
  ≤ SimpleAnalysis.day_count_sum
      (tally (omap firstHighBreakDay (outcomes df)) ∅)
  ≤ 4 * len (filter (λ o, Is_true (highBroken o)) (outcomes df)).
Proof.
  rewrite day_count_sum_tally, <-len_high_days
    by (intros o Ho; by apply (outcomes_days df)).
  pose proof (Zsum_weekdays _ (outcomes_high_days df)).
  unfold SimpleAnalysis.day_count_sum. rewrite map_to_list_empty. simpl. lia.
Qed.

Lemma low_tally_day_count df :
  len (filter (λ o, Is_true (lowBroken o)) (outcomes df))
  ≤ SimpleAnalysis.day_count_sum
      (tally (omap firstLowBreakDay (outcomes df)) ∅)
  ≤ 4 * len (filter (λ o, Is_true (lowBroken o)) (outcomes df)).
Proof.
  rewrite day_count_sum_tally, <-len_low_days
    by (intros o Ho; by apply (outcomes_days df)).
  pose proof (Zsum_weekdays _ (outcomes_low_days df)).
  unfold SimpleAnalysis.day_count_sum. rewrite map_to_list_empty. simpl. lia.
Qed.

Lemma simple_calculate_probabilities_ok total highs lows
    (day_high day_low : gmap Z Z) :
  (∀ d, d ∈ dom day_high → d ∈ [1; 2; 3; 4]) →
  (∀ d, d ∈ dom day_low → d ∈ [1; 2; 3; 4]) →
  ∃ day_high_probs day_low_probs,
    SimpleAnalysis.calculate_probabilities total highs lows day_high day_low
    = Ok (prob_of total highs, prob_of total lows,
          day_high_probs, day_low_probs).
Proof.
  intros Hh Hl.
  destruct (day_probs_ok highs day_high Hh) as (ph & Hph & _).
  destruct (day_probs_ok lows day_low Hl) as (pl & Hpl & _).
  exists ph, pl. unfold SimpleAnalysis.calculate_probabilities.
  rewrite !guarded_div, Hph, Hpl. done.
Qed.

(** X3.  The run of simple_monday_analysis.py depends on both levels
    having been broken at least once: [create_excel_report] divides by
    monday_highs_taken and by monday_lows_taken without a guard.  If one of
    the two counts is 0 the run stops with ZeroDivisionError; if both are
    positive it completes, and each average break day it reports lies
    between 1 (Tuesday) and 4 (Friday). *)
Theorem simple_report_average_break_day df :
  ∃ total highs lows day_high day_low unbroken,
    SimpleAnalysis.analyze_monday_ranges df
      = Ok (total, highs, lows, day_high, day_low, unbroken)
    ∧ 0 ≤ highs ∧ 0 ≤ lows
    ∧ (highs = 0 ∨ lows = 0 →
       SimpleAnalysis.main df = Raise ZeroDivisionError)
    ∧ (0 < highs → 0 < lows →
       ∃ rep,
         SimpleAnalysis.main df = Ok rep
         ∧ (1 ≤ SimpleAnalysis.average_high_break_day rep ≤ Qc_of_Z 4)%Qc
         ∧ (1 ≤ SimpleAnalysis.average_low_break_day rep ≤ Qc_of_Z 4)%Qc
         ∧ SimpleAnalysis.unbroken_count rep = len unbroken).
Proof.
  eexists _, _, _, _, _, _. split; [apply simple_analyze_outcomes|].
  split; [apply len_nonneg|]. split; [apply len_nonneg|].
  unfold SimpleAnalysis.main. rewrite simple_analyze_outcomes. simpl.
  destruct (simple_calculate_probabilities_ok
              (len (outcomes df))
              (len (filter (λ o, Is_true (highBroken o)) (outcomes df)))
              (len (filter (λ o, Is_true (lowBroken o)) (outcomes df)))
              _ _ (high_tally_keys df) (low_tally_keys df))
    as (ph & pl & ->). simpl.
  unfold SimpleAnalysis.create_excel_report, true_div.
  split.
  - intros [Hz|Hz].
    + by rewrite (decide_True _ _ Hz).
    + repeat (destruct (decide _); simpl); first [done | congruence].
  - intros Hh Hl. rewrite !decide_False by lia. simpl.
    eexists. split; [done|]. simpl.
    rewrite <-Z2Qc_inj_1.
    split; [|split; [|done]].
    + apply Qc_div_between; [done|]. pose proof (high_tally_day_count df). lia.
    + apply Qc_div_between; [done|]. pose proof (low_tally_day_count df). lia.
Qed.

(** On [frame_both] both levels are broken and the report is written; on
    [frame_inside] neither is and the run stops. *)
Lemma simple_report_average_break_day_witness :
  (∃ rep,
     SimpleAnalysis.main frame_both = Ok rep
     ∧ (1 ≤ SimpleAnalysis.average_high_break_day rep ≤ Qc_of_Z 4)%Qc
     ∧ (1 ≤ SimpleAnalysis.average_low_break_day rep ≤ Qc_of_Z 4)%Qc)
  ∧ SimpleAnalysis.main frame_inside = Raise ZeroDivisionError.
Proof.
  split.
  - destruct (simple_report_average_break_day frame_both)
      as (total & highs & lows & dh & dl & u & Hrun & _ & _ & _ & Hok).
    assert (SimpleAnalysis.analyze_monday_ranges frame_both
            = Ok (1, 1, 1, {[1 := 1]}, {[2 := 1]}, [])) as Hc
      by (vm_compute; reflexivity).
    pose proof (eq_trans (eq_sym Hrun) Hc) as Heq.
    apply (f_equal (λ r : result (Z * Z * Z * gmap Z Z * gmap Z Z
                                  * list SimpleAnalysis.unbroken_week),
             match r with
             | Ok (_, h, l, _, _, _) => (h, l)
             | Raise _ => (0, 0)
             end)) in Heq.
    simpl in Heq. injection Heq as -> ->.
    destruct (Hok ltac:(lia) ltac:(lia)) as (rep & Hrep & Hh & Hl & _).
    eauto.
  - destruct (simple_report_average_break_day frame_inside)
      as (total & highs & lows & dh & dl & u & Hrun & _ & _ & Hfail & _).
    assert (SimpleAnalysis.analyze_monday_ranges frame_inside
            = Ok (1, 0, 0, ∅, ∅,
                  [SimpleAnalysis.mkUnbroken
                     (Calendar.days_from_civil 2024 1 1) 1 2024
                     (Qc_of_Z 10) (Qc_of_Z 5)])) as Hc
      by (vm_compute; reflexivity).
    pose proof (eq_trans (eq_sym Hrun) Hc) as Heq.
    apply (f_equal (λ r : result (Z * Z * Z * gmap Z Z * gmap Z Z
                                  * list SimpleAnalysis.unbroken_week),
             match r with
             | Ok (_, h, _, _, _, _) => h
             | Raise _ => 0
             end)) in Heq.
    simpl in Heq. subst highs.
    apply Hfail. by left.
Defined.

(** ** process_candles.py *)

Lemma drop_duplicates_acc {A : Type} `{!EqDecision A} (l : list A) : ∀ acc,
  NoDup acc →
  NoDup (foldl (λ acc x, if decide (x ∈ acc) then acc else acc ++ [x]) acc l)
  ∧ ∀ x, x ∈ foldl (λ acc x, if decide (x ∈ acc) then acc else acc ++ [x])
                   acc l
         ↔ x ∈ acc ∨ x ∈ l.
Proof.
  induction l as [|y l IH]; intros acc Hnd; simpl.
  { split; [done|]. intros x. rewrite elem_of_nil. tauto. }
  case_decide as Hy.
  - destruct (IH acc Hnd) as [Hnd' Hel]. split; [done|].
    intros x. rewrite Hel, elem_of_cons.
    split; [tauto|]. intros [?|[->|?]]; tauto.
  - destruct (IH (acc ++ [y])) as [Hnd' Hel].
    { apply NoDup_app. split; [done|]. split; [|apply NoDup_singleton].
      intros x Hx ->%list_elem_of_singleton. done. }
    split; [done|].
    intros x. rewrite Hel, elem_of_app, list_elem_of_singleton, elem_of_cons.
    tauto.
Qed.

Lemma NoDup_drop_duplicates {A : Type} `{!EqDecision A} (l : list A) :
  NoDup (ProcessCandles.drop_duplicates l).
Proof. apply drop_duplicates_acc, NoDup_nil_2. Qed.

Lemma elem_of_drop_duplicates {A : Type} `{!EqDecision A} (l : list A) x :
  x ∈ ProcessCandles.drop_duplicates l ↔ x ∈ l.
Proof.
  unfold ProcessCandles.drop_duplicates.
  destruct (drop_duplicates_acc l [] (NoDup_nil_2)) as [_ Hel].
  rewrite Hel, elem_of_nil. tauto.
Qed.

(** Joining with a duplicate-free key list selects rows, once each. *)
Lemma merge_unique_keys left (right : list WeekKey) :
  NoDup right →
  ProcessCandles.merge_on_Week_Year left right
  = filter (λ r, week_year r ∈ right) left.
Proof.
  intros Hnd. unfold ProcessCandles.merge_on_Week_Year.
  induction left as [|r left IH]; [done|].
  rewrite filter_cons. cbn [mbind list_bind]. rewrite IH.
  case_decide as Hr.
  - rewrite (filter_unique_key id right (week_year r));
      [done|by rewrite list_fmap_id|done].
  - rewrite filter_none; [done|]. intros k Hk ->. done.
Qed.

Lemma drop_add_columns c :
  ProcessCandles.drop_helper_columns (add_columns c) = c.
Proof. by destruct c. Qed.

(** The weeks [process_candles] keeps, in terms of the candles. *)
Lemma monday_week_keys (cs : list Candle) c :
  week_year (add_columns c)
    ∈ ProcessCandles.drop_duplicates
        (week_year <$> filter (λ r, DayOfWeek r = 0) (add_columns <$> cs))
  ↔ in_monday_week cs c.
Proof.
  rewrite elem_of_drop_duplicates, list_elem_of_fmap.
  unfold in_monday_week. rewrite Exists_exists.
  setoid_rewrite list_elem_of_filter. setoid_rewrite list_elem_of_fmap.
  split.
  - intros (r & Hk & Hd & m & -> & Hm). exists m.
    injection Hk as Hw Hy. simpl in *. auto.
  - intros (m & Hm & Hd & Hw & Hy). exists (add_columns m).
    unfold week_year; simpl. rewrite Hw, Hy. eauto.
Qed.

Lemma process_candles_no_date sort_values_Date raw :
  ProcessCandles.dropna_Date raw = [] →
  ProcessCandles.process_candles sort_values_Date raw = Raise AttributeError.
Proof. unfold ProcessCandles.process_candles. by intros ->. Qed.

Lemma process_candles_filtered sort_values_Date raw :
  ProcessCandles.dropna_Date raw ≠ [] →
  ProcessCandles.process_candles sort_values_Date raw
  = Ok (ProcessCandles.drop_helper_columns
          <$> sort_values_Date
                (add_columns
                   <$> filter (in_monday_week (ProcessCandles.dropna_Date raw))
                              (ProcessCandles.dropna_Date raw))).
Proof.
  intros Hne. unfold ProcessCandles.process_candles.
  assert (ProcessCandles.dt (ProcessCandles.dropna_Date raw)
          = Ok (ProcessCandles.dropna_Date raw)) as ->
    by (by destruct (ProcessCandles.dropna_Date raw)).
  cbn [mbind result_bind].
  rewrite merge_unique_keys by apply NoDup_drop_duplicates.
  do 3 f_equal. rewrite filter_fmap. f_equal.
  apply list_filter_iff. intros c. apply monday_week_keys.
Qed.

Lemma process_candles_Ok sort_values_Date raw written :
  ProcessCandles.process_candles sort_values_Date raw = Ok written →
  ProcessCandles.dropna_Date raw ≠ []
  ∧ written
    = ProcessCandles.drop_helper_columns
        <$> sort_values_Date
              (add_columns
                 <$> filter (in_monday_week (ProcessCandles.dropna_Date raw))
                            (ProcessCandles.dropna_Date raw)).
Proof.
  intros Hrun.
  destruct (decide (ProcessCandles.dropna_Date raw = [])) as [He|Hne].
  - by rewrite process_candles_no_date in Hrun.
  - rewrite process_candles_filtered in Hrun by done.
    by injection Hrun as <-.
Qed.

Lemma in_monday_week_monday (cs : list Candle) c :
  in_monday_week cs c →
  ∃ m, m ∈ cs ∧ Calendar.dayofweek (candle_date m) = 0
       ∧ week_year (add_columns m) = week_year (add_columns c)
       ∧ in_monday_week cs m.
Proof.
  unfold in_monday_week. rewrite Exists_exists.
  intros (m & Hm & Hd & Hw & Hy). exists m.
  split; [done|]. split; [done|]. split.
  - unfold week_year; simpl. by rewrite Hw, Hy.
  - apply Exists_exists. eauto.
Qed.

Lemma in_monday_week_subset (cs cs' : list Candle) c :
  (∀ m, m ∈ cs → in_monday_week cs m → m ∈ cs') →
  in_monday_week cs c → in_monday_week cs' c.
Proof.
  intros Hsub Hc.
  destruct (in_monday_week_monday cs c Hc) as (m & Hm & Hd & Hk & Hmm).
  apply Exists_exists. exists m. split; [by apply Hsub|].
  injection Hk as Hw Hy. auto.
Qed.

Lemma omap_all_Some {A B : Type} (f : A → option B) (l : list A) :
  (∀ x, x ∈ l → is_Some (f x)) → length (omap f l) = length l.
Proof.
  induction l as [|x l IH]; intros Hall; [done|].
  cbn [omap list_omap].
  destruct (Hall x ltac:(left)) as [y ->]. simpl.
  f_equal. apply IH. intros; apply Hall. by right.
Qed.

(** In a frame where every week has a Monday row every group is
    eligible. *)
Lemma outcomes_all_eligible (df : list Row) :
  (∀ r, r ∈ df → ∃ m, m ∈ df ∧ DayOfWeek m = 0 ∧ week_year m = week_year r) →
  len (outcomes df) = len (group_keys df).
Proof.
  intros Hmon. unfold len, outcomes. f_equal.
  rewrite omap_all_Some.
  { unfold groupby_Week_Year. by rewrite length_fmap. }
  intros [k week_data] Hgrp.
  pose proof Hgrp as [(r & Hr & Hk)%elem_of_group_keys ->]%elem_of_groupby.
  destruct (Hmon r Hr) as (m & Hm & Hd & Hkm).
  unfold classify_week; simpl.
  destruct (monday_data _) as [|m' ms] eqn:Hmd; [|eauto].
  assert (m ∈ monday_data (filter (λ r, week_year r = k) df)) as Hin.
  { unfold monday_data. rewrite !list_elem_of_filter. split; [done|].
    split; [congruence|done]. }
  rewrite Hmd in Hin. by apply elem_of_nil in Hin.
Qed.

Lemma len_group_keys (df : list Row) :
  len (group_keys df) = len (remove_dups (week_year <$> df)).
Proof. unfold len, group_keys. by rewrite merge_sort_Permutation. Qed.

Lemma load_data_add_columns (rows : list Row) :
  Forall (λ r, ∃ c, r = add_columns c) rows →
  load_data (ProcessCandles.drop_helper_columns <$> rows) = rows.
Proof.
  unfold load_data. induction 1 as [|r rows [c ->] _ IH]; [done|].
  rewrite !fmap_cons, IH. by rewrite drop_add_columns.
Qed.

Lemma filter_all {A : Type} (P : A → Prop) `{!∀ x, Decision (P x)}
    (l : list A) :
  Forall P l → filter P l = l.
Proof.
  induction 1 as [|x l Hx Hl IH]; [done|].
  by rewrite filter_cons_True, IH.
Qed.

Section process_candles.
Context (sort_values_Date : list Row → list Row).
Context (sort_values_Permutation : ∀ df, sort_values_Date df ≡ₚ df).

Lemma processed_filter raw written :
  ProcessCandles.process_candles sort_values_Date raw = Ok written →
  written ≡ₚ filter (in_monday_week (ProcessCandles.dropna_Date raw))
                    (ProcessCandles.dropna_Date raw).
Proof.
  intros [_ ->]%process_candles_Ok.
  rewrite sort_values_Permutation, <-list_fmap_compose.
  rewrite (list_fmap_ext _ id _ (λ _ c _, drop_add_columns c)).
  by rewrite list_fmap_id.
Qed.

(** Every week of the written file has its Monday in the written file. *)
Lemma processed_weeks_have_monday raw written :
  ProcessCandles.process_candles sort_values_Date raw = Ok written →
  Forall (in_monday_week written) written.
Proof.
  intros Hperm%processed_filter.
  apply Forall_forall. intros c Hc.
  pose proof Hc as Hc'. rewrite Hperm in Hc'.
  apply list_elem_of_filter in Hc' as [Hmw _].
  apply (in_monday_week_subset _ _ _ (λ m Hm Hmm,
    proj2 (elem_of_Permutation_proper m _ _ Hperm)
          (proj2 (list_elem_of_filter _ _ m) (conj Hmm Hm)))).
  done.
Qed.

Lemma load_processed raw written :
  ProcessCandles.process_candles sort_values_Date raw = Ok written →
  load_data written
  = sort_values_Date
      (add_columns
         <$> filter (in_monday_week (ProcessCandles.dropna_Date raw))
                    (ProcessCandles.dropna_Date raw)).
Proof.
  intros [_ ->]%process_candles_Ok. apply load_data_add_columns.
  apply Forall_forall. intros r Hr.
  rewrite sort_values_Permutation in Hr.
  apply list_elem_of_fmap in Hr as (c & -> & _). eauto.
Qed.


End process_candles.


Section process_candles_sorted.
Context (sort_values_Date : list Row → list Row).
Context (sort_values_Permutation : ∀ df, sort_values_Date df ≡ₚ df).
Context (sort_values_sorted : ∀ df, sorted_by_date (sort_values_Date df)).

(** X5.  When at least one date was parsed, the file [process_candles]
    writes is ready for the analysis: loaded by [load_data] it is in
    ascending date order with the derived columns consistent with Date,
    every week in it has its Monday row, and therefore no week of the file
    is skipped: total_mondays is the number of different ISO weeks
    (week, year) among the dates of the file.  (For any sorting routine
    that returns its input permuted into ascending date order.) *)
Theorem processed_file_has_only_eligible_weeks raw :
  ProcessCandles.dropna_Date raw ≠ [] →
  ∃ written,
    ProcessCandles.process_candles sort_values_Date raw = Ok written
    ∧ sorted_by_date (load_data written)
    ∧ weekday_from_date (load_data written)
    ∧ weeks_from_date (load_data written)
    ∧ Forall (in_monday_week written) written
    ∧ ∃ only_high only_low neither_l both_l total,
        PartialBreaks.analyze_partial_breaks (load_data written)
          = Ok (only_high, only_low, neither_l, both_l, total)
        ∧ total = len (remove_dups (iso_week_of <$> written)).
Proof.
  intros Hne.
  pose proof (process_candles_filtered sort_values_Date raw Hne) as Hrun.
  eexists. split; [exact Hrun|].
  pose proof (processed_weeks_have_monday
                sort_values_Date sort_values_Permutation raw _ Hrun)
    as Hweeks.
  split.
  { rewrite (load_processed sort_values_Date sort_values_Permutation raw _
               Hrun).
    apply sort_values_sorted. }
  split; [apply load_data_columns|]. split; [apply load_data_columns|].
  split; [done|].
  eexists _, _, _, _, _. split; [apply analyze_partial_breaks_outcomes|].
  rewrite outcomes_all_eligible.
  { rewrite len_group_keys. unfold load_data.
    by rewrite <-list_fmap_compose. }
  intros r (c & -> & Hc)%list_elem_of_fmap.
  rewrite Forall_forall in Hweeks.
  destruct (in_monday_week_monday _ _ (Hweeks c Hc)) as (m & Hm & Hd & Hk & _).
  exists (add_columns m). split; [by apply list_elem_of_fmap_2|]. done.
Qed.

End process_candles_sorted.

Lemma sort_by_Date_Permutation df : ProcessCandles.sort_by_Date df ≡ₚ df.
Proof. apply merge_sort_Permutation. Qed.

Global Instance date_le_trans : Transitive ProcessCandles.date_le.
Proof. intros a b c. unfold ProcessCandles.date_le. lia. Qed.

Global Instance date_le_total : Total ProcessCandles.date_le.
Proof. intros a b. unfold ProcessCandles.date_le. lia. Qed.

Lemma sort_by_Date_sorted df : sorted_by_date (ProcessCandles.sort_by_Date df).
Proof. apply (StronglySorted_merge_sort ProcessCandles.date_le). Qed.

(** The file written for [raw_sample] holds one ISO week, which is
    analysed. *)
Lemma processed_file_has_only_eligible_weeks_witness :
  ∃ written,
    ProcessCandles.process_candles ProcessCandles.sort_by_Date raw_sample
    = Ok written
    ∧ sorted_by_date (load_data written)
    ∧ Forall (in_monday_week written) written
    ∧ ∃ only_high only_low neither_l both_l total,
        PartialBreaks.analyze_partial_breaks (load_data written)
          = Ok (only_high, only_low, neither_l, both_l, total)
        ∧ total = len (remove_dups (iso_week_of <$> written)).
Proof.
  destruct (processed_file_has_only_eligible_weeks
              ProcessCandles.sort_by_Date sort_by_Date_Permutation
              sort_by_Date_sorted raw_sample)
    as (written & Hrun & Hsorted & _ & _ & Hweeks & Hrest); [by_compute|].
  exists written. auto.
Defined.

(** Dropping the rows of weeks without a Monday leaves the outcomes
    unchanged. *)
Lemma outcomes_filter_weeks (df : list Row) (Q : WeekKey → Prop)
    `{!∀ k, Decision (Q k)} :
  (∀ m, m ∈ df → DayOfWeek m = 0 → Q (week_year m)) →
  outcomes (filter (λ r, Q (week_year r)) df) = outcomes df.
Proof.
  intros HQ. unfold outcomes, groupby_Week_Year.
  assert (group_keys (filter (λ r, Q (week_year r)) df)
          = filter Q (group_keys df)) as ->.
  { symmetry. apply group_keys_unique.
    - apply StronglySorted_filter, group_keys_sorted.
    - apply NoDup_filter, NoDup_group_keys.
    - intros k. rewrite list_elem_of_filter, elem_of_group_keys.
      setoid_rewrite list_elem_of_filter. split.
      + intros (Hk & r & Hr & <-). eauto.
      + intros (r & [Hk Hr] & <-). eauto. }
  symmetry. apply omap_fmap_filter.
  - intros k _ Hk. f_equal. rewrite list_filter_filter.
    apply list_filter_iff. intros r. split; [|tauto]. by intros <-.
  - intros k _ Hnk. apply classify_week_None, monday_data_none.
    intros r [Hk Hr]%list_elem_of_filter Hd.
    apply Hnk. rewrite <-Hk. by apply HQ.
Qed.

Lemma strictly_sorted_key_inj {A : Type} (f : A → Z) (l : list A) x y :
  StronglySorted (λ a b, f a < f b) l → x ∈ l → y ∈ l → f x = f y → x = y.
Proof.
  induction 1 as [|z l Hl IH Hz]; intros Hx Hy Hxy;
    [by apply elem_of_nil in Hx|].
  rewrite Forall_forall in Hz.
  apply elem_of_cons in Hx as [->|Hx], Hy as [->|Hy]; auto.
  - pose proof (Hz y Hy). lia.
  - pose proof (Hz x Hx). lia.
Qed.

Section process_candles_transparent.
Context (sort_values_Date : list Row → list Row).
Context (sort_values_Permutation : ∀ df, sort_values_Date df ≡ₚ df).
Context (sort_values_sorted : ∀ df, sorted_by_date (sort_values_Date df)).

Lemma sort_values_strictly_sorted rows :
  StronglySorted (λ a b, Date a < Date b) rows → sort_values_Date rows = rows.
Proof.
  intros Hstrict.
  apply (StronglySorted_unique_strong (λ a b, Date a ≤ Date b)).
  - intros x1 x2 H1 H2 Hle1 Hle2. rewrite sort_values_Permutation in H1.
    apply (strictly_sorted_key_inj Date rows); [done..|lia].
  - apply sort_values_sorted.
  - apply (StronglySorted_impl_elem (λ a b, Date a < Date b));
      [|exact Hstrict].
    intros x y _ _ Hlt. simpl in *. lia.
  - apply sort_values_Permutation.
Qed.

Lemma load_processed_strict raw written :
  ProcessCandles.process_candles sort_values_Date raw = Ok written →
  strictly_by_date (ProcessCandles.dropna_Date raw) →
  outcomes (load_data written)
  = outcomes (load_data (ProcessCandles.dropna_Date raw)).
Proof.
  intros Hrun Hstrict.
  rewrite (load_processed sort_values_Date sort_values_Permutation raw _
             Hrun).
  rewrite sort_values_strictly_sorted.
  2:{ apply (StronglySorted_fmap _ (λ a b, candle_date a < candle_date b));
        [by intros a b Hab|].
      by apply StronglySorted_filter. }
  set (cs := ProcessCandles.dropna_Date raw).
  assert (add_columns <$> filter (in_monday_week cs) cs
          = filter (λ r, has_monday (load_data cs) (week_year r))
                   (load_data cs)) as ->.
  { unfold load_data. rewrite filter_fmap. f_equal.
    apply list_filter_iff. intros c.
    unfold in_monday_week, has_monday. rewrite !Exists_exists. split.
    - intros (m & Hm & Hd & Hw & Hy). exists (add_columns m).
      split; [by apply list_elem_of_fmap_2|]. split; [done|].
      unfold week_year; simpl. by rewrite Hw, Hy.
    - intros (r & (m & -> & Hm)%list_elem_of_fmap & Hd & Hk).
      injection Hk as Hw Hy. exists m. auto. }
  apply (outcomes_filter_weeks (load_data cs) (has_monday (load_data cs))).
  intros m Hm Hd. apply Exists_exists. eauto.
Qed.

(** X7.  Filtering is transparent to the analysis: when at least one date
    was parsed and the rows with a parsed date come in strictly ascending
    date order, [process_candles] writes a file for which each of the
    three analysis functions returns exactly what it returns for the
    unfiltered rows. *)
Theorem filtering_does_not_change_the_analysis raw :
  ProcessCandles.dropna_Date raw ≠ [] →
  strictly_by_date (ProcessCandles.dropna_Date raw) →
  ∃ written,
    ProcessCandles.process_candles sort_values_Date raw = Ok written
    ∧ MondayRanges.analyze_monday_ranges (load_data written)
      = MondayRanges.analyze_monday_ranges
          (load_data (ProcessCandles.dropna_Date raw))
    ∧ PartialBreaks.analyze_partial_breaks (load_data written)
      = PartialBreaks.analyze_partial_breaks
          (load_data (ProcessCandles.dropna_Date raw))
    ∧ SimpleAnalysis.analyze_monday_ranges (load_data written)
      = SimpleAnalysis.analyze_monday_ranges
          (load_data (ProcessCandles.dropna_Date raw)).
Proof.
  intros Hne Hstrict.
  pose proof (process_candles_filtered sort_values_Date raw Hne) as Hrun.
  eexists. split; [exact Hrun|].
  pose proof (load_processed_strict raw _ Hrun Hstrict) as Hout.
  rewrite !analyze_monday_ranges_outcomes, !analyze_partial_breaks_outcomes,
    !simple_analyze_outcomes, Hout.
  done.
Qed.

End process_candles_transparent.

(** The candles of [raw_sorted] analysed with and without the filter: the
    Tuesday of the week without a Monday is dropped from the file and
    counts in neither analysis. *)
Lemma filtering_does_not_change_the_analysis_witness :
  ∃ written,
    ProcessCandles.process_candles ProcessCandles.sort_by_Date raw_sorted
    = Ok written
    ∧ MondayRanges.analyze_monday_ranges (load_data written)
      = MondayRanges.analyze_monday_ranges
          (load_data (ProcessCandles.dropna_Date raw_sorted))
    ∧ PartialBreaks.analyze_partial_breaks (load_data written)
      = PartialBreaks.analyze_partial_breaks
          (load_data (ProcessCandles.dropna_Date raw_sorted))
    ∧ SimpleAnalysis.analyze_monday_ranges (load_data written)
      = SimpleAnalysis.analyze_monday_ranges
          (load_data (ProcessCandles.dropna_Date raw_sorted)).
Proof.
  apply (filtering_does_not_change_the_analysis
           ProcessCandles.sort_by_Date sort_by_Date_Permutation
           sort_by_Date_sorted raw_sorted); by_compute.
Defined.

(** ** The reported probabilities *)

Lemma counter_incr_pos d (c : gmap Z Z) :
  map_Forall (λ _ v, 1 ≤ v) c → map_Forall (λ _ v, 1 ≤ v) (counter_incr d c).
Proof.
  intros Hc. unfold counter_incr. apply map_Forall_insert_2; [|done].
  destruct (c !! d) as [v|] eqn:Hd; simpl; [|lia].
  pose proof (Hc d v Hd). simpl in *. lia.
Qed.

Lemma tally_pos days : ∀ c,
  map_Forall (λ _ v, 1 ≤ v) c → map_Forall (λ _ v, 1 ≤ v) (tally days c).
Proof.
  unfold tally. induction days as [|d days IH]; intros c Hc; simpl; [done|].
  by apply IH, counter_incr_pos.
Qed.

Lemma counter_total_nonneg (c : gmap Z Z) :
  map_Forall (λ _ v, 0 ≤ v) c → 0 ≤ counter_total c.
Proof.
  intros Hc. unfold counter_total.
  assert (Forall (λ v, 0 ≤ v) (map_to_list c).*2) as Hall.
  { apply Forall_fmap, Forall_forall. intros [d v] Hdv%elem_of_map_to_list.
    exact (Hc d v Hdv). }
  induction Hall as [|v vs Hv _ IH]; unfold Zsum in *; simpl; lia.
Qed.

Lemma counter_value_le_total (c : gmap Z Z) d v :
  map_Forall (λ _ v, 0 ≤ v) c → c !! d = Some v → v ≤ counter_total c.
Proof.
  intros Hc Hd. rewrite <-(insert_delete_id c d v Hd).
  rewrite counter_total_insert by apply lookup_delete_eq.
  assert (0 ≤ counter_total (delete d c)); [|lia].
  apply counter_total_nonneg. intros d' v' Hd'.
  apply lookup_delete_Some in Hd' as [_ Hd']. exact (Hc d' v' Hd').
Qed.

Lemma prob_of_range taken count :
  0 ≤ count ≤ taken → (0 ≤ prob_of taken count ≤ 1)%Qc.
Proof.
  intros Hc. unfold prob_of. case_decide; [|done].
  rewrite <-Z2Qc_inj_0, <-Z2Qc_inj_1. apply Qc_div_between; lia.
Qed.

Lemma store_prob_entries (taken : Z) (items : list (Z * Z)) k p : ∀ acc,
  foldl (store_prob taken) acc items !! k = Some p →
  acc !! k = Some p ∨ ∃ it, it ∈ items ∧ p = prob_of taken it.2.
Proof.
  induction items as [|it items IH]; intros acc Hk; simpl in *; [by left|].
  apply IH in Hk as [Hk|(it' & Hit' & ->)].
  - unfold store_prob in Hk. apply lookup_insert_Some in Hk as [[_ <-]|[_ Hk]].
    + right. exists it. split; [left|done].
    + by left.
  - right. exists it'. split; [by right|done].
Qed.

Lemma day_probs_range taken (counter : gmap Z Z) probs :
  MondayRanges.day_probs taken counter = Ok probs →
  (∀ d, d ∈ dom counter → d ∈ [1; 2; 3; 4]) →
  map_Forall (λ _ v, 1 ≤ v) counter →
  counter_total counter = taken →
  map_Forall (λ _ p, (0 ≤ p ≤ 1)%Qc) probs.
Proof.
  intros Hrun Hdom Hpos Htotal name p Hp.
  unfold MondayRanges.day_probs in Hrun. rewrite day_probs_loop in Hrun.
  2:{ apply Forall_forall. intros [d c] Hdc%elem_of_map_to_list.
      apply Hdom, elem_of_dom. eauto. }
  injection Hrun as <-.
  apply store_prob_entries in Hp as [Hp|([d c] & Hdc%elem_of_map_to_list & ->)].
  { by rewrite lookup_empty in Hp. }
  apply prob_of_range. simpl. split.
  - pose proof (Hpos d c Hdc). simpl in *. lia.
  - rewrite <-Htotal. apply (counter_value_le_total counter d); [|done].
    intros d' c' Hd'. pose proof (Hpos d' c' Hd'). simpl in *. lia.
Qed.

Lemma filter_len_le {A : Type} (P : A → Prop) `{!∀ x, Decision (P x)}
    (l : list A) :
  0 ≤ len (filter P l) ≤ len l.
Proof. unfold len. pose proof (length_filter P l). lia. Qed.

(** X8.  The run of analyze_monday_ranges.py on a loaded frame never
    raises (no IndexError, KeyError or ZeroDivisionError), and every
    probability it reports -- the two break probabilities, the either-break
    probability and each day-conditional probability -- lies between 0 and
    1. *)
Theorem monday_ranges_run_reports_probabilities df :
  ∃ rep,
    MondayRanges.main df = Ok rep
    ∧ (0 ≤ MondayRanges.high_break_prob rep ≤ 1)%Qc
    ∧ (0 ≤ MondayRanges.low_break_prob rep ≤ 1)%Qc
    ∧ (0 ≤ MondayRanges.either_prob rep ≤ 1)%Qc
    ∧ map_Forall (λ _ p, (0 ≤ p ≤ 1)%Qc) (MondayRanges.day_high_probs rep)
    ∧ map_Forall (λ _ p, (0 ≤ p ≤ 1)%Qc) (MondayRanges.day_low_probs rep).
Proof.
  unfold MondayRanges.main. rewrite analyze_monday_ranges_outcomes. simpl.
  destruct (calculate_probabilities_ok
              (len (outcomes df))
              (len (filter (λ o, Is_true (highBroken o)) (outcomes df)))
              (len (filter (λ o, Is_true (lowBroken o)) (outcomes df)))
              (len (filter both (outcomes df)))
              _ _ (high_tally_keys df) (low_tally_keys df))
    as (ph & pl & -> & Hph & Hpl). simpl.
  unfold MondayRanges.either_break_prob. rewrite guarded_div. simpl.
  eexists. split; [done|]. simpl.
  pose proof (categories_exhaustive (outcomes df)) as Hex.
  pose proof (high_count_split (outcomes df)) as Hh.
  pose proof (low_count_split (outcomes df)) as Hl.
  pose proof (filter_len_le onlyHigh (outcomes df)).
  pose proof (filter_len_le onlyLow (outcomes df)).
  pose proof (filter_len_le neither (outcomes df)).
  pose proof (filter_len_le both (outcomes df)).
  split; [apply prob_of_range; lia|].
  split; [apply prob_of_range; lia|].
  split; [apply prob_of_range; lia|].
  split.
  - apply (day_probs_range _ _ _ Hph (high_tally_keys df)).
    + by apply tally_pos.
    + apply high_tally_total.
  - apply (day_probs_range _ _ _ Hpl (low_tally_keys df)).
    + by apply tally_pos.
    + apply low_tally_total.
Qed.

(** ** monday_partial_breaks.py: the worksheet *)

Lemma lookup_set_value_ne (ws : Report.worksheet) rc rc' v :
  rc ≠ rc' → Report.set_value ws rc v !! rc' = ws !! rc'.
Proof. intros Hne. unfold Report.set_value. by apply lookup_insert_ne. Qed.

Lemma lookup_set_font_ne (ws : Report.worksheet) rc rc' f :
  rc ≠ rc' → Report.set_font ws rc f !! rc' = ws !! rc'.
Proof. intros Hne. unfold Report.set_font. by apply lookup_insert_ne. Qed.

Lemma lookup_set_fill_ne (ws : Report.worksheet) rc rc' f :
  rc ≠ rc' → Report.set_fill ws rc f !! rc' = ws !! rc'.
Proof. intros Hne. unfold Report.set_fill. by apply lookup_insert_ne. Qed.

Lemma value_at_ext (ws ws' : Report.worksheet) rc :
  ws' !! rc = ws !! rc → value_at ws' rc = value_at ws rc.
Proof. unfold value_at, Report.get. by intros ->. Qed.

Lemma value_at_set_value (ws : Report.worksheet) rc v :
  value_at (Report.set_value ws rc v) rc = Some v.
Proof.
  unfold value_at, Report.get, Report.set_value. by rewrite lookup_insert_eq.
Qed.

Lemma value_at_set_value_ne (ws : Report.worksheet) rc rc' v :
  rc ≠ rc' → value_at (Report.set_value ws rc v) rc' = value_at ws rc'.
Proof. intros Hne. by apply value_at_ext, lookup_set_value_ne. Qed.

Lemma value_at_set_font (ws : Report.worksheet) rc rc' f :
  value_at (Report.set_font ws rc f) rc' = value_at ws rc'.
Proof.
  destruct (decide (rc = rc')) as [<-|Hne].
  - unfold value_at, Report.get at 1, Report.set_font.
    by rewrite lookup_insert_eq.
  - by apply value_at_ext, lookup_set_font_ne.
Qed.

Lemma value_at_set_fill (ws : Report.worksheet) rc rc' f :
  value_at (Report.set_fill ws rc f) rc' = value_at ws rc'.
Proof.
  destruct (decide (rc = rc')) as [<-|Hne].
  - unfold value_at, Report.get at 1, Report.set_fill.
    by rewrite lookup_insert_eq.
  - by apply value_at_ext, lookup_set_fill_ne.
Qed.

Lemma row_values_ext (ws ws' : Report.worksheet) row :
  (∀ col, ws' !! (row, col) = ws !! (row, col)) →
  row_values ws' row = row_values ws row.
Proof.
  intros Hext. unfold row_values. apply list_fmap_ext.
  intros _ col _. apply value_at_ext, Hext.
Qed.

(** Rewriting the value at a position after a sequence of assignments. *)
Ltac value_at_simpl :=
  repeat first
    [ rewrite value_at_set_value
    | rewrite value_at_set_font
    | rewrite value_at_set_fill
    | rewrite value_at_set_value_ne by (intros [= ?]; lia) ].

Ltac lookup_simpl :=
  repeat first
    [ rewrite lookup_set_value_ne by (intros [= ?]; lia)
    | rewrite lookup_set_font_ne by (intros [= ?]; lia)
    | rewrite lookup_set_fill_ne by (intros [= ?]; lia) ].

Lemma write_week_frame st row w r c :
  r ≠ row → (Report.write_week st (row, w)).1 !! (r, c) = st.1 !! (r, c).
Proof. intros Hne. unfold Report.write_week; simpl. by lookup_simpl. Qed.

Lemma write_week_values st row w :
  row_values (Report.write_week st (row, w)).1 row = Some <$> render w.
Proof.
  unfold row_values, render, Report.write_week; simpl.
  repeat (f_equal; [by value_at_simpl|]).
  f_equal. by value_at_simpl.
Qed.

Lemma enumerate_cons {A : Type} (x : A) xs start :
  Report.enumerate (x :: xs) start
  = (start, x) :: Report.enumerate xs (start + 1).
Proof.
  unfold Report.enumerate. pose proof (len_nonneg xs).
  rewrite len_cons, seqZ_cons by lia.
  replace (Z.pred (1 + len xs)) with (len xs) by lia.
  by replace (Z.succ start) with (start + 1) by lia.
Qed.

(** The loop over the weeks of a section. *)
Lemma write_weeks_spec data : ∀ st start,
  (∀ r c, r < start ∨ start + len data ≤ r →
     (foldl Report.write_week st (Report.enumerate data start)).1 !! (r, c)
     = st.1 !! (r, c))
  ∧ (∀ (i : nat) w, data !! i = Some w →
       row_values
         (foldl Report.write_week st (Report.enumerate data start)).1
         (start + Z.of_nat i)
       = Some <$> render w)
  ∧ (foldl Report.write_week st (Report.enumerate data start)).2
    = match data with [] => st.2 | _ :: _ => start + len data - 1 end.
Proof.
  induction data as [|w0 data IH]; intros st start.
  { split; [done|]. split; [|done]. intros i w Hi. done. }
  rewrite enumerate_cons. cbn [foldl].
  destruct (IH (Report.write_week st (start, w0)) (start + 1))
    as (Hframe & Hrows & Hlast).
  rewrite len_cons. pose proof (len_nonneg data) as Hlen.
  split; [|split].
  - intros r c Hr. rewrite Hframe by lia. apply write_week_frame. lia.
  - intros [|i] w Hi; simpl in Hi.
    + injection Hi as <-. change (Z.of_nat 0) with 0. rewrite Z.add_0_r.
      rewrite (row_values_ext (Report.write_week st (start, w0)).1)
        by (intros col; apply Hframe; lia).
      apply write_week_values.
    + replace (start + Z.of_nat (S i)) with (start + 1 + Z.of_nat i) by lia. by apply Hrows.
  - rewrite Hlast. destruct data as [|w1 data']; [|rewrite !len_cons; lia].
    unfold len; simpl. lia.
Qed.

Lemma write_headers_frame (start_row : Z) items :
  ∀ (ws : Report.worksheet) r c,
  r ≠ start_row + 1 →
  foldl (Report.write_header start_row) ws items !! (r, c) = ws !! (r, c).
Proof.
  induction items as [|[col h] items IH]; intros ws r c Hr; [done|].
  cbn [foldl]. rewrite IH by done.
  unfold Report.write_header; simpl. by lookup_simpl.
Qed.

Lemma write_headers_values (start_row : Z) (ws : Report.worksheet) :
  row_values
    (foldl (Report.write_header start_row) ws
           (Report.enumerate Report.headers 1))
    (start_row + 1)
  = (λ h, Some (Report.Text h)) <$> Report.headers.
Proof.
  assert (Report.enumerate Report.headers 1
          = [(1, "Date"); (2, "Week"); (3, "Year"); (4, "Monday High");
             (5, "Monday Low"); (6, "High Break Day");
             (7, "Low Break Day")]%string) as ->
    by (vm_compute; reflexivity).
  unfold row_values, Report.headers.
  cbn [foldl fmap list_fmap]. unfold Report.write_header. cbn [fst snd].
  repeat (f_equal; [by value_at_simpl|]).
  f_equal. by value_at_simpl.
Qed.

Lemma section_at_ext (ws ws' : Report.worksheet) start_row title data :
  (∀ r c, start_row ≤ r < next_row start_row data →
     ws' !! (r, c) = ws !! (r, c)) →
  section_at ws start_row title data →
  section_at ws' start_row title data.
Proof.
  unfold section_at, next_row. intros Hext [Htitle Hdata]. split.
  - rewrite <-Htitle. apply value_at_ext, Hext.
    pose proof (len_nonneg data). destruct data; lia.
  - destruct data as [|w0 data]; simpl in *.
    + rewrite <-Hdata. apply value_at_ext, Hext. lia.
    + destruct Hdata as [Hhead Hrows].
      pose proof (len_nonneg (w0 :: data)). split.
      * rewrite <-Hhead. apply row_values_ext. intros col. apply Hext. lia.
      * intros i w Hi. rewrite <-(Hrows i w Hi).
        apply row_values_ext. intros col. apply Hext.
        apply lookup_lt_Some in Hi. unfold len. lia.
Qed.

Lemma write_section_next ws title data start_row :
  (Report.write_section ws title data start_row).2 = next_row start_row data.
Proof.
  unfold Report.write_section, next_row.
  destruct data as [|w0 data]; [done|]. cbn [snd].
  destruct (write_weeks_spec (w0 :: data)
    (foldl (Report.write_header start_row)
       (Report.set_fill
          (Report.set_font
             (Report.set_value ws (start_row, 1) (Report.Text title))
             (start_row, 1) Report.header_font)
          (start_row, 1) Report.header_fill)
       (Report.enumerate Report.headers 1), start_row)
    (start_row + 2)) as (_ & _ & ->). lia.
Qed.

Lemma write_section_frame ws title data start_row r c :
  r < start_row ∨ next_row start_row data ≤ r →
  (Report.write_section ws title data start_row).1 !! (r, c) = ws !! (r, c).
Proof.
  unfold Report.write_section, next_row. intros Hr.
  destruct data as [|w0 data]; cbn [fst].
  - by lookup_simpl.
  - pose proof (len_nonneg (w0 :: data)).
    destruct (write_weeks_spec (w0 :: data)
      (foldl (Report.write_header start_row)
         (Report.set_fill
            (Report.set_font
               (Report.set_value ws (start_row, 1) (Report.Text title))
               (start_row, 1) Report.header_font)
            (start_row, 1) Report.header_fill)
         (Report.enumerate Report.headers 1), start_row)
      (start_row + 2)) as (Hframe & _ & _).
    rewrite Hframe by lia. cbn [fst].
    rewrite write_headers_frame by lia. by lookup_simpl.
Qed.

Lemma write_section_at ws title data start_row :
  section_at (Report.write_section ws title data start_row).1
             start_row title data.
Proof.
  unfold Report.write_section, section_at.
  destruct data as [|w0 data]; cbn [fst].
  - split; by value_at_simpl.
  - pose proof (len_nonneg (w0 :: data)).
    destruct (write_weeks_spec (w0 :: data)
      (foldl (Report.write_header start_row)
         (Report.set_fill
            (Report.set_font
               (Report.set_value ws (start_row, 1) (Report.Text title))
               (start_row, 1) Report.header_font)
            (start_row, 1) Report.header_fill)
         (Report.enumerate Report.headers 1), start_row)
      (start_row + 2)) as (Hframe & Hrows & _).
    split; [|split].
    + erewrite value_at_ext by (apply Hframe; lia). cbn [fst].
      erewrite value_at_ext by (apply write_headers_frame; lia).
      by value_at_simpl.
    + erewrite row_values_ext by (intros col; apply Hframe; lia). cbn [fst].
      apply write_headers_values.
    + intros i w Hi. by apply Hrows.
Qed.

Lemma next_row_gt start_row data : start_row + 2 ≤ next_row start_row data.
Proof.
  unfold next_row. pose proof (len_nonneg data). destruct data; lia.
Qed.

Lemma day_to_name_weekday d :
  d ∈ [1; 2; 3; 4] → Report.day_to_name (Some d) ∈ weekday_names.
Proof.
  intros [ -> | [ -> | [ -> | -> ] ] ]%weekday_cases; unfold weekday_names;
    vm_compute; set_solver.
Qed.

Lemma outcome_day_names df o :
  o ∈ outcomes df →
  (highBroken o → Report.day_to_name (firstHighBreakDay o) ∈ weekday_names)
  ∧ (¬ highBroken o →
     Report.day_to_name (firstHighBreakDay o) = "Not Broken"%string)
  ∧ (lowBroken o → Report.day_to_name (firstLowBreakDay o) ∈ weekday_names)
  ∧ (¬ lowBroken o →
     Report.day_to_name (firstLowBreakDay o) = "Not Broken"%string).
Proof.
  intros Ho. destruct (outcomes_days df o Ho) as [Hh Hl].
  apply elem_of_outcomes in Ho as (grp & _ & Hc).
  destruct (classify_week_weekdays _ _ Hc) as [Hhd Hld].
  split; [|split; [|split]].
  - intros [d Hd]%Hh. rewrite Hd. by apply day_to_name_weekday, Hhd.
  - intros Hn. destruct (firstHighBreakDay o) as [d|] eqn:Hd; [|done].
    destruct Hn. apply Hh. eauto.
  - intros [d Hd]%Hl. rewrite Hd. by apply day_to_name_weekday, Hld.
  - intros Hn. destruct (firstLowBreakDay o) as [d|] eqn:Hd; [|done].
    destruct Hn. apply Hl. eauto.
Qed.

(** X9.  In the lists analyze_partial_breaks returns, the break days are
    always shown by name: a week of only_high_broken has a weekday name
    (Tuesday to Friday) as High Break Day and "Not Broken" as Low Break
    Day, a week of only_low_broken the reverse, a week of neither_broken
    "Not Broken" twice and a week of both_broken two weekday names.  The
    numeric fallback of day_to_name is never used. *)
Theorem report_names_the_break_days df :
  ∃ only_high only_low neither_l both_l total,
    PartialBreaks.analyze_partial_breaks df
    = Ok (only_high, only_low, neither_l, both_l, total)
    ∧ (∀ w, w ∈ only_high →
         Report.day_to_name (PartialBreaks.wi_High_Break_Day w)
           ∈ weekday_names
         ∧ Report.day_to_name (PartialBreaks.wi_Low_Break_Day w)
           = "Not Broken"%string)
    ∧ (∀ w, w ∈ only_low →
         Report.day_to_name (PartialBreaks.wi_High_Break_Day w)
           = "Not Broken"%string
         ∧ Report.day_to_name (PartialBreaks.wi_Low_Break_Day w)
           ∈ weekday_names)
    ∧ (∀ w, w ∈ neither_l →
         Report.day_to_name (PartialBreaks.wi_High_Break_Day w)
           = "Not Broken"%string
         ∧ Report.day_to_name (PartialBreaks.wi_Low_Break_Day w)
           = "Not Broken"%string)
    ∧ (∀ w, w ∈ both_l →
         Report.day_to_name (PartialBreaks.wi_High_Break_Day w)
           ∈ weekday_names
         ∧ Report.day_to_name (PartialBreaks.wi_Low_Break_Day w)
           ∈ weekday_names).
Proof.
  rewrite analyze_partial_breaks_outcomes. do 5 eexists. split; [done|].
  split; [|split; [|split]];
    intros w (o & -> & [HP Ho]%list_elem_of_filter)%list_elem_of_fmap;
    destruct (outcome_day_names df o Ho) as (Hh & Hnh & Hl & Hnl);
    destruct HP as [HP1 HP2]; simpl; auto.
Qed.

(** X10.  write_section lays a section out from start_row on: the title in
    column A of start_row; for an empty list the notice "No instances
    found" in the next row; otherwise the seven headers in the next row and
    week number i of the list (from 0) in row start_row + 2 + i, with its
    date as yyyy-mm-dd, week, year, Monday high and low and the two break
    day names.  It returns start_row + 2 for an empty list and
    start_row + len(data) + 3 otherwise, and changes no cell above
    start_row or from the returned row on. *)
Theorem write_section_layout ws title data start_row :
  section_at (Report.write_section ws title data start_row).1
             start_row title data
  ∧ (Report.write_section ws title data start_row).2
    = next_row start_row data
  ∧ ∀ r c,
      r < start_row
      ∨ (Report.write_section ws title data start_row).2 ≤ r →
      (Report.write_section ws title data start_row).1 !! (r, c)
      = ws !! (r, c).
Proof.
  split; [apply write_section_at|]. split; [apply write_section_next|].
  intros r c Hr. rewrite write_section_next in Hr.
  by apply write_section_frame.
Qed.

Lemma section_after_section ws title data start_row title' data' start_row' :
  next_row start_row data ≤ start_row' →
  section_at ws start_row title data →
  section_at (Report.write_section ws title' data' start_row').1
             start_row title data.
Proof.
  intros Hle. apply section_at_ext. intros r c Hr.
  apply write_section_frame. lia.
Qed.

Lemma write_sections_sections ws only_high only_low neither_l both_l :
  section_at
    (Report.write_sections ws only_high only_low neither_l both_l).1
    11 "Weeks with Only High Broken:" only_high
  ∧ section_at
      (Report.write_sections ws only_high only_low neither_l both_l).1
      (second_start only_high) "Weeks with Only Low Broken:" only_low
  ∧ section_at
      (Report.write_sections ws only_high only_low neither_l both_l).1
      (third_start only_high only_low)
      "Weeks with Neither Level Broken:" neither_l
  ∧ section_at
      (Report.write_sections ws only_high only_low neither_l both_l).1
      (fourth_start only_high only_low neither_l)
      "Weeks with Both Levels Broken:" both_l
  ∧ (Report.write_sections ws only_high only_low neither_l both_l).2
    = next_row (fourth_start only_high only_low neither_l) both_l.
Proof.
  unfold Report.write_sections. cbn zeta.
  rewrite !write_section_next.
  fold (second_start only_high).
  fold (third_start only_high only_low).
  fold (fourth_start only_high only_low neither_l).
  pose proof (next_row_gt 11 only_high) as H1.
  pose proof (next_row_gt (second_start only_high) only_low) as H2.
  pose proof (next_row_gt (third_start only_high only_low) neither_l) as H3.
  assert (next_row 11 only_high ≤ second_start only_high) as L1
    by (unfold second_start; lia).
  assert (next_row (second_start only_high) only_low
          ≤ third_start only_high only_low) as L2
    by (unfold third_start; lia).
  assert (next_row (third_start only_high only_low) neither_l
          ≤ fourth_start only_high only_low neither_l) as L3
    by (unfold fourth_start; lia).
  split; [|split; [|split; [|split]]].
  - apply section_after_section; [lia|].
    apply section_after_section; [lia|].
    apply section_after_section; [lia|].
    apply write_section_at.
  - apply section_after_section; [lia|].
    apply section_after_section; [lia|].
    apply write_section_at.
  - apply section_after_section; [lia|].
    apply write_section_at.
  - apply write_section_at.
  - done.
Qed.

Lemma write_sections_frame ws only_high only_low neither_l both_l r c :
  r < 11 →
  (Report.write_sections ws only_high only_low neither_l both_l).1 !! (r, c)
  = ws !! (r, c).
Proof.
  intros Hr. unfold Report.write_sections. cbn zeta.
  rewrite !write_section_next.
  pose proof (next_row_gt 11 only_high) as H1.
  pose proof (next_row_gt (next_row 11 only_high + 2) only_low) as H2.
  pose proof (next_row_gt (next_row (next_row 11 only_high + 2) only_low + 2)
                          neither_l) as H3.
  rewrite !write_section_frame; [done|lia..].
Qed.

(** X11.  The four sections create_excel_report writes do not overwrite
    each other or the summary: in the finished sheet the first section
    stands at row 11 and each further section two rows after the row the
    previous write_section returned, every section shows all weeks of its
    list, and the cells above row 11 are as they were before. *)
Theorem report_sections_do_not_overlap ws only_high only_low neither_l both_l :
  section_at
    (Report.write_sections ws only_high only_low neither_l both_l).1
    11 "Weeks with Only High Broken:" only_high
  ∧ section_at
      (Report.write_sections ws only_high only_low neither_l both_l).1
      (second_start only_high) "Weeks with Only Low Broken:" only_low
  ∧ section_at
      (Report.write_sections ws only_high only_low neither_l both_l).1
      (third_start only_high only_low)
      "Weeks with Neither Level Broken:" neither_l
  ∧ section_at
      (Report.write_sections ws only_high only_low neither_l both_l).1
      (fourth_start only_high only_low neither_l)
      "Weeks with Both Levels Broken:" both_l
  ∧ (Report.write_sections ws only_high only_low neither_l both_l).2
    = next_row (fourth_start only_high only_low neither_l) both_l
  ∧ ∀ r c, r < 11 →
      (Report.write_sections ws only_high only_low neither_l both_l).1
        !! (r, c)
      = ws !! (r, c).
Proof.
  destruct (write_sections_sections ws only_high only_low neither_l both_l)
    as (S1 & S2 & S3 & S4 & Hrow).
  repeat (split; [done|]). intros r c Hr. by apply write_sections_frame.
Qed.

Lemma section_at_row ws start_row title data w :
  section_at ws start_row title data → w ∈ data →
  ∃ r, start_row + 2 ≤ r < next_row start_row data
       ∧ row_values ws r = Some <$> render w.
Proof.
  intros [_ Hdata] [i Hi]%list_elem_of_lookup.
  destruct data as [|w0 data]; [done|]. destruct Hdata as [_ Hrows].
  exists (start_row + 2 + Z.of_nat i). split; [|by apply Hrows].
  apply lookup_lt_Some in Hi. unfold next_row, len. lia.
Qed.

(** X12.  Every week of the input frame that has a Monday row gets a row
    of its own data in the report: after analyze_partial_breaks and the
    four write_section calls of create_excel_report, some row between row
    13 and the row the last write_section returned holds a week_info with
    the Week and Year of that Monday row, the Date, High and Low of the
    first Monday row of the week, and the break days read in row order,
    rendered as date, week, year, Monday high and low and break day
    names. *)
Theorem every_eligible_week_has_a_report_row df ws :
  ∃ only_high only_low neither_l both_l total,
    PartialBreaks.analyze_partial_breaks df
    = Ok (only_high, only_low, neither_l, both_l, total)
    ∧ ∀ m, m ∈ df → DayOfWeek m = 0 →
        ∃ m0 w r,
          first_monday df (week_year m) = Some m0
          ∧ PartialBreaks.wi_Week w = Week m
          ∧ PartialBreaks.wi_Year w = Year m
          ∧ PartialBreaks.wi_Date w = Date m0
          ∧ PartialBreaks.wi_Monday_High w = High m0
          ∧ PartialBreaks.wi_Monday_Low w = Low m0
          ∧ break_days_in_row_order df w
          ∧ 13 ≤ r
              < (Report.write_sections ws only_high only_low neither_l
                                       both_l).2
          ∧ row_values
              (Report.write_sections ws only_high only_low neither_l
                                     both_l).1 r
            = Some <$> render w.
Proof.
  rewrite analyze_partial_breaks_outcomes. do 5 eexists. split; [done|].
  intros m Hm Hd.
  destruct (first_monday_is_Some df m Hm Hd) as [m0 Hm0].
  destruct (eligible_week_outcome df _ m0 Hm0) as (o & Ho & Hk).
  destruct (outcome_in_row_order df o Ho)
    as (m0' & Hm0' & HDate & HHigh & HLow & Hhd & Hld).
  rewrite Hk, Hm0 in Hm0'. injection Hm0' as <-.
  set (oh := info_of <$> filter onlyHigh (outcomes df)).
  set (ol := info_of <$> filter onlyLow (outcomes df)).
  set (ne := info_of <$> filter neither (outcomes df)).
  set (bo := info_of <$> filter both (outcomes df)).
  assert (∃ r, 13 ≤ r < (Report.write_sections ws oh ol ne bo).2
               ∧ row_values (Report.write_sections ws oh ol ne bo).1 r
                 = Some <$> render (info_of o)) as (r & Hr & Hv).
  { destruct (write_sections_sections ws oh ol ne bo)
      as (S1 & S2 & S3 & S4 & ->).
    pose proof (next_row_gt 11 oh) as H1.
    pose proof (next_row_gt (second_start oh) ol) as H2.
    pose proof (next_row_gt (third_start oh ol) ne) as H3.
    pose proof (next_row_gt (fourth_start oh ol ne) bo) as H4.
    assert (second_start oh = next_row 11 oh + 2) as E2 by done.
    assert (third_start oh ol = next_row (second_start oh) ol + 2) as E3
      by done.
    assert (fourth_start oh ol ne = next_row (third_start oh ol) ne + 2)
      as E4 by done.
    assert (∀ (P : WeekOutcome → Prop) `{!∀ o, Decision (P o)},
              P o → info_of o ∈ info_of <$> filter P (outcomes df)) as Hin.
    { intros P ? HP. by apply list_elem_of_fmap_2, list_elem_of_filter. }
    destruct (highBroken o) eqn:Hh, (lowBroken o) eqn:Hl.
    - destruct (section_at_row _ _ _ _ (info_of o) S4) as (r & Hr & Hv).
      { apply (Hin both). unfold both. rewrite Hh, Hl. simpl. tauto. }
      exists r. split; [lia|done].
    - destruct (section_at_row _ _ _ _ (info_of o) S1) as (r & Hr & Hv).
      { apply (Hin onlyHigh). unfold onlyHigh. rewrite Hh, Hl. simpl. tauto. }
      exists r. split; [lia|done].
    - destruct (section_at_row _ _ _ _ (info_of o) S2) as (r & Hr & Hv).
      { apply (Hin onlyLow). unfold onlyLow. rewrite Hh, Hl. simpl. tauto. }
      exists r. split; [lia|done].
    - destruct (section_at_row _ _ _ _ (info_of o) S3) as (r & Hr & Hv).
      { apply (Hin neither). unfold neither. rewrite Hh, Hl. simpl. tauto. }
      exists r. split; [lia|done]. }
  exists m0, (info_of o), r.
  split; [done|]. cbn [info_of PartialBreaks.wi_Week PartialBreaks.wi_Year
    PartialBreaks.wi_Date PartialBreaks.wi_Monday_High
    PartialBreaks.wi_Monday_Low].
  rewrite Hk. split; [done|]. split; [done|].
  split; [done|]. split; [done|]. split; [done|].
  split; [|done].
  exists m0. rewrite info_key_of, Hk. rewrite Hk in Hhd, Hld. done.
Qed.

(** The week of [frame_both] in a new sheet: the Monday row 2024-01-01 of
    ISO week 1 of 2024, with high 10 and low 5, has its report row. *)
Lemma every_eligible_week_has_a_report_row_witness :
  ∃ only_high only_low neither_l both_l total,
    PartialBreaks.analyze_partial_breaks frame_both
    = Ok (only_high, only_low, neither_l, both_l, total)
    ∧ ∃ w r,
        PartialBreaks.wi_Week w = 1 ∧ PartialBreaks.wi_Year w = 2024
        ∧ PartialBreaks.wi_Monday_High w = Qc_of_Z 10
        ∧ PartialBreaks.wi_Monday_Low w = Qc_of_Z 5
        ∧ 13 ≤ r
        ∧ row_values
            (Report.write_sections ∅ only_high only_low neither_l both_l).1
            r
          = Some <$> render w.
Proof.
  destruct (every_eligible_week_has_a_report_row frame_both ∅)
    as (oh & ol & ne & bo & total & Hrun & Hrows).
  exists oh, ol, ne, bo, total. split; [exact Hrun|].
  destruct (Hrows (add_columns monday_1))
    as (m0 & w & r & Hm0 & Hw & Hy & _ & Hh & Hl & _ & Hr & Hv).
  { unfold frame_both, load_data. rewrite fmap_cons. left. }
  { vm_compute. reflexivity. }
  assert (week_year (add_columns monday_1) = (1, 2024)) as Hk
    by (vm_compute; reflexivity).
  rewrite Hk in Hm0.
  assert (first_monday frame_both (1, 2024) = Some (add_columns monday_1))
    as Hfirst by (vm_compute; reflexivity).
  assert (m0 = add_columns monday_1) as -> by congruence.
  exists w, r.
  split; [exact (eq_trans Hw (f_equal fst Hk))|].
  split; [exact (eq_trans Hy (f_equal snd Hk))|].
  split; [exact Hh|]. split; [exact Hl|]. split; [lia|exact Hv].
Defined.

(** ** monday_partial_breaks.py: the two percentages *)

Lemma Qc_div_parts (a b n : Z) :
  n ≠ 0 → a + b = n → (Qc_of_Z a / Qc_of_Z n + Qc_of_Z b / Qc_of_Z n = 1)%Qc.
Proof.
  intros Hn <-. pose proof (Qc_of_Z_nonzero _ Hn) as Hnz.
  rewrite Z2Qc_inj_add in *. by field.
Qed.

(** X13.  The run of monday_partial_breaks.py stops with
    ZeroDivisionError exactly when no week has a Monday record
    (total_mondays is 0).  Otherwise the two percentages of its summary,
    weeks with incomplete breaks and weeks with both levels broken, lie
    between 0 and 1 and add up to 1. *)
Theorem partial_breaks_report_percentages df :
  ∃ only_high only_low neither_l both_l total,
    PartialBreaks.analyze_partial_breaks df
    = Ok (only_high, only_low, neither_l, both_l, total)
    ∧ 0 ≤ total
    ∧ (total = 0 → PartialBreaks.main df = Raise ZeroDivisionError)
    ∧ (0 < total →
       ∃ s,
         PartialBreaks.main df = Ok s
         ∧ (PartialBreaks.incomplete_breaks s
            + PartialBreaks.complete_breaks s = 1)%Qc
         ∧ (0 ≤ PartialBreaks.incomplete_breaks s ≤ 1)%Qc
         ∧ (0 ≤ PartialBreaks.complete_breaks s ≤ 1)%Qc).
Proof.
  rewrite analyze_partial_breaks_outcomes. do 5 eexists. split; [done|].
  split; [apply len_nonneg|].
  unfold PartialBreaks.main. rewrite analyze_partial_breaks_outcomes.
  cbn [mbind result_bind].
  unfold PartialBreaks.create_excel_report, true_div. rewrite !len_fmap.
  pose proof (categories_exhaustive (outcomes df)) as Hex.
  pose proof (len_nonneg (filter onlyHigh (outcomes df))).
  pose proof (len_nonneg (filter onlyLow (outcomes df))).
  pose proof (len_nonneg (filter neither (outcomes df))).
  pose proof (len_nonneg (filter both (outcomes df))).
  split.
  - intros Hz.
    destruct (decide (len (outcomes df) = 0)); [reflexivity|done].
  - intros Hpos.
    destruct (decide (len (outcomes df) = 0)) as [Hz|_]; [lia|]. simpl.
    eexists. split; [done|]. simpl.
    rewrite <-Z2Qc_inj_0, <-Z2Qc_inj_1.
    split; [|split].
    + rewrite Z2Qc_inj_1. apply Qc_div_parts; lia.
    + apply Qc_div_between; lia.
    + apply Qc_div_between; lia.
Qed.

(** ** process_candles.py: a written file read again *)

Lemma has_comma_append s t :
  has_comma (s +:+ t) = has_comma s || has_comma t.
Proof.
  induction s as [|a s IH]; [done|]. simpl. by rewrite IH, orb_assoc.
Qed.

Lemma has_comma_pretty_N_go x : ∀ s,
  has_comma (pretty_N_go x s) = has_comma s.
Proof.
  induction (N.lt_wf_0 x) as [x _ IH]; intros s.
  assert (x = 0 ∨ 0 < x)%N as [->|Hx] by lia.
  - by rewrite pretty_N_go_0.
  - rewrite pretty_N_go_step by done. rewrite IH by (by apply N.div_lt).
    simpl. unfold pretty_N_char. by repeat case_match.
Qed.

Lemma has_comma_pretty_Z (z : Z) : has_comma (pretty z) = false.
Proof.
  assert (∀ p, has_comma (pretty (Npos p)) = false) as Hpos.
  { intros p. unfold pretty, pretty_N. case_decide; [done|].
    by rewrite has_comma_pretty_N_go. }
  unfold pretty, pretty_Z. destruct z as [|p|p]; [done|apply Hpos|].
  rewrite has_comma_append. unfold pretty at 1, pretty_positive.
  by rewrite Hpos.
Qed.

Lemma has_comma_pad2 n : has_comma (Report.pad2 n) = false.
Proof.
  unfold Report.pad2. case_decide.
  - by rewrite has_comma_append, has_comma_pretty_Z.
  - apply has_comma_pretty_Z.
Qed.

Lemma has_comma_strftime_Ymd date :
  has_comma (Report.strftime_Ymd date) = false.
Proof.
  unfold Report.strftime_Ymd.
  destruct (Report.civil_from_days date) as [[y m] d].
  by rewrite !has_comma_append, has_comma_pretty_Z, !has_comma_pad2.
Qed.

Section process_candles_again.
Context (parse_german_date : string → option Z).
Context (parse_needs_comma :
  ∀ s, is_Some (parse_german_date s) → has_comma s = true).

Lemma dropna_read_written written :
  ProcessCandles.dropna_Date (read_written parse_german_date written) = [].
Proof.
  unfold ProcessCandles.dropna_Date, read_written.
  induction written as [|c written IH]; [done|].
  rewrite fmap_cons. cbn [omap list_omap ProcessCandles.raw_Date].
  destruct (parse_german_date (Report.strftime_Ymd (candle_date c)))
    as [d|] eqn:Hd; [|exact IH].
  pose proof (parse_needs_comma _ (mk_is_Some _ _ Hd)) as Hc.
  by rewrite has_comma_strftime_Ymd in Hc.
Qed.

(** X6.  [process_candles] cannot be run on a file it has written.  The
    file holds its dates in the form yyyy-mm-dd, which has no comma, and
    [parse_german_date] parses with the format '%A, %d. %B %Y', so for any
    parser that accepts only strings with a comma no date of the file is
    parsed: every row is dropped and the run raises AttributeError at the
    first use of the datetime accessor, writing nothing.  The same holds
    for any file of candles written with that date format. *)
Theorem process_candles_rejects_written_file sort_values_Date written :
  ProcessCandles.process_candles sort_values_Date
    (read_written parse_german_date written)
  = Raise AttributeError.
Proof. apply process_candles_no_date, dropna_read_written. Qed.

End process_candles_again.

(** The three candles written for [raw_sample], read by a parser that
    accepts exactly the strings with a comma. *)
Lemma process_candles_rejects_written_file_witness :
  ProcessCandles.process_candles ProcessCandles.sort_by_Date raw_sample
  = Ok [monday_1; tuesday_2; wednesday_3]
  ∧ Report.strftime_Ymd <$> (candle_date <$> [monday_1; tuesday_2; wednesday_3])
    = ["2024-01-01"; "2024-01-02"; "2024-01-03"]%string
  ∧ ProcessCandles.process_candles ProcessCandles.sort_by_Date
      (read_written (λ s, if has_comma s then Some 0 else None)
                    [monday_1; tuesday_2; wednesday_3])
    = Raise AttributeError.
Proof.
  split; [vm_compute; reflexivity|]. split; [vm_compute; reflexivity|].
  apply (process_candles_rejects_written_file
           (λ s, if has_comma s then Some 0 else None)).
  intros s [d Hd]. by destruct (has_comma s).
Defined.
